(** * acer-wmi-ext: a shallow embedding of the driver's state-control core

    The development follows [src/acer-wmi-ext.c].  The driver's file-scope
    variables are gathered in the record [driver]; every function of the
    driver that touches them, the firmware or the embedded controller is a
    computation in a small state monad over a [world], which pairs the
    driver's variables with the chronological trace of the calls the driver
    made to its surroundings.

    What the kernel and the firmware answer is not code of the driver: it is
    the record [env], a variable of the section [Driver].  Each oracle of
    [env] receives the trace so far, so that an answer may depend on
    everything the driver did before (a registration that fails four times
    and then succeeds, a firmware that acknowledges only the first call).

    Kernel log output ([pr_info], [pr_err], [pr_warn]) is not modelled. *)

From Stdlib Require Import ZArith List String Bool Lia DecimalString.
From Stdlib.Strings Require Import Byte.
Import ListNotations.
Open Scope Z_scope.

(** ** Machine integers and byte buffers *)

Definition to_u8 (z : Z) : Z := z mod 256.
Definition to_u64 (z : Z) : Z := z mod 2 ^ 64.

Definition byte_val (b : byte) : Z := Z.of_N (Byte.to_N b).

Definition byte_of_Z (z : Z) : byte :=
  match Byte.of_N (Z.to_N (to_u8 z)) with
  | Some b => b
  | None => x00
  end.

(** The value of a little-endian integer stored in [bs], as the casts
    [*((u32 * ) p)] and [*((u64 * ) p)] read it on the x86 machines the
    driver runs on. *)
Fixpoint le_decode (bs : list byte) : Z :=
  match bs with
  | [] => 0
  | b :: rest => byte_val b + 256 * le_decode rest
  end.

(** The [n] bytes of the object representation of [v], least significant
    first. *)
Fixpoint le_encode (n : nat) (v : Z) : list byte :=
  match n with
  | O => []
  | S k => byte_of_Z v :: le_encode k (v / 256)
  end.

Definition bytes_of_u64 (v : Z) : list byte := le_encode 8 (to_u64 v).

Definition buffer_length (bs : list byte) : Z := Z.of_nat (List.length bs).

(** ** Constants of the kernel headers

    The values below are declared in the kernel's headers ([errno.h],
    [acexcep.h], [err.h]), not in the driver. *)

Definition EIO : Z := 5.
Definition ENODEV : Z := 19.
Definition EINVAL : Z := 22.
Definition EOPNOTSUPP : Z := 95.

Definition AE_OK : Z := 0.
Definition AE_ERROR : Z := 1.
Definition ACPI_FAILURE (status : Z) : bool := negb (status =? AE_OK).

Definition MAX_ERRNO : Z := 4095.
(** A pointer is the signed value of its machine word; the error pointers are
    the top [MAX_ERRNO] addresses. *)
Definition IS_ERR (ptr : Z) : bool := (- MAX_ERRNO <=? ptr) && (ptr <? 0).
Definition PTR_ERR (ptr : Z) : Z := ptr.

Inductive acpi_object : Type :=
  | ACPI_TYPE_INTEGER (value : Z)
  | ACPI_TYPE_BUFFER (buffer : list byte)
  | ACPI_TYPE_OTHER (type : Z).

(** [enum platform_profile_option] of [linux/platform_profile.h]. *)
Inductive platform_profile_option : Type :=
  | PLATFORM_PROFILE_LOW_POWER
  | PLATFORM_PROFILE_COOL
  | PLATFORM_PROFILE_QUIET
  | PLATFORM_PROFILE_BALANCED
  | PLATFORM_PROFILE_BALANCED_PERFORMANCE
  | PLATFORM_PROFILE_PERFORMANCE
  | PLATFORM_PROFILE_CUSTOM.

(** ** Constants and structures of the driver *)

Definition WMI_GUID1 : string := "79772EC5-04B1-4bfd-843C-61E7F77B6CC9".
Definition WMI_GUID2 : string := "61EF69EA-865C-4BC3-A502-A0DEBA0CB531".

Definition ACER_WMID_SET_FUNCTION : Z := 1.
Definition ACER_WMID_GET_FUNCTION : Z := 2.

Definition HEALTH_MODE : Z := 1.
Definition CALIBRATION_MODE : Z := 2.

Definition ACER_SYSTEM_CONTROL_MODE_EC_OFFSET : Z := 69. (* 0x45 *)
Definition SYSTEM_CONTROL_BALANCED : Z := 1.
Definition SYSTEM_CONTROL_SILENT : Z := 2.
Definition SYSTEM_CONTROL_PERFORMANCE : Z := 3.

Record get_battery_health_control_status_input : Type := {
  gi_uBatteryNo : Z;
  gi_uFunctionQuery : Z;
  gi_uReserved : list Z
}.

Record get_battery_health_control_status_output : Type := {
  uFunctionList : Z;
  uReturn : list Z;
  uFunctionStatus : list Z
}.

Record set_battery_health_control_input : Type := {
  si_uBatteryNo : Z;
  si_uFunctionMask : Z;
  si_uFunctionStatus : Z;
  si_uReservedIn : list Z
}.

(** The packed structures as byte buffers: every field is a [u8], in
    declaration order. *)
Definition encode_get_input (p : get_battery_health_control_status_input)
  : list byte :=
  map byte_of_Z (gi_uBatteryNo p :: gi_uFunctionQuery p :: gi_uReserved p).

Definition encode_set_input (p : set_battery_health_control_input)
  : list byte :=
  map byte_of_Z
      (si_uBatteryNo p :: si_uFunctionMask p :: si_uFunctionStatus p
       :: si_uReservedIn p).

(** The read [*((struct get_battery_health_control_status_output * ) p)]:
    the first eight bytes behind the pointer.  The driver uses the result
    only when the buffer has eight bytes; for a shorter buffer the bytes
    read past its end are taken as zero here. *)
Definition decode_get_output (buf : list byte)
  : get_battery_health_control_status_output :=
  let at_ (i : nat) := byte_val (nth i buf x00) in
  {| uFunctionList := at_ 0%nat;
     uReturn := [at_ 1%nat; at_ 2%nat];
     uFunctionStatus := [at_ 3%nat; at_ 4%nat; at_ 5%nat; at_ 6%nat; at_ 7%nat] |}.

Record battery_info : Type := {
  health_mode : Z;       (* s8 *)
  calibration_mode : Z   (* s8 *)
}.

Record quirk_entry : Type := {
  system_control_mode : Z;  (* u8 *)
  usb_charge_mode : Z       (* u8 *)
}.

Definition quirk_unknown : quirk_entry :=
  {| system_control_mode := 0; usb_charge_mode := 0 |}.
Definition quirk_acer_system_control_mode : quirk_entry :=
  {| system_control_mode := 1; usb_charge_mode := 0 |}.
Definition quirk_acer_sfg174_73 : quirk_entry :=
  {| system_control_mode := 1; usb_charge_mode := 1 |}.

(** The file-scope variables of the driver. *)
Record driver : Type := {
  battery_status : battery_info;
  control_mode : Z;                   (* short *)
  enable_health_mode : Z;             (* short, module parameter *)
  enable_system_control_mode : Z;     (* short, module parameter *)
  quirks : quirk_entry;
  usb_charge_mode_enable : Z;         (* int *)
  system_control_mode_inited : Z;     (* int *)
  platform_profile_device : Z;        (* struct device * *)
  platform_profile_support : bool
}.

(** The variables as their initialisers leave them, for given module
    parameters and a resolved quirk entry. *)
Definition initial_driver (health_param control_param : Z) (q : quirk_entry)
  : driver :=
  {| battery_status := {| health_mode := 0; calibration_mode := 0 |};
     control_mode := -1;
     enable_health_mode := health_param;
     enable_system_control_mode := control_param;
     quirks := q;
     usb_charge_mode_enable := 0;
     system_control_mode_inited := 0;
     platform_profile_device := 0;
     platform_profile_support := false |}.

Definition set_battery_status (v : battery_info) (d : driver) : driver :=
  {| battery_status := v;
     control_mode := control_mode d;
     enable_health_mode := enable_health_mode d;
     enable_system_control_mode := enable_system_control_mode d;
     quirks := quirks d;
     usb_charge_mode_enable := usb_charge_mode_enable d;
     system_control_mode_inited := system_control_mode_inited d;
     platform_profile_device := platform_profile_device d;
     platform_profile_support := platform_profile_support d |}.

Definition set_control_mode (v : Z) (d : driver) : driver :=
  {| battery_status := battery_status d;
     control_mode := v;
     enable_health_mode := enable_health_mode d;
     enable_system_control_mode := enable_system_control_mode d;
     quirks := quirks d;
     usb_charge_mode_enable := usb_charge_mode_enable d;
     system_control_mode_inited := system_control_mode_inited d;
     platform_profile_device := platform_profile_device d;
     platform_profile_support := platform_profile_support d |}.

Definition set_usb_charge_mode_enable (v : Z) (d : driver) : driver :=
  {| battery_status := battery_status d;
     control_mode := control_mode d;
     enable_health_mode := enable_health_mode d;
     enable_system_control_mode := enable_system_control_mode d;
     quirks := quirks d;
     usb_charge_mode_enable := v;
     system_control_mode_inited := system_control_mode_inited d;
     platform_profile_device := platform_profile_device d;
     platform_profile_support := platform_profile_support d |}.

Definition set_system_control_mode_inited (v : Z) (d : driver) : driver :=
  {| battery_status := battery_status d;
     control_mode := control_mode d;
     enable_health_mode := enable_health_mode d;
     enable_system_control_mode := enable_system_control_mode d;
     quirks := quirks d;
     usb_charge_mode_enable := usb_charge_mode_enable d;
     system_control_mode_inited := v;
     platform_profile_device := platform_profile_device d;
     platform_profile_support := platform_profile_support d |}.

Definition set_platform_profile_device (v : Z) (d : driver) : driver :=
  {| battery_status := battery_status d;
     control_mode := control_mode d;
     enable_health_mode := enable_health_mode d;
     enable_system_control_mode := enable_system_control_mode d;
     quirks := quirks d;
     usb_charge_mode_enable := usb_charge_mode_enable d;
     system_control_mode_inited := system_control_mode_inited d;
     platform_profile_device := v;
     platform_profile_support := platform_profile_support d |}.

Definition set_platform_profile_support (v : bool) (d : driver) : driver :=
  {| battery_status := battery_status d;
     control_mode := control_mode d;
     enable_health_mode := enable_health_mode d;
     enable_system_control_mode := enable_system_control_mode d;
     quirks := quirks d;
     usb_charge_mode_enable := usb_charge_mode_enable d;
     system_control_mode_inited := system_control_mode_inited d;
     platform_profile_device := platform_profile_device d;
     platform_profile_support := v |}.

(** ** The surroundings: events, oracles, and the monad *)

Inductive event : Type :=
  | EvWmi (guid : string) (instance method_id : Z) (input : list byte)
  | EvEcRead (addr : Z)
  | EvEcWrite (addr val : Z)
  | EvRegister
  | EvSleep (msecs : Z).

Record env : Type := {
  wmi_has_guid : string -> bool;
  (* status and result object (NULL when absent) of a method evaluation *)
  wmi_evaluate_method :
    list event -> string -> Z -> Z -> list byte -> Z * option acpi_object;
  (* error code and the byte read *)
  ec_read : list event -> Z -> Z * byte;
  ec_write : list event -> Z -> Z -> Z;
  (* the pointer devm_platform_profile_register returns *)
  devm_platform_profile_register : list event -> Z;
  (* error code and parsed value *)
  kstrtobool : string -> Z * bool;
  kstrtoint : string -> Z * Z;
  (* sscanf(buf, "%hhd", &val): number of conversions and the byte stored *)
  sscanf_hhd : string -> Z * byte
}.

Record world : Type := {
  drv : driver;
  trace : list event
}.

Definition M (A : Type) : Type := world -> A * world.

Definition ret {A : Type} (a : A) : M A := fun w => (a, w).

Definition bind {A B : Type} (m : M A) (k : A -> M B) : M B :=
  fun w => let (a, w') := m w in k a w'.

Declare Scope drv_scope.
Delimit Scope drv_scope with drv.
Notation "x <- c1 ;; c2" := (bind c1 (fun x => c2))
  (at level 61, c1 at next level, right associativity) : drv_scope.
Notation "' pat <- c1 ;; c2" :=
  (bind c1 (fun x => match x with pat => c2 end))
  (at level 61, pat pattern, c1 at next level, right associativity) : drv_scope.
Notation "c1 ;; c2" := (bind c1 (fun _ => c2))
  (at level 61, right associativity) : drv_scope.
Open Scope drv_scope.

Definition load {A : Type} (field : driver -> A) : M A :=
  fun w => (field (drv w), w).

Definition store (update : driver -> driver) : M unit :=
  fun w => (tt, {| drv := update (drv w); trace := trace w |}).

Definition emit (e : event) : M unit :=
  fun w => (tt, {| drv := drv w; trace := trace w ++ [e] |}).

Definition history : M (list event) := fun w => (trace w, w).

(** Observations on traces. *)
Definition is_ec_read (e : event) : bool :=
  match e with EvEcRead _ => true | _ => false end.
Definition is_register (e : event) : bool :=
  match e with EvRegister => true | _ => false end.

Definition sleeps (tr : list event) : list Z :=
  flat_map (fun e => match e with EvSleep d => [d] | _ => [] end) tr.

Definition count_events (p : event -> bool) (tr : list event) : nat :=
  List.length (filter p tr).

(** [sprintf(buf, "%d\n", v)]: the text written and its length. *)
Definition newline : string := String (Ascii.ascii_of_nat 10) EmptyString.
Definition sprintf_d (v : Z) : Z * string :=
  let text := (NilZero.string_of_int (Z.to_int v) ++ newline)%string in
  (Z.of_nat (String.length text), text).

(** [set_bit(nr, addr)] on the one-word bitmap of profile choices. *)
Definition profile_index (p : platform_profile_option) : Z :=
  match p with
  | PLATFORM_PROFILE_LOW_POWER => 0
  | PLATFORM_PROFILE_COOL => 1
  | PLATFORM_PROFILE_QUIET => 2
  | PLATFORM_PROFILE_BALANCED => 3
  | PLATFORM_PROFILE_BALANCED_PERFORMANCE => 4
  | PLATFORM_PROFILE_PERFORMANCE => 5
  | PLATFORM_PROFILE_CUSTOM => 6
  end.
Definition set_bit (p : platform_profile_option) (choices : Z) : Z :=
  Z.lor choices (Z.shiftl 1 (profile_index p)).

(** ** The driver *)

Section Driver.

Variable K : env.

(** *** Calls into the surroundings *)

Definition call_wmi (guid : string) (instance method_id : Z)
    (input : list byte) : M (Z * option acpi_object) :=
  h <- history ;;
  emit (EvWmi guid instance method_id input) ;;
  ret (wmi_evaluate_method K h guid instance method_id input).

Definition call_ec_read (addr : Z) : M (Z * byte) :=
  h <- history ;;
  emit (EvEcRead (to_u8 addr)) ;;
  ret (ec_read K h (to_u8 addr)).

Definition call_ec_write (addr val : Z) : M Z :=
  h <- history ;;
  emit (EvEcWrite (to_u8 addr) (to_u8 val)) ;;
  ret (ec_write K h (to_u8 addr) (to_u8 val)).

Definition call_register : M Z :=
  h <- history ;;
  emit EvRegister ;;
  ret (devm_platform_profile_register K h).

Definition msleep (msecs : Z) : M unit := emit (EvSleep msecs).

(** *** WMID ApgeAction interface *)

(** Returns the status and, when the evaluation did not fail, the value
    written to [*out]. *)
Definition acer_wmi_apgeaction_exec_u64 (method_id in_ : Z)
  : M (Z * option Z) :=
  '(status, obj) <- call_wmi WMI_GUID2 0 method_id (bytes_of_u64 in_) ;;
  if ACPI_FAILURE status then ret (status, None)
  else
    let tmp :=
      match obj with
      | Some (ACPI_TYPE_BUFFER buffer) =>
          if buffer_length buffer =? 4 then le_decode (firstn 4 buffer)
          else if buffer_length buffer =? 8 then le_decode (firstn 8 buffer)
          else 0
      | Some (ACPI_TYPE_INTEGER value) => to_u64 value
      | _ => 0
      end in
    ret (status, Some tmp).

(** *** Battery health control *)

(** Every caller passes [&battery_status] for [bat_status]. *)
Definition get_battery_health_control_status : M Z :=
  let params := {| gi_uBatteryNo := 1; gi_uFunctionQuery := 1;
                   gi_uReserved := [0; 0] |} in
  '(status, output) <- call_wmi WMI_GUID1 0 20 (encode_get_input params) ;;
  if ACPI_FAILURE status then ret status
  else
    match output with
    | None => ret AE_ERROR
    | Some (ACPI_TYPE_BUFFER buffer) =>
        let r := decode_get_output buffer in
        if negb (buffer_length buffer =? 8) then ret AE_ERROR
        else
          store (set_battery_status
            {| health_mode :=
                 if negb (Z.land (uFunctionList r) HEALTH_MODE =? 0)
                 then (if nth 0 (uFunctionStatus r) 0 >? 0 then 1 else 0)
                 else -1;
               calibration_mode :=
                 if negb (Z.land (uFunctionList r) CALIBRATION_MODE =? 0)
                 then (if nth 1 (uFunctionStatus r) 0 >? 0 then 1 else 0)
                 else -1 |}) ;;
          ret status
    | Some _ => ret AE_ERROR
    end.

Definition set_battery_health_control (function : Z) (function_status : bool)
  : M Z :=
  let params := {| si_uBatteryNo := 1;
                   si_uFunctionMask := function;
                   si_uFunctionStatus := Z.b2z function_status;
                   si_uReservedIn := [0; 0; 0; 0; 0] |} in
  '(status, output) <- call_wmi WMI_GUID1 0 21 (encode_set_input params) ;;
  if ACPI_FAILURE status then ret status
  else
    match output with
    | None => ret AE_ERROR
    | Some (ACPI_TYPE_BUFFER buffer) =>
        if negb (buffer_length buffer =? 4) then ret AE_ERROR
        else ret status
    | Some _ => ret AE_ERROR
    end.

Definition init_state : M Z := get_battery_health_control_status.

(** The comparison with the old state only selects log lines. *)
Definition update_state : M unit :=
  get_battery_health_control_status ;; ret tt.

Definition health_mode_show : M (Z * string) :=
  b <- load battery_status ;;
  ret (sprintf_d (health_mode b)).

Definition health_mode_store (buf : string) (count : Z) : M Z :=
  b <- load battery_status ;;
  if health_mode b <? 0 then ret 0
  else
    let '(err, param_val) := kstrtobool K buf in
    if negb (err =? 0) then ret err
    else
      set_battery_health_control HEALTH_MODE param_val ;;
      update_state ;;
      ret count.

Definition calibration_mode_show : M (Z * string) :=
  b <- load battery_status ;;
  ret (sprintf_d (calibration_mode b)).

Definition calibration_mode_store (buf : string) (count : Z) : M Z :=
  b <- load battery_status ;;
  if calibration_mode b <? 0 then ret 0
  else
    let '(err, param_val) := kstrtobool K buf in
    if negb (err =? 0) then ret err
    else
      set_battery_health_control CALIBRATION_MODE param_val ;;
      update_state ;;
      ret count.

(** *** System control mode *)

Definition system_control_mode_show : M (Z * string) :=
  m <- load control_mode ;;
  ret (sprintf_d m).

Definition system_control_mode_store (buf : string) (count : Z) : M Z :=
  m <- load control_mode ;;
  if m <? 0 then ret 0
  else
    let '(err, param_val) := kstrtoint K buf in
    if negb (err =? 0) then ret err
    else if (param_val <? SYSTEM_CONTROL_BALANCED)
            || (param_val >? SYSTEM_CONTROL_PERFORMANCE)
    then ret (- EINVAL)
    else
      err <- call_ec_write ACER_SYSTEM_CONTROL_MODE_EC_OFFSET param_val ;;
      if err <? 0 then ret err
      else
        store (set_control_mode param_val) ;;
        ret count.

(** *** USB charging *)

Definition init_usb_charge_mode : M unit :=
  q <- load quirks ;;
  if usb_charge_mode q =? 0 then ret tt
  else if negb (wmi_has_guid K WMI_GUID2) then ret tt
  else
    '(status, result) <-
      acer_wmi_apgeaction_exec_u64 ACER_WMID_GET_FUNCTION 4 ;;
    match result with
    | None => ret tt
    | Some result =>
        if ACPI_FAILURE status then ret tt
        else if result =? 663296 then store (set_usb_charge_mode_enable 0)
        else if (result =? 659200) || (result =? 1314560)
                || (result =? 1969920)
        then store (set_usb_charge_mode_enable 1)
        else store (set_usb_charge_mode_enable (-1))
    end.

Definition usb_charge_mode_show : M (Z * string) :=
  v <- load usb_charge_mode_enable ;;
  ret (sprintf_d v).

Definition usb_charge_mode_store (buf : string) (count : Z) : M Z :=
  q <- load quirks ;;
  if usb_charge_mode q =? 0 then ret (- EOPNOTSUPP)
  else
    let '(n, stored) := sscanf_hhd K buf in
    if negb (n =? 1) then ret (- EINVAL)
    else
      let val := byte_val stored in
      let send (input_value : Z) : M Z :=
        store (set_usb_charge_mode_enable val) ;;
        '(status, _) <-
          acer_wmi_apgeaction_exec_u64 ACER_WMID_SET_FUNCTION input_value ;;
        if ACPI_FAILURE status then ret (- ENODEV) else ret count in
      if val =? 0 then send 663300
      else if val =? 1 then send 1969924
      else ret (- EINVAL).

(** The text is [None] when the function returns before writing [buf]. *)
Definition usb_charge_limit_show : M (Z * option string) :=
  q <- load quirks ;;
  if usb_charge_mode q =? 0 then ret (- EOPNOTSUPP, None)
  else
    '(status, result) <-
      acer_wmi_apgeaction_exec_u64 ACER_WMID_GET_FUNCTION 4 ;;
    match result with
    | None => ret (- ENODEV, None)
    | Some result =>
        if ACPI_FAILURE status then ret (- ENODEV, None)
        else
          let r := if result =? 659200 then 10
                   else if result =? 1314560 then 20
                   else if result =? 1969920 then 30
                   else -1 in
          let '(len, text) := sprintf_d r in
          ret (len, Some text)
    end.

Definition usb_charge_limit_store (buf : string) (count : Z) : M Z :=
  q <- load quirks ;;
  if usb_charge_mode q =? 0 then ret (- EOPNOTSUPP)
  else
    enabled <- load usb_charge_mode_enable ;;
    if enabled =? 0 then ret (- EINVAL)
    else
      let '(n, stored) := sscanf_hhd K buf in
      if negb (n =? 1) then ret (- EINVAL)
      else
        let val := byte_val stored in
        let send (input_value : Z) : M Z :=
          '(status, _) <-
            acer_wmi_apgeaction_exec_u64 ACER_WMID_SET_FUNCTION input_value ;;
          if ACPI_FAILURE status then ret (- ENODEV) else ret count in
        if val =? 10 then send 659204
        else if val =? 20 then send 1314564
        else if val =? 30 then send 1969924
        else ret (- EINVAL).

(** *** System control mode initialisation and the platform profile *)

Definition acer_system_control_mode_init : M Z :=
  store (set_system_control_mode_inited 1) ;;
  '(err, tp) <- call_ec_read ACER_SYSTEM_CONTROL_MODE_EC_OFFSET ;;
  if err <? 0 then ret err
  else
    store (set_control_mode (byte_val tp)) ;;
    p <- load enable_system_control_mode ;;
    if p >=? 0 then
      if (p <? SYSTEM_CONTROL_BALANCED) || (p >? SYSTEM_CONTROL_PERFORMANCE)
      then ret (- EINVAL)
      else
        err <- call_ec_write ACER_SYSTEM_CONTROL_MODE_EC_OFFSET p ;;
        if err <? 0 then ret err
        else
          store (set_control_mode p) ;;
          ret 0
    else ret 0.

(** Returns the error code and the bitmap of choices. *)
Definition acer_platform_profile_probe (choices : Z) : M (Z * Z) :=
  q <- load quirks ;;
  if system_control_mode q =? 0 then ret (- EOPNOTSUPP, choices)
  else
    inited <- load system_control_mode_inited ;;
    err <- (if inited =? 0 then acer_system_control_mode_init else ret 0) ;;
    if negb (err =? 0) then ret (err, choices)
    else
      ret (0, set_bit PLATFORM_PROFILE_PERFORMANCE
                (set_bit PLATFORM_PROFILE_BALANCED
                   (set_bit PLATFORM_PROFILE_LOW_POWER choices))).

(** Returns the error code and the value written to [*profile], if any. *)
Definition acer_platform_profile_get
  : M (Z * option platform_profile_option) :=
  m <- load control_mode ;;
  if m =? SYSTEM_CONTROL_BALANCED
  then ret (0, Some PLATFORM_PROFILE_BALANCED)
  else if m =? SYSTEM_CONTROL_PERFORMANCE
  then ret (0, Some PLATFORM_PROFILE_PERFORMANCE)
  else if m =? SYSTEM_CONTROL_SILENT
  then ret (0, Some PLATFORM_PROFILE_LOW_POWER)
  else ret (- EOPNOTSUPP, None).

Definition acer_platform_profile_set (profile : platform_profile_option)
  : M Z :=
  q <- load quirks ;;
  if system_control_mode q =? 0 then ret (- EOPNOTSUPP)
  else
    let apply (new_mode : Z) : M Z :=
      m <- load control_mode ;;
      if new_mode =? m then ret 0
      else
        err <- call_ec_write ACER_SYSTEM_CONTROL_MODE_EC_OFFSET new_mode ;;
        if err <? 0 then ret err
        else
          store (set_control_mode new_mode) ;;
          ret 0 in
    match profile with
    | PLATFORM_PROFILE_BALANCED => apply SYSTEM_CONTROL_BALANCED
    | PLATFORM_PROFILE_PERFORMANCE => apply SYSTEM_CONTROL_PERFORMANCE
    | PLATFORM_PROFILE_LOW_POWER => apply SYSTEM_CONTROL_SILENT
    | _ => ret (- EOPNOTSUPP)
    end.

Definition max_retries : Z := 10.

(** The [for] loop of [acer_platform_profile_setup]; [remaining] counts the
    iterations still allowed, [max_retries] at entry. *)
Fixpoint register_loop (remaining : nat) (attempt delay_ms : Z) : M Z :=
  match remaining with
  | O => dev <- load platform_profile_device ;; ret (PTR_ERR dev)
  | S k =>
      if attempt <=? max_retries then
        dev <- call_register ;;
        store (set_platform_profile_device dev) ;;
        if negb (IS_ERR dev) then
          store (set_platform_profile_support true) ;;
          ret 0
        else
          delay_ms' <-
            (if attempt <? max_retries then
               msleep delay_ms ;;
               ret (Z.min (delay_ms * 2) 1000)
             else ret delay_ms) ;;
          register_loop k (attempt + 1) delay_ms'
      else
        dev <- load platform_profile_device ;; ret (PTR_ERR dev)
  end.

Definition acer_platform_profile_setup : M Z :=
  q <- load quirks ;;
  if system_control_mode q =? 0 then ret 0
  else register_loop (Z.to_nat max_retries) 1 100.

End Driver.

(** The value a computation returns and the world it leaves. *)
Definition result_of {A : Type} (m : M A) (w : world) : A := fst (m w).
Definition after {A : Type} (m : M A) (w : world) : world := snd (m w).
(** The events a computation adds to the trace of [w]. *)
Definition emitted {A : Type} (m : M A) (w : world) : list event :=
  skipn (List.length (trace w)) (trace (after m w)).

(** ** Stub surroundings for the examples *)

Definition stub_kstrtobool (s : string) : Z * bool :=
  if String.eqb s "1" then (0, true)
  else if String.eqb s "0" then (0, false)
  else (- EINVAL, false).

Definition stub_kstrtoint (s : string) : Z * Z :=
  if String.eqb s "1" then (0, 1)
  else if String.eqb s "2" then (0, 2)
  else if String.eqb s "3" then (0, 3)
  else (- EINVAL, 0).

Definition stub_sscanf_hhd (s : string) : Z * byte :=
  if String.eqb s "0" then (1, x00)
  else if String.eqb s "1" then (1, x01)
  else if String.eqb s "10" then (1, x0a)
  else if String.eqb s "20" then (1, x14)
  else if String.eqb s "30" then (1, x1e)
  else if String.eqb s "40" then (1, x28)
  else (0, x00).

(** Surroundings whose firmware answers every method evaluation with
    [wmi], whose embedded controller answers with [ecr] and [ecw], and
    whose profile registration answers with [reg]. *)
Definition stub_env
    (wmi : list event -> string -> Z -> Z -> list byte -> Z * option acpi_object)
    (ecr : list event -> Z -> Z * byte) (ecw : list event -> Z -> Z -> Z)
    (reg : list event -> Z) : env :=
  {| wmi_has_guid := fun _ => true;
     wmi_evaluate_method := wmi;
     ec_read := ecr;
     ec_write := ecw;
     devm_platform_profile_register := reg;
     kstrtobool := stub_kstrtobool;
     kstrtoint := stub_kstrtoint;
     sscanf_hhd := stub_sscanf_hhd |}.

Definition wmi_const (status : Z) (obj : option acpi_object)
  : list event -> string -> Z -> Z -> list byte -> Z * option acpi_object :=
  fun _ _ _ _ _ => (status, obj).

(** A machine on which everything works: evaluations return no object, the
    controller reads 1, registration yields a valid pointer. *)
Definition healthy_env : env :=
  stub_env (wmi_const AE_OK None) (fun _ _ => (0, x01)) (fun _ _ _ => 0)
           (fun _ => 4096).

Definition boot (health_param control_param : Z) (q : quirk_entry) : world :=
  {| drv := initial_driver health_param control_param q; trace := [] |}.

(** ** Request buffers of the two Namespace-A calls *)

Definition query_input : list byte :=
  encode_get_input
    {| gi_uBatteryNo := 1; gi_uFunctionQuery := 1; gi_uReserved := [0; 0] |}.


Definition set_input (function : Z) (function_status : bool) : list byte :=
  encode_set_input
    {| si_uBatteryNo := 1; si_uFunctionMask := function;
       si_uFunctionStatus := Z.b2z function_status;
       si_uReservedIn := [0; 0; 0; 0; 0] |}.


(** ** The platform-profile table and the back-off schedule *)

(** The mode code the [switch] of [acer_platform_profile_set] selects. *)
Definition profile_mode_code (p : platform_profile_option) : option Z :=
  match p with
  | PLATFORM_PROFILE_BALANCED => Some SYSTEM_CONTROL_BALANCED
  | PLATFORM_PROFILE_PERFORMANCE => Some SYSTEM_CONTROL_PERFORMANCE
  | PLATFORM_PROFILE_LOW_POWER => Some SYSTEM_CONTROL_SILENT
  | _ => None
  end.

(** The delay slept after the failed attempt number [i + 1]: 100 doubled
    [i] times, capped at 1000. *)
Definition delay_at (i : nat) : Z := Z.min (100 * 2 ^ Z.of_nat i) 1000.

(** [n] failed registration attempts in a row, the first of them being
    attempt number [first + 1], each followed by its sleep. *)
Definition failed_attempts (first n : nat) : list event :=
  flat_map (fun i => [EvRegister; EvSleep (delay_at i)]) (seq first n).

(** A registration service that fails with [-EIO] as long as fewer than [n]
    attempts were made before, and then hands out a device. *)
Definition register_after (n : nat) (h : list event) : Z :=
  if (count_events is_register h <? n)%nat then - EIO else 4096.

(** ** Requests served after start-up *)

Inductive request : Type :=
  | HealthModeShow
  | HealthModeStore (buf : string) (count : Z)
  | CalibrationModeShow
  | CalibrationModeStore (buf : string) (count : Z)
  | SystemControlModeShow
  | SystemControlModeStore (buf : string) (count : Z)
  | UsbChargeModeShow
  | UsbChargeModeStore (buf : string) (count : Z)
  | UsbChargeLimitShow
  | UsbChargeLimitStore (buf : string) (count : Z)
  | ProfileProbe (choices : Z)
  | ProfileGet
  | ProfileSet (profile : platform_profile_option).

Definition serve (K : env) (r : request) : M unit :=
  match r with
  | HealthModeShow => health_mode_show ;; ret tt
  | HealthModeStore buf count => health_mode_store K buf count ;; ret tt
  | CalibrationModeShow => calibration_mode_show ;; ret tt
  | CalibrationModeStore buf count =>
      calibration_mode_store K buf count ;; ret tt
  | SystemControlModeShow => system_control_mode_show ;; ret tt
  | SystemControlModeStore buf count =>
      system_control_mode_store K buf count ;; ret tt
  | UsbChargeModeShow => usb_charge_mode_show ;; ret tt
  | UsbChargeModeStore buf count => usb_charge_mode_store K buf count ;; ret tt
  | UsbChargeLimitShow => usb_charge_limit_show K ;; ret tt
  | UsbChargeLimitStore buf count =>
      usb_charge_limit_store K buf count ;; ret tt
  | ProfileProbe choices => acer_platform_profile_probe K choices ;; ret tt
  | ProfileGet => acer_platform_profile_get ;; ret tt
  | ProfileSet profile => acer_platform_profile_set K profile ;; ret tt
  end.

Fixpoint serve_all (K : env) (rs : list request) : M unit :=
  match rs with
  | [] => ret tt
  | r :: rest => serve K r ;; serve_all K rest
  end.

(** A firmware whose Namespace-B get answers the integer [current] and
    whose other methods succeed without a result object. *)
Definition wmi_usb_reports (current : Z)
  : list event -> string -> Z -> Z -> list byte -> Z * option acpi_object :=
  fun _ _ _ method_id _ =>
    if method_id =? ACER_WMID_GET_FUNCTION
    then (AE_OK, Some (ACPI_TYPE_INTEGER current))
    else (AE_OK, None).

(** A firmware that fails every evaluation with [AE_ERROR]. *)
Definition broken_firmware_env : env :=
  stub_env (wmi_const AE_ERROR None) (fun _ _ => (0, x01))
           (fun _ _ _ => - EIO) (fun _ => 4096).

(** ** Start-up: quirk lookup and module initialisation *)

Definition ENOMEM : Z := 12.

Definition set_quirks (v : quirk_entry) (d : driver) : driver :=
  {| battery_status := battery_status d;
     control_mode := control_mode d;
     enable_health_mode := enable_health_mode d;
     enable_system_control_mode := enable_system_control_mode d;
     quirks := v;
     usb_charge_mode_enable := usb_charge_mode_enable d;
     system_control_mode_inited := system_control_mode_inited d;
     platform_profile_device := platform_profile_device d;
     platform_profile_support := platform_profile_support d |}.

(** The two fields of [enum dmi_field] the table matches on. *)
Inductive dmi_field : Type :=
  | DMI_SYS_VENDOR
  | DMI_PRODUCT_NAME.

(** [struct dmi_system_id] as the table uses it: the identification, the
    (field, substring) pairs of [DMI_MATCH], and the quirk entry behind
    [driver_data]. *)
Record dmi_system_id : Type := {
  ident : string;
  matches : list (dmi_field * string);
  driver_data : quirk_entry
}.

Definition acer_quirks : list dmi_system_id :=
  [ {| ident := "Acer Swift SFG14-73";
       matches := [(DMI_SYS_VENDOR, "Acer"%string);
                   (DMI_PRODUCT_NAME, "Swift SFG14-73"%string)];
       driver_data := quirk_acer_sfg174_73 |} ].

(** The calls of the module initialisation into the driver core. *)
Inductive lifecycle_call : Type :=
  | CallPlatformDriverRegister
  | CallPlatformDeviceAlloc
  | CallPlatformDeviceAdd (dev : Z)
  | CallWmiDriverRegister
  | CallPlatformDevicePut (dev : Z)
  | CallPlatformDriverUnregister
  | CallWmiDriverUnregister.

(** What the kernel answers at start-up.  [dmi_check_system] is given the
    table and yields, in order, the entries on which it runs the callback;
    the registration functions are each called at most once. *)
Record boot_env : Type := {
  dmi_check_system : list dmi_system_id -> list dmi_system_id;
  platform_driver_register : Z;
  platform_device_alloc : Z;      (* the pointer; 0 is NULL *)
  platform_device_add : Z;
  wmi_driver_register : Z
}.

(** The callback: the new value of [quirks] and the value returned. *)
Definition dmi_matched (dmi : dmi_system_id) : option quirk_entry * Z :=
  (Some (driver_data dmi), 1).

(** [quirks] is [NULL] when the module is loaded. *)
Definition find_quirks (B : boot_env) : quirk_entry :=
  let quirks :=
    fold_left (fun _ dmi => fst (dmi_matched dmi))
              (dmi_check_system B acer_quirks) None in
  match quirks with
  | None => quirk_unknown
  | Some q => q
  end.

(** Returns the value of the function and its calls into the driver core,
    in order. *)
Definition acer_wmi_ext_init (K : env) (B : boot_env)
  : M (Z * list lifecycle_call) :=
  store (set_quirks (find_quirks B)) ;;
  let devices : M (Z * list lifecycle_call) :=
    q <- load quirks ;;
    (if negb (system_control_mode q =? 0)
     then acer_system_control_mode_init K ;; ret tt else ret tt) ;;
    (if negb (usb_charge_mode q =? 0)
     then init_usb_charge_mode K else ret tt) ;;
    let err := platform_driver_register B in
    if negb (err =? 0)
    then ret (err, [CallPlatformDriverRegister; CallWmiDriverUnregister])
    else
      let dev := platform_device_alloc B in
      if dev =? 0
      then ret (- ENOMEM,
                [CallPlatformDriverRegister; CallPlatformDeviceAlloc;
                 CallPlatformDriverUnregister; CallWmiDriverUnregister])
      else
        let err := platform_device_add B in
        if negb (err =? 0)
        then ret (err,
                  [CallPlatformDriverRegister; CallPlatformDeviceAlloc;
                   CallPlatformDeviceAdd dev; CallPlatformDevicePut dev;
                   CallPlatformDriverUnregister; CallWmiDriverUnregister])
        else ret (wmi_driver_register B,
                  [CallPlatformDriverRegister; CallPlatformDeviceAlloc;
                   CallPlatformDeviceAdd dev; CallWmiDriverRegister]) in
  if wmi_has_guid K WMI_GUID1 then
    p <- load enable_health_mode ;;
    status <- (if p >=? 0
               then set_battery_health_control K HEALTH_MODE (negb (p =? 0))
               else ret AE_OK) ;;
    if (p >=? 0) && ACPI_FAILURE status then ret (- EIO, [])
    else
      status <- init_state K ;;
      if ACPI_FAILURE status then ret (- EIO, []) else devices
  else devices.

(** The part of [acer_wmi_ext_init] that follows the battery query, as a
    computation of its own: the proofs treat the two parts separately
    (lemma [acer_wmi_ext_init_stages] shows that the function is their
    sequence). *)
Definition init_devices_stage (K : env) (B : boot_env)
  : M (Z * list lifecycle_call) :=
  q <- load quirks ;;
  (if negb (system_control_mode q =? 0)
   then acer_system_control_mode_init K ;; ret tt else ret tt) ;;
  (if negb (usb_charge_mode q =? 0)
   then init_usb_charge_mode K else ret tt) ;;
  let err := platform_driver_register B in
  if negb (err =? 0)
  then ret (err, [CallPlatformDriverRegister; CallWmiDriverUnregister])
  else
    let dev := platform_device_alloc B in
    if dev =? 0
    then ret (- ENOMEM,
              [CallPlatformDriverRegister; CallPlatformDeviceAlloc;
               CallPlatformDriverUnregister; CallWmiDriverUnregister])
    else
      let err := platform_device_add B in
      if negb (err =? 0)
      then ret (err,
                [CallPlatformDriverRegister; CallPlatformDeviceAlloc;
                 CallPlatformDeviceAdd dev; CallPlatformDevicePut dev;
                 CallPlatformDriverUnregister; CallWmiDriverUnregister])
      else ret (wmi_driver_register B,
                [CallPlatformDriverRegister; CallPlatformDeviceAlloc;
                 CallPlatformDeviceAdd dev; CallWmiDriverRegister]).

(** [acer_ext_platform_probe]: the platform driver's probe. *)
Definition acer_ext_platform_probe (K : env) : M Z :=
  err <- acer_platform_profile_setup K ;;
  if negb (err =? 0) then ret err else ret 0.

(** The world in which the module is loaded. *)
Definition loaded (health_param control_param : Z) : world :=
  boot health_param control_param quirk_unknown.

(** Observations on the events of one kind. *)
Definition is_ec_access (e : event) : bool :=
  match e with
  | EvEcRead _ | EvEcWrite _ _ => true
  | _ => false
  end.

Definition is_namespace_a (e : event) : bool :=
  match e with
  | EvWmi guid _ _ _ => String.eqb guid WMI_GUID1
  | _ => false
  end.

Definition is_namespace_b (e : event) : bool :=
  match e with
  | EvWmi guid _ _ _ => String.eqb guid WMI_GUID2
  | _ => false
  end.

(** Stub start-up surroundings: the DMI lookup runs the callback on
    [matched]; the registrations answer as given. *)
Definition stub_boot (matched : list dmi_system_id)
    (driver_reg dev_alloc dev_add wmi_reg : Z) : boot_env :=
  {| dmi_check_system := fun _ => matched;
     platform_driver_register := driver_reg;
     platform_device_alloc := dev_alloc;
     platform_device_add := dev_add;
     wmi_driver_register := wmi_reg |}.

(** A firmware that reports both battery modes available and off, and
    acknowledges every set. *)
Definition wmi_battery_ok
  : list event -> string -> Z -> Z -> list byte -> Z * option acpi_object :=
  fun _ _ _ method_id _ =>
    if method_id =? 20
    then (AE_OK,
          Some (ACPI_TYPE_BUFFER [x03; x00; x00; x00; x00; x00; x00; x00]))
    else (AE_OK, Some (ACPI_TYPE_BUFFER [x00; x00; x00; x00])).

(** A machine without the battery GUID. *)
Definition no_battery_env : env :=
  {| wmi_has_guid := fun guid => negb (String.eqb guid WMI_GUID1);
     wmi_evaluate_method := wmi_const AE_ERROR None;
     ec_read := fun _ _ => (0, x01);
     ec_write := fun _ _ _ => 0;
     devm_platform_profile_register := fun _ => 4096;
     kstrtobool := stub_kstrtobool;
     kstrtoint := stub_kstrtoint;
     sscanf_hhd := stub_sscanf_hhd |}.

(** ** The kernel's [%hhd] conversion *)

(** What [sscanf(buf, "%hhd", &val)] does in the kernel's [vsscanf]: white
    space is skipped, an optional minus sign and then at least one decimal
    digit are required, the digits are read as an integer, and the integer
    is stored through a pointer to a one-byte variable, which keeps its low
    eight bits.  The count of conversions is 1 when a number was read and 0
    otherwise. *)
Definition isspace (c : Ascii.ascii) : bool :=
  let n := Z.of_N (Ascii.N_of_ascii c) in
  (n =? 32) || ((9 <=? n) && (n <=? 13)) || (n =? 160).

Definition digit_value (c : Ascii.ascii) : option Z :=
  let n := Z.of_N (Ascii.N_of_ascii c) in
  if (48 <=? n) && (n <=? 57) then Some (n - 48) else None.

Fixpoint skip_spaces (s : string) : string :=
  match s with
  | String c rest => if isspace c then skip_spaces rest else s
  | EmptyString => s
  end.

(** The decimal digits at the head of [s], read onto [acc]. *)
Fixpoint simple_strtoull (s : string) (acc : Z) : Z :=
  match s with
  | String c rest =>
      match digit_value c with
      | Some d => simple_strtoull rest (10 * acc + d)
      | None => acc
      end
  | EmptyString => acc
  end.

Definition vsscanf_hhd (buf : string) : Z * byte :=
  let str := skip_spaces buf in
  let '(negative, digits) :=
    match str with
    | String c rest =>
        (* 45 is the minus sign *)
        if Z.of_N (Ascii.N_of_ascii c) =? 45 then (true, rest)
        else (false, str)
    | EmptyString => (false, str)
    end in
  match digits with
  | String c _ =>
      match digit_value c with
      | Some _ =>
          let v := simple_strtoull digits 0 in
          (1, byte_of_Z (if negative then - v else v))
      | None => (0, x00)
      end
  | EmptyString => (0, x00)
  end.

(** A machine on which everything works and whose texts are converted as
    the kernel converts them. *)
Definition kernel_env : env :=
  {| wmi_has_guid := fun _ => true;
     wmi_evaluate_method := wmi_const AE_OK None;
     ec_read := fun _ _ => (0, x01);
     ec_write := fun _ _ _ => 0;
     devm_platform_profile_register := fun _ => 4096;
     kstrtobool := stub_kstrtobool;
     kstrtoint := stub_kstrtoint;
     sscanf_hhd := vsscanf_hhd |}.
(** ** Facts on bytes and bits *)

Lemma byte_val_range (b : byte) : 0 <= byte_val b < 256.
Proof.
  unfold byte_val.
  pose proof (Byte.to_N_bounded b) as H.
  lia.
Qed.

Lemma land_pow2 (x n : Z) :
  0 <= n -> Z.land x (2 ^ n) = if Z.testbit x n then 2 ^ n else 0.
Proof.
  intros Hn.
  apply Z.bits_inj'. intros k Hk.
  rewrite Z.land_spec, Z.pow2_bits_eqb by assumption.
  destruct (Z.eqb_spec n k) as [->|Hne].
  - destruct (Z.testbit x k) eqn:E; cbn.
    + now rewrite Z.pow2_bits_eqb, Z.eqb_refl by assumption.
    + now rewrite Z.bits_0.
  - rewrite andb_false_r.
    destruct (Z.testbit x n).
    + rewrite Z.pow2_bits_eqb by assumption.
      symmetry. now apply Z.eqb_neq.
    + now rewrite Z.bits_0.
Qed.

Lemma mode_bit_absent (x n : Z) :
  0 <= n -> negb (Z.land x (2 ^ n) =? 0) = Z.testbit x n.
Proof.
  intros Hn. rewrite (land_pow2 x n Hn).
  destruct (Z.testbit x n); [|reflexivity].
  assert (0 < 2 ^ n) by (apply Z.pow_pos_nonneg; lia).
  destruct (Z.eqb_spec (2 ^ n) 0); [lia | reflexivity].
Qed.

Lemma le_decode_range (bs : list byte) :
  0 <= le_decode bs < 256 ^ Z.of_nat (List.length bs).
Proof.
  induction bs as [|b rest IH].
  - cbn. lia.
  - cbn [le_decode List.length].
    rewrite Nat2Z.inj_succ, Z.pow_succ_r by lia.
    pose proof (byte_val_range b). lia.
Qed.

(** ** Unfolding the monad *)

Ltac unfold_monad :=
  unfold result_of, after, emitted,
         call_wmi, call_ec_read, call_ec_write, call_register, msleep,
         bind, ret, load, store, emit, history in *.

(** Case analysis over every path of an unfolded computation: the answers
    of the surroundings first, then the conditions that contain no other
    condition. *)
Ltac atomic_condition c :=
  lazymatch c with
  | context [if _ then _ else _] => fail
  | context [match _ with _ => _ end] => fail
  | _ => idtac
  end.

Ltac split_paths :=
  repeat (cbv beta iota;
          match goal with
          | |- context [wmi_evaluate_method ?K ?h ?g ?i ?m ?x] =>
              destruct (wmi_evaluate_method K h g i m x) as [? [[?|?|?]|]]
          | |- context [ec_read ?K ?h ?a] => destruct (ec_read K h a)
          | |- context [kstrtobool ?K ?b] => destruct (kstrtobool K b)
          | |- context [kstrtoint ?K ?b] => destruct (kstrtoint K b)
          | |- context [sscanf_hhd ?K ?b] => destruct (sscanf_hhd K b)
          | |- context [if ?c then _ else _] =>
              atomic_condition c; destruct c
          end).

Ltac unfold_driver :=
  unfold health_mode_show, health_mode_store, calibration_mode_show,
         calibration_mode_store, system_control_mode_show,
         system_control_mode_store, init_usb_charge_mode,
         usb_charge_mode_show, usb_charge_mode_store, usb_charge_limit_show,
         usb_charge_limit_store, acer_system_control_mode_init,
         acer_platform_profile_probe, acer_platform_profile_get,
         acer_platform_profile_set, init_state, update_state,
         set_battery_health_control, get_battery_health_control_status,
         acer_wmi_apgeaction_exec_u64, sprintf_d in *.

(** ** The transport functions, answer by answer *)

(** What [get_battery_health_control_status] does with each answer of the
    firmware. *)
Lemma get_status_cases (K : env) (w : world) :
  let answer := wmi_evaluate_method K (trace w) WMI_GUID1 0 20 query_input in
  let w1 := {| drv := drv w;
               trace := trace w ++ [EvWmi WMI_GUID1 0 20 query_input] |} in
  get_battery_health_control_status K w =
  if ACPI_FAILURE (fst answer) then (fst answer, w1)
  else match snd answer with
       | Some (ACPI_TYPE_BUFFER buffer) =>
           if buffer_length buffer =? 8
           then
             let r := decode_get_output buffer in
             (fst answer,
              {| drv := set_battery_status
                   {| health_mode :=
                        if Z.testbit (uFunctionList r) 0
                        then (if nth 0 (uFunctionStatus r) 0 >? 0 then 1 else 0)
                        else -1;
                      calibration_mode :=
                        if Z.testbit (uFunctionList r) 1
                        then (if nth 1 (uFunctionStatus r) 0 >? 0 then 1 else 0)
                        else -1 |} (drv w);
                 trace := trace w1 |})
           else (AE_ERROR, w1)
       | _ => (AE_ERROR, w1)
       end.
Proof.
  cbv zeta.
  unfold get_battery_health_control_status. unfold_monad.
  fold query_input. cbn [drv trace].
  destruct (wmi_evaluate_method K (trace w) WMI_GUID1 0 20 query_input)
    as [status output].
  cbn [fst snd].
  destruct (ACPI_FAILURE status); [reflexivity|].
  destruct output as [[value|buffer|type]|]; try reflexivity.
  destruct (buffer_length buffer =? 8); cbn [negb]; [|reflexivity].
  change HEALTH_MODE with (2 ^ 0). change CALIBRATION_MODE with (2 ^ 1).
  rewrite !mode_bit_absent by lia.
  reflexivity.
Qed.

Lemma set_control_cases (K : env) (function : Z) (fs : bool) (w : world) :
  let answer :=
    wmi_evaluate_method K (trace w) WMI_GUID1 0 21 (set_input function fs) in
  let w1 := {| drv := drv w;
               trace := trace w
                        ++ [EvWmi WMI_GUID1 0 21 (set_input function fs)] |} in
  set_battery_health_control K function fs w =
  (if ACPI_FAILURE (fst answer) then fst answer
   else match snd answer with
        | Some (ACPI_TYPE_BUFFER buffer) =>
            if buffer_length buffer =? 4 then fst answer else AE_ERROR
        | _ => AE_ERROR
        end, w1).
Proof.
  cbv zeta.
  unfold set_battery_health_control. unfold_monad.
  fold (set_input function fs). cbn [drv trace].
  destruct (wmi_evaluate_method K (trace w) WMI_GUID1 0 21
              (set_input function fs)) as [status output].
  cbn [fst snd].
  destruct (ACPI_FAILURE status); [reflexivity|].
  destruct output as [[value|buffer|type]|]; try reflexivity.
  destruct (buffer_length buffer =? 4); reflexivity.
Qed.

Lemma exec_u64_cases (K : env) (method_id in_ : Z) (w : world) :
  let answer :=
    wmi_evaluate_method K (trace w) WMI_GUID2 0 method_id (bytes_of_u64 in_) in
  let w1 := {| drv := drv w;
               trace := trace w
                        ++ [EvWmi WMI_GUID2 0 method_id (bytes_of_u64 in_)] |} in
  acer_wmi_apgeaction_exec_u64 K method_id in_ w =
  (if ACPI_FAILURE (fst answer) then (fst answer, None)
   else (fst answer,
         Some match snd answer with
              | Some (ACPI_TYPE_BUFFER buffer) =>
                  if (buffer_length buffer =? 4) || (buffer_length buffer =? 8)
                  then le_decode buffer else 0
              | Some (ACPI_TYPE_INTEGER value) => to_u64 value
              | _ => 0
              end), w1).
Proof.
  cbv zeta.
  unfold acer_wmi_apgeaction_exec_u64. unfold_monad. cbn [drv trace].
  destruct (wmi_evaluate_method K (trace w) WMI_GUID2 0 method_id
              (bytes_of_u64 in_)) as [status output].
  cbn [fst snd].
  destruct (ACPI_FAILURE status); [reflexivity|].
  destruct output as [[value|buffer|type]|]; try reflexivity.
  unfold buffer_length.
  destruct (Z.eqb_spec (Z.of_nat (List.length buffer)) 4) as [E4|N4].
  - cbn [orb]. rewrite firstn_all2 by lia. reflexivity.
  - destruct (Z.eqb_spec (Z.of_nat (List.length buffer)) 8) as [E8|N8].
    + cbn [orb]. rewrite firstn_all2 by lia. reflexivity.
    + reflexivity.
Qed.


Lemma emitted_app {A : Type} (m : M A) (w : world) (evs : list event) :
  trace (after m w) = trace w ++ evs -> emitted m w = evs.
Proof.
  intros H. unfold emitted. rewrite H.
  rewrite skipn_app, skipn_all, Nat.sub_diag. reflexivity.
Qed.

Lemma to_u8_small (z : Z) : 0 <= z < 256 -> to_u8 z = z.
Proof. intros H. unfold to_u8. now apply Z.mod_small. Qed.

Lemma after_bind {A B : Type} (m : M A) (k : A -> M B) (w : world) :
  after (bind m k) w = after (k (result_of m w)) (after m w).
Proof.
  unfold after, result_of, bind. destruct (m w). reflexivity.
Qed.

Lemma count_events_app (p : event -> bool) (xs ys : list event) :
  count_events p (xs ++ ys) = (count_events p xs + count_events p ys)%nat.
Proof.
  unfold count_events. now rewrite filter_app, length_app.
Qed.

(** A byte made from an integer holds its low eight bits. *)
Lemma byte_val_of_Z (z : Z) : byte_val (byte_of_Z z) = to_u8 z.
Proof.
  unfold byte_of_Z, byte_val.
  assert (Hr : 0 <= to_u8 z < 256) by (unfold to_u8; apply Z.mod_pos_bound; lia).
  destruct (Byte.of_N (Z.to_N (to_u8 z))) as [b|] eqn:E.
  - apply Byte.to_of_N in E. rewrite E. lia.
  - apply Byte.of_N_None_iff in E. lia.
Qed.


(** ** The entry points, path by path *)

Lemma bind_run {A B : Type} (m : M A) (k : A -> M B) (w : world) :
  bind m k w = k (result_of m w) (after m w).
Proof. unfold bind, result_of, after. destruct (m w). reflexivity. Qed.


Lemma exec_u64_run (K : env) (method_id in_ : Z) (w : world) :
  after (acer_wmi_apgeaction_exec_u64 K method_id in_) w
  = {| drv := drv w;
       trace := trace w
                ++ [EvWmi WMI_GUID2 0 method_id (bytes_of_u64 in_)] |} /\
  fst (result_of (acer_wmi_apgeaction_exec_u64 K method_id in_) w)
  = fst (wmi_evaluate_method K (trace w) WMI_GUID2 0 method_id
           (bytes_of_u64 in_)).
Proof.
  unfold after, result_of. rewrite exec_u64_cases. cbv zeta.
  destruct (wmi_evaluate_method K (trace w) WMI_GUID2 0 method_id
              (bytes_of_u64 in_)) as [st obj].
  cbn [fst snd]. destruct (ACPI_FAILURE st); split; reflexivity.
Qed.


Lemma set_control_after (K : env) (function : Z) (fs : bool) (w : world) :
  after (set_battery_health_control K function fs) w
  = {| drv := drv w;
       trace := trace w ++ [EvWmi WMI_GUID1 0 21 (set_input function fs)] |}.
Proof. unfold after. now rewrite set_control_cases. Qed.

Lemma get_status_trace (K : env) (w : world) :
  trace (after (get_battery_health_control_status K) w)
  = trace w ++ [EvWmi WMI_GUID1 0 20 query_input].
Proof.
  unfold after. rewrite get_status_cases. cbv zeta.
  destruct (wmi_evaluate_method K (trace w) WMI_GUID1 0 20 query_input)
    as [status output].
  cbn [fst snd].
  destruct (ACPI_FAILURE status); [reflexivity|].
  destruct output as [[value|buffer|type]|]; try reflexivity.
  destruct (buffer_length buffer =? 8); reflexivity.
Qed.

(** A battery store that passes its guard and parses its text: the set
    call, then the refresh, then [count]. *)
Lemma battery_store_runs
    (K : env) (function : Z) (fs : bool) (count : Z) (w : world) :
  (set_battery_health_control K function fs ;; update_state K ;; ret count) w
  = (count,
     after (get_battery_health_control_status K)
       (after (set_battery_health_control K function fs) w)).
Proof.
  unfold update_state, bind, ret, after.
  destruct (set_battery_health_control K function fs w) as [s w1].
  cbn [snd]. destruct (get_battery_health_control_status K w1) as [s' w2].
  reflexivity.
Qed.


Lemma health_mode_store_runs
    (K : env) (w : world) (buf : string) (count : Z) (b : bool) :
  0 <= health_mode (battery_status (drv w)) ->
  kstrtobool K buf = (0, b) ->
  health_mode_store K buf count w
  = (count,
     after (get_battery_health_control_status K)
       {| drv := drv w;
          trace := trace w
                   ++ [EvWmi WMI_GUID1 0 21 (set_input HEALTH_MODE b)] |}).
Proof.
  intros Hcached Hparse.
  rewrite <- (set_control_after K HEALTH_MODE b w), <- battery_store_runs.
  unfold health_mode_store at 1. unfold bind at 1. unfold load.
  destruct (Z.ltb_spec (health_mode (battery_status (drv w))) 0); [lia|].
  rewrite Hparse. reflexivity.
Qed.

Lemma calibration_mode_store_runs
    (K : env) (w : world) (buf : string) (count : Z) (b : bool) :
  0 <= calibration_mode (battery_status (drv w)) ->
  kstrtobool K buf = (0, b) ->
  calibration_mode_store K buf count w
  = (count,
     after (get_battery_health_control_status K)
       {| drv := drv w;
          trace := trace w
                   ++ [EvWmi WMI_GUID1 0 21 (set_input CALIBRATION_MODE b)] |}).
Proof.
  intros Hcached Hparse.
  rewrite <- (set_control_after K CALIBRATION_MODE b w), <- battery_store_runs.
  unfold calibration_mode_store at 1. unfold bind at 1. unfold load.
  destruct (Z.ltb_spec (calibration_mode (battery_status (drv w))) 0); [lia|].
  rewrite Hparse. reflexivity.
Qed.

(** A refresh that reports a failure has not touched the driver's
    variables. *)
Lemma get_status_failure_keeps_driver (K : env) (w : world) :
  ACPI_FAILURE (result_of (get_battery_health_control_status K) w) = true ->
  drv (after (get_battery_health_control_status K) w) = drv w.
Proof.
  unfold result_of, after. rewrite get_status_cases. cbv zeta.
  destruct (wmi_evaluate_method K (trace w) WMI_GUID1 0 20 query_input)
    as [status output].
  cbn [fst snd].
  destruct (ACPI_FAILURE status) eqn:Est; [reflexivity|].
  destruct output as [[value|buffer|type]|]; try reflexivity.
  destruct (buffer_length buffer =? 8); [|reflexivity].
  cbn [fst]. rewrite Est. discriminate.
Qed.

Lemma offset_is_u8 :
  to_u8 ACER_SYSTEM_CONTROL_MODE_EC_OFFSET = ACER_SYSTEM_CONTROL_MODE_EC_OFFSET.
Proof. reflexivity. Qed.

(** The sysfs store of the system control mode, past its guards. *)
Lemma system_control_mode_store_runs
    (K : env) (w : world) (buf : string) (count v : Z) :
  0 <= control_mode (drv w) ->
  kstrtoint K buf = (0, v) ->
  SYSTEM_CONTROL_BALANCED <= v <= SYSTEM_CONTROL_PERFORMANCE ->
  let err := ec_write K (trace w) ACER_SYSTEM_CONTROL_MODE_EC_OFFSET v in
  let tr := trace w ++ [EvEcWrite ACER_SYSTEM_CONTROL_MODE_EC_OFFSET v] in
  system_control_mode_store K buf count w
  = if err <? 0 then (err, {| drv := drv w; trace := tr |})
    else (count, {| drv := set_control_mode v (drv w); trace := tr |}).
Proof.
  intros Hcached Hparse Hrange err tr.
  unfold SYSTEM_CONTROL_BALANCED, SYSTEM_CONTROL_PERFORMANCE in Hrange.
  unfold system_control_mode_store. unfold_monad.
  rewrite Hparse. cbn [negb Z.eqb drv trace].
  unfold SYSTEM_CONTROL_BALANCED, SYSTEM_CONTROL_PERFORMANCE.
  destruct (Z.ltb_spec (control_mode (drv w)) 0); [lia|].
  destruct (Z.ltb_spec v 1); [lia|].
  destruct (Z.gtb_spec v 3); [lia|].
  cbn [orb].
  rewrite (to_u8_small v), offset_is_u8 by lia.
  fold err. fold tr. destruct (err <? 0); reflexivity.
Qed.

(** The profile adapter's set for a profile that has a mode code. *)
Lemma acer_platform_profile_set_runs
    (K : env) (w : world) (p : platform_profile_option) (m : Z) :
  system_control_mode (quirks (drv w)) <> 0 ->
  profile_mode_code p = Some m ->
  let err := ec_write K (trace w) ACER_SYSTEM_CONTROL_MODE_EC_OFFSET m in
  let tr := trace w ++ [EvEcWrite ACER_SYSTEM_CONTROL_MODE_EC_OFFSET m] in
  acer_platform_profile_set K p w
  = if m =? control_mode (drv w) then (0, w)
    else if err <? 0 then (err, {| drv := drv w; trace := tr |})
    else (0, {| drv := set_control_mode m (drv w); trace := tr |}).
Proof.
  intros Hq Hcode err tr. subst err tr.
  unfold acer_platform_profile_set. unfold_monad.
  destruct (Z.eqb_spec (system_control_mode (quirks (drv w))) 0);
    [contradiction|].
  destruct p; cbn in Hcode; try discriminate;
    injection Hcode as Hcode; subst m;
    match goal with
    | |- context [?c =? control_mode (drv w)] =>
        destruct (c =? control_mode (drv w)); [reflexivity|]
    end;
    cbn [drv trace];
    change (to_u8 ACER_SYSTEM_CONTROL_MODE_EC_OFFSET)
      with ACER_SYSTEM_CONTROL_MODE_EC_OFFSET;
    change (to_u8 SYSTEM_CONTROL_BALANCED) with SYSTEM_CONTROL_BALANCED;
    change (to_u8 SYSTEM_CONTROL_SILENT) with SYSTEM_CONTROL_SILENT;
    change (to_u8 SYSTEM_CONTROL_PERFORMANCE) with SYSTEM_CONTROL_PERFORMANCE;
    match goal with
    | |- context [ec_write K ?h ?a ?v <? 0] =>
        destruct (ec_write K h a v <? 0); reflexivity
    end.
Qed.

(** The usb-charge-mode store for a parsed 0 or 1: the cache takes the
    parsed value before the firmware is called. *)
Lemma usb_charge_mode_store_runs
    (K : env) (w : world) (buf : string) (count : Z) (stored : byte)
    (operand : Z) :
  usb_charge_mode (quirks (drv w)) <> 0 ->
  sscanf_hhd K buf = (1, stored) ->
  In (byte_val stored, operand) [(0, 663300); (1, 1969924)] ->
  let call := EvWmi WMI_GUID2 0 ACER_WMID_SET_FUNCTION (bytes_of_u64 operand) in
  let status := fst (wmi_evaluate_method K (trace w) WMI_GUID2 0
                       ACER_WMID_SET_FUNCTION (bytes_of_u64 operand)) in
  usb_charge_mode_store K buf count w
  = (if ACPI_FAILURE status then - ENODEV else count,
     {| drv := set_usb_charge_mode_enable (byte_val stored) (drv w);
        trace := trace w ++ [call] |}).
Proof.
  intros Hq Hparse Hin call status. subst call status.
  unfold usb_charge_mode_store. unfold bind at 1. unfold load.
  destruct (Z.eqb_spec (usb_charge_mode (quirks (drv w))) 0);
    [contradiction|].
  rewrite Hparse. cbn [Z.eqb Pos.eqb negb]. cbv zeta.
  assert (Hsend : forall v : Z,
             bind (store (set_usb_charge_mode_enable (byte_val stored)))
               (fun _ =>
                  bind (acer_wmi_apgeaction_exec_u64 K ACER_WMID_SET_FUNCTION v)
                    (fun x => match x with
                              | (status, _) =>
                                  if ACPI_FAILURE status then ret (- ENODEV)
                                  else ret count
                              end)) w
             = (if ACPI_FAILURE
                     (fst (wmi_evaluate_method K (trace w) WMI_GUID2 0
                             ACER_WMID_SET_FUNCTION (bytes_of_u64 v)))
                then - ENODEV else count,
                {| drv := set_usb_charge_mode_enable (byte_val stored) (drv w);
                   trace := trace w
                            ++ [EvWmi WMI_GUID2 0 ACER_WMID_SET_FUNCTION
                                  (bytes_of_u64 v)] |})).
  { intros v. unfold bind, store, ret. rewrite exec_u64_cases. cbv zeta.
    cbn [trace drv].
    destruct (wmi_evaluate_method K (trace w) WMI_GUID2 0
                ACER_WMID_SET_FUNCTION (bytes_of_u64 v)) as [st obj].
    cbn [fst snd].
    destruct (ACPI_FAILURE st) eqn:Est; cbv beta iota; rewrite Est;
      reflexivity. }
  cbn [In] in Hin.
  destruct Hin as [E|[E|[]]]; injection E as Hval Hop;
    subst operand; rewrite <- Hval in Hsend |- *; cbn [Z.eqb Pos.eqb];
    apply Hsend.
Qed.

(** Whatever the firmware answers, the value the Namespace-B call hands
    out fits in 64 bits. *)
Lemma exec_u64_value_is_u64 (K : env) (method_id in_ : Z) (w : world) (v : Z) :
  snd (result_of (acer_wmi_apgeaction_exec_u64 K method_id in_) w) = Some v ->
  0 <= v < 2 ^ 64.
Proof.
  unfold result_of. rewrite exec_u64_cases. cbv zeta.
  destruct (wmi_evaluate_method K (trace w) WMI_GUID2 0 method_id
              (bytes_of_u64 in_)) as [status output].
  cbn [fst snd].
  destruct (ACPI_FAILURE status); cbn [fst snd]; [discriminate|].
  intros Hv. injection Hv as Hv. subst v.
  destruct output as [[value|buffer|type]|]; try (cbn; lia).
  - unfold to_u64. apply Z.mod_pos_bound. lia.
  - pose proof (le_decode_range buffer) as Hrange.
    unfold buffer_length.
    destruct (Z.eqb_spec (Z.of_nat (List.length buffer)) 4) as [E4|N4].
    + cbn [orb]. rewrite E4 in Hrange. change (256 ^ 4) with (2 ^ 32) in Hrange.
      assert (2 ^ 32 < 2 ^ 64) by (apply Z.pow_lt_mono_r; lia). lia.
    + destruct (Z.eqb_spec (Z.of_nat (List.length buffer)) 8) as [E8|N8].
      * cbn [orb]. rewrite E8 in Hrange.
        change (256 ^ 8) with (2 ^ 64) in Hrange. exact Hrange.
      * cbn [orb]. lia.
Qed.

(** ** The registration loop *)

Lemma delay_at_doubles (i : nat) :
  Z.min (delay_at i * 2) 1000 = delay_at (S i).
Proof.
  unfold delay_at. rewrite Nat2Z.inj_succ, Z.pow_succ_r by lia.
  assert (0 < 2 ^ Z.of_nat i) by (apply Z.pow_pos_nonneg; lia).
  lia.
Qed.

Lemma failed_attempts_succ (first n : nat) :
  failed_attempts first (S n)
  = [EvRegister; EvSleep (delay_at first)] ++ failed_attempts (S first) n.
Proof. reflexivity. Qed.

Lemma count_register_failed_attempts (first n : nat) :
  count_events is_register (failed_attempts first n ++ [EvRegister]) = S n.
Proof.
  revert first. induction n as [|n IH]; intros first.
  - reflexivity.
  - rewrite failed_attempts_succ, <- app_assoc, count_events_app, IH.
    reflexivity.
Qed.

Lemma sleeps_failed_attempts (first n : nat) :
  sleeps (failed_attempts first n ++ [EvRegister]) = map delay_at (seq first n).
Proof.
  revert first. induction n as [|n IH]; intros first.
  - reflexivity.
  - rewrite failed_attempts_succ, <- app_assoc.
    cbn [app sleeps flat_map seq map]. cbn [sleeps] in IH.
    now rewrite IH.
Qed.

(** One failed attempt that is not the last: the pointer is stored, the
    delay is slept, and the loop goes on with the next delay. *)
Lemma register_loop_retry
    (K : env) (k i : nat) (w : world) :
  (i < 9)%nat ->
  IS_ERR (devm_platform_profile_register K (trace w)) = true ->
  register_loop K (S k) (Z.of_nat i + 1) (delay_at i) w
  = register_loop K k (Z.of_nat (S i) + 1) (delay_at (S i))
      {| drv := set_platform_profile_device
                  (devm_platform_profile_register K (trace w)) (drv w);
         trace := trace w ++ [EvRegister; EvSleep (delay_at i)] |}.
Proof.
  intros Hi Hfail.
  cbn [register_loop]. unfold max_retries.
  destruct (Z.leb_spec (Z.of_nat i + 1) 10); [|lia].
  unfold_monad. cbn [drv trace]. rewrite Hfail. cbn [negb].
  destruct (Z.ltb_spec (Z.of_nat i + 1) 10); [|lia].
  cbn [drv trace].
  rewrite delay_at_doubles, <- app_assoc.
  replace (Z.of_nat i + 1 + 1) with (Z.of_nat (S i) + 1) by lia.
  reflexivity.
Qed.

Lemma register_loop_success
    (K : env) (k i : nat) (delay_ms : Z) (w : world) :
  (i < 10)%nat ->
  IS_ERR (devm_platform_profile_register K (trace w)) = false ->
  register_loop K (S k) (Z.of_nat i + 1) delay_ms w
  = (0, {| drv := set_platform_profile_support true
                    (set_platform_profile_device
                       (devm_platform_profile_register K (trace w)) (drv w));
           trace := trace w ++ [EvRegister] |}).
Proof.
  intros Hi Hok.
  cbn [register_loop]. unfold max_retries.
  destruct (Z.leb_spec (Z.of_nat i + 1) 10); [|lia].
  unfold_monad. cbn [drv trace]. rewrite Hok. reflexivity.
Qed.

Lemma register_loop_last_failure (K : env) (delay_ms : Z) (w : world) :
  IS_ERR (devm_platform_profile_register K (trace w)) = true ->
  register_loop K 1 10 delay_ms w
  = (devm_platform_profile_register K (trace w),
     {| drv := set_platform_profile_device
                 (devm_platform_profile_register K (trace w)) (drv w);
        trace := trace w ++ [EvRegister] |}).
Proof.
  intros Hfail.
  cbn [register_loop]. unfold max_retries, PTR_ERR. cbn [Z.leb Z.ltb Z.compare Pos.compare Pos.compare_cont].
  unfold_monad. cbn [drv trace]. rewrite Hfail. reflexivity.
Qed.

(** [n] failures and then a success, counted from attempt [i + 1]. *)
Lemma register_loop_succeeds_after (K : env) (n : nat) :
  forall (i : nat) (w : world),
    (i + n < 10)%nat ->
    (forall j : nat, (j < n)%nat ->
       IS_ERR (devm_platform_profile_register K
                 (trace w ++ failed_attempts i j)) = true) ->
    IS_ERR (devm_platform_profile_register K
              (trace w ++ failed_attempts i n)) = false ->
    let r := register_loop K (10 - i) (Z.of_nat i + 1) (delay_at i) w in
    fst r = 0 /\
    trace (snd r) = trace w ++ failed_attempts i n ++ [EvRegister] /\
    platform_profile_support (drv (snd r)) = true.
Proof.
  induction n as [|n IH]; intros i w Hi Hfail Hok r; subst r.
  - cbn [failed_attempts seq flat_map] in Hok. rewrite app_nil_r in Hok.
    replace (10 - i)%nat with (S (9 - i)) by lia.
    rewrite register_loop_success by (assumption || lia).
    repeat split.
  - assert (Hfirst : IS_ERR (devm_platform_profile_register K (trace w))
                     = true).
    { specialize (Hfail 0%nat ltac:(lia)).
      cbn [failed_attempts seq flat_map] in Hfail.
      now rewrite app_nil_r in Hfail. }
    replace (10 - i)%nat with (S (10 - S i)) by lia.
    rewrite register_loop_retry by (assumption || lia).
    set (w' := {| drv := _; trace := _ |}).
    destruct (IH (S i) w') as (Hres & Htrace & Hsupport).
    + lia.
    + intros j Hj. subst w'. cbn [trace].
      rewrite <- app_assoc, <- failed_attempts_succ.
      apply Hfail. lia.
    + subst w'. cbn [trace].
      now rewrite <- app_assoc, <- failed_attempts_succ.
    + split; [exact Hres|]. split; [|exact Hsupport].
      rewrite Htrace. subst w'. cbn [trace].
      now rewrite failed_attempts_succ, <- !app_assoc.
Qed.

(** Every attempt from [i + 1] to the tenth fails. *)
Lemma register_loop_exhausted (K : env) (n : nat) :
  forall (i : nat) (w : world),
    (i + n = 9)%nat ->
    (forall j : nat, (j <= n)%nat ->
       IS_ERR (devm_platform_profile_register K
                 (trace w ++ failed_attempts i j)) = true) ->
    let r := register_loop K (10 - i) (Z.of_nat i + 1) (delay_at i) w in
    fst r = devm_platform_profile_register K
              (trace w ++ failed_attempts i n) /\
    trace (snd r) = trace w ++ failed_attempts i n ++ [EvRegister].
Proof.
  induction n as [|n IH]; intros i w Hi Hfail r; subst r.
  - assert (i = 9%nat) by lia. subst i.
    specialize (Hfail 0%nat ltac:(lia)).
    cbn [failed_attempts seq flat_map] in *. rewrite app_nil_r in *.
    change (10 - 9)%nat with 1%nat. change (Z.of_nat 9 + 1) with 10.
    rewrite register_loop_last_failure by assumption.
    split; reflexivity.
  - assert (Hfirst : IS_ERR (devm_platform_profile_register K (trace w))
                     = true).
    { specialize (Hfail 0%nat ltac:(lia)).
      cbn [failed_attempts seq flat_map] in Hfail.
      now rewrite app_nil_r in Hfail. }
    replace (10 - i)%nat with (S (10 - S i)) by lia.
    rewrite register_loop_retry by (assumption || lia).
    set (w' := {| drv := _; trace := _ |}).
    destruct (IH (S i) w') as (Hres & Htrace).
    + lia.
    + intros j Hj. subst w'. cbn [trace].
      rewrite <- app_assoc, <- failed_attempts_succ.
      apply Hfail. lia.
    + split.
      * rewrite Hres. subst w'. cbn [trace].
        now rewrite <- app_assoc, <- failed_attempts_succ.
      * rewrite Htrace. subst w'. cbn [trace].
        now rewrite failed_attempts_succ, <- !app_assoc.
Qed.

(** Whatever the registration answers, the loop registers at most as often
    as it has iterations left. *)
Lemma register_loop_attempts_bound (K : env) (remaining : nat) :
  forall (attempt delay_ms : Z) (w : world),
  exists evs,
    trace (after (register_loop K remaining attempt delay_ms) w)
      = trace w ++ evs /\
    (count_events is_register evs <= remaining)%nat.
Proof.
  induction remaining as [|k IH]; intros attempt delay_ms w.
  - exists []. cbn. rewrite app_nil_r. split; [reflexivity | lia].
  - cbn [register_loop].
    destruct (attempt <=? max_retries).
    + unfold after. unfold bind at 1. unfold call_register at 1.
      unfold_monad. cbn [drv trace].
      destruct (IS_ERR (devm_platform_profile_register K (trace w))).
      * cbn [negb].
        destruct (attempt <? max_retries); cbn [drv trace];
          match goal with
          | |- context [register_loop K k ?a ?d ?w0] =>
              destruct (IH a d w0) as (evs & Htr & Hcount);
                unfold after in Htr; rewrite Htr; cbn [trace];
                rewrite <- !app_assoc; eexists; split; [reflexivity|];
                unfold count_events in *;
                cbn [app filter is_register List.length]; lia
          end.
      * cbn [negb snd trace]. exists [EvRegister].
        split; [reflexivity | cbn; lia].
    + exists []. cbn. rewrite app_nil_r. split; [reflexivity | lia].
Qed.

(** ** System control mode: setting the cached mode *)

(** The profile adapter's set does short-circuit: a profile whose mode code
    is the cached one returns 0 and leaves the world, trace included, as it
    was. *)
Lemma acer_platform_profile_set_same_mode
    (K : env) (w : world) (p : platform_profile_option) :
  system_control_mode (quirks (drv w)) <> 0 ->
  profile_mode_code p = Some (control_mode (drv w)) ->
  acer_platform_profile_set K p w = (0, w).
Proof.
  intros Hq Hp.
  unfold acer_platform_profile_set. unfold_monad.
  destruct (Z.eqb_spec (system_control_mode (quirks (drv w))) 0);
    [contradiction|].
  destruct p; cbn in Hp; try discriminate;
    injection Hp as Hp; rewrite <- Hp; rewrite Z.eqb_refl; reflexivity.
Qed.

(** C1 (the code departs from the claim): the sysfs store has no
    short-circuit.  A store whose text parses to the cached mode code, one
    of 1, 2, 3, writes that code to the embedded-controller register at
    0x45 again; it returns [count] unless that write fails. *)
Theorem system_control_mode_store_rewrites_cached_mode
    (K : env) (w : world) (buf : string) (count v : Z) :
  kstrtoint K buf = (0, v) ->
  control_mode (drv w) = v ->
  SYSTEM_CONTROL_BALANCED <= v <= SYSTEM_CONTROL_PERFORMANCE ->
  let err := ec_write K (trace w) ACER_SYSTEM_CONTROL_MODE_EC_OFFSET v in
  emitted (system_control_mode_store K buf count) w
    = [EvEcWrite ACER_SYSTEM_CONTROL_MODE_EC_OFFSET v] /\
  result_of (system_control_mode_store K buf count) w
    = (if err <? 0 then err else count).
Proof.
  intros Hparse Hmode Hrange err.
  assert (Hcached : 0 <= control_mode (drv w))
    by (unfold SYSTEM_CONTROL_BALANCED in Hrange; lia).
  pose proof (system_control_mode_store_runs K w buf count v
                Hcached Hparse Hrange) as Hrun.
  cbv zeta in Hrun. fold err in Hrun.
  split.
  - apply emitted_app. unfold after. rewrite Hrun.
    destruct (err <? 0); reflexivity.
  - unfold result_of. rewrite Hrun. destruct (err <? 0); reflexivity.
Qed.

(** With balanced (1) cached, writing "1" to the attribute writes 1 to the
    register at 0x45. *)
Lemma system_control_mode_store_rewrites_cached_mode_witness :
  let w := {| drv := set_control_mode 1
                       (initial_driver (-1) (-1) quirk_acer_system_control_mode);
              trace := [] |} in
  emitted (system_control_mode_store healthy_env "1" 2) w = [EvEcWrite 69 1] /\
  result_of (system_control_mode_store healthy_env "1" 2) w = 2.
Proof.
  intros w.
  apply (system_control_mode_store_rewrites_cached_mode
           healthy_env w "1" 2 1 eq_refl eq_refl).
  unfold SYSTEM_CONTROL_BALANCED, SYSTEM_CONTROL_PERFORMANCE. lia.
Defined.

(** ** Set operations whose firmware call or register write fails *)

(** The health store ignores the status of its set call: the statement of
    C2 restricted to it is refuted by a firmware that fails every
    evaluation, where writing "1" to the health attribute returns
    [count] = 2, which is no error. *)
Lemma failed_battery_set_is_not_surfaced :
  ~ (forall (K : env) (w : world) (buf : string) (count : Z) (b : bool),
        0 <= count ->
        0 <= health_mode (battery_status (drv w)) ->
        kstrtobool K buf = (0, b) ->
        ACPI_FAILURE
          (result_of (set_battery_health_control K HEALTH_MODE b) w) = true ->
        result_of (health_mode_store K buf count) w < 0 /\
        battery_status (drv (after (health_mode_store K buf count) w))
          = battery_status (drv w)).
Proof.
  intros claim.
  destruct (claim broken_firmware_env (boot (-1) (-1) quirk_unknown) "1"%string
                  2 true)
    as [Hsurfaced _].
  - lia.
  - cbn. lia.
  - reflexivity.
  - reflexivity.
  - vm_compute in Hsurfaced. discriminate.
Qed.

(** The usb-charge-mode store assigns the cache before it calls the
    firmware: with 1 cached and a firmware that fails the call, writing "0"
    returns [-ENODEV] and leaves 0 in the cache. *)
Example usb_charge_mode_store_caches_before_call :
  let w := {| drv := set_usb_charge_mode_enable 1
                       (initial_driver (-1) (-1) quirk_acer_sfg174_73);
              trace := [] |} in
  result_of (usb_charge_mode_store broken_firmware_env "0" 2) w = - ENODEV /\
  usb_charge_mode_enable
    (drv (after (usb_charge_mode_store broken_firmware_env "0" 2) w)) = 0.
Proof. split; reflexivity. Qed.

(** C2 (the code departs from the claim on two of its paths): a
    system-control-mode set, by the sysfs store or by the profile adapter,
    whose register write fails returns the write's error and leaves every
    variable of the driver, the cached mode included, as it was.  A
    usb-charge-mode store whose firmware call fails returns [-ENODEV], but
    the cache already holds the requested value.  A battery health or
    calibration store returns [count] whether or not its set call failed;
    its cache changes only through the refresh that follows, and is what it
    was before the store when that refresh reports a failure. *)
Theorem set_failure_paths
    (K : env) (w : world) (buf : string) (count : Z) :
  (forall v : Z,
     0 <= control_mode (drv w) ->
     kstrtoint K buf = (0, v) ->
     SYSTEM_CONTROL_BALANCED <= v <= SYSTEM_CONTROL_PERFORMANCE ->
     ec_write K (trace w) ACER_SYSTEM_CONTROL_MODE_EC_OFFSET v < 0 ->
     result_of (system_control_mode_store K buf count) w
       = ec_write K (trace w) ACER_SYSTEM_CONTROL_MODE_EC_OFFSET v /\
     drv (after (system_control_mode_store K buf count) w) = drv w) /\
  (forall (p : platform_profile_option) (m : Z),
     system_control_mode (quirks (drv w)) <> 0 ->
     profile_mode_code p = Some m ->
     m <> control_mode (drv w) ->
     ec_write K (trace w) ACER_SYSTEM_CONTROL_MODE_EC_OFFSET m < 0 ->
     result_of (acer_platform_profile_set K p) w
       = ec_write K (trace w) ACER_SYSTEM_CONTROL_MODE_EC_OFFSET m /\
     drv (after (acer_platform_profile_set K p) w) = drv w) /\
  (forall (stored : byte) (operand : Z),
     usb_charge_mode (quirks (drv w)) <> 0 ->
     sscanf_hhd K buf = (1, stored) ->
     In (byte_val stored, operand) [(0, 663300); (1, 1969924)] ->
     ACPI_FAILURE
       (fst (wmi_evaluate_method K (trace w) WMI_GUID2 0
               ACER_WMID_SET_FUNCTION (bytes_of_u64 operand))) = true ->
     result_of (usb_charge_mode_store K buf count) w = - ENODEV /\
     usb_charge_mode_enable (drv (after (usb_charge_mode_store K buf count) w))
       = byte_val stored) /\
  (forall b : bool,
     kstrtobool K buf = (0, b) ->
     (0 <= health_mode (battery_status (drv w)) ->
      result_of (health_mode_store K buf count) w = count /\
      (ACPI_FAILURE
         (result_of (get_battery_health_control_status K)
            (after (set_battery_health_control K HEALTH_MODE b) w)) = true ->
       battery_status (drv (after (health_mode_store K buf count) w))
         = battery_status (drv w))) /\
     (0 <= calibration_mode (battery_status (drv w)) ->
      result_of (calibration_mode_store K buf count) w = count /\
      (ACPI_FAILURE
         (result_of (get_battery_health_control_status K)
            (after (set_battery_health_control K CALIBRATION_MODE b) w))
         = true ->
       battery_status (drv (after (calibration_mode_store K buf count) w))
         = battery_status (drv w)))).
Proof.
  split; [|split; [|split]].
  - intros v Hcached Hparse Hrange Hfail.
    pose proof (system_control_mode_store_runs K w buf count v
                  Hcached Hparse Hrange) as Hrun.
    cbv zeta in Hrun.
    destruct (Z.ltb_spec
                (ec_write K (trace w) ACER_SYSTEM_CONTROL_MODE_EC_OFFSET v) 0);
      [|lia].
    unfold result_of, after. rewrite Hrun. split; reflexivity.
  - intros p m Hq Hcode Hdiff Hfail.
    pose proof (acer_platform_profile_set_runs K w p m Hq Hcode) as Hrun.
    cbv zeta in Hrun.
    destruct (Z.eqb_spec m (control_mode (drv w))); [contradiction|].
    destruct (Z.ltb_spec
                (ec_write K (trace w) ACER_SYSTEM_CONTROL_MODE_EC_OFFSET m) 0);
      [|lia].
    unfold result_of, after. rewrite Hrun. split; reflexivity.
  - intros stored operand Hq Hparse Hin Hfail.
    pose proof (usb_charge_mode_store_runs K w buf count stored operand
                  Hq Hparse Hin) as Hrun.
    cbv zeta in Hrun. rewrite Hfail in Hrun.
    unfold result_of, after. rewrite Hrun. split; reflexivity.
  - intros b Hparse. split.
    + intros Hcached.
      pose proof (health_mode_store_runs K w buf count b Hcached Hparse)
        as Hrun.
      rewrite <- (set_control_after K HEALTH_MODE b w) in Hrun.
      assert (Hafter : after (health_mode_store K buf count) w
                       = after (get_battery_health_control_status K)
                           (after (set_battery_health_control K HEALTH_MODE b) w))
        by (unfold after at 1; now rewrite Hrun).
      split; [unfold result_of; now rewrite Hrun|].
      intros Hfail.
      rewrite Hafter, (get_status_failure_keeps_driver K _ Hfail).
      now rewrite set_control_after.
    + intros Hcached.
      pose proof (calibration_mode_store_runs K w buf count b Hcached Hparse)
        as Hrun.
      rewrite <- (set_control_after K CALIBRATION_MODE b w) in Hrun.
      assert (Hafter : after (calibration_mode_store K buf count) w
                       = after (get_battery_health_control_status K)
                           (after (set_battery_health_control K CALIBRATION_MODE b) w))
        by (unfold after at 1; now rewrite Hrun).
      split; [unfold result_of; now rewrite Hrun|].
      intros Hfail.
      rewrite Hafter, (get_status_failure_keeps_driver K _ Hfail).
      now rewrite set_control_after.
Qed.

(** On a machine whose firmware and controller fail every call: the
    system-control-mode store and the profile set return [-EIO] and keep
    the cached mode 1; the usb-charge-mode store of "1" returns [-ENODEV]
    and turns the cached 0 into 1; the health store returns [count] with
    the battery cache as before. *)
Lemma set_failure_paths_witness :
  let K := broken_firmware_env in
  let w := {| drv := set_control_mode 1
                       (initial_driver (-1) (-1) quirk_acer_sfg174_73);
              trace := [] |} in
  (result_of (system_control_mode_store K "2" 2) w = - EIO /\
   drv (after (system_control_mode_store K "2" 2) w) = drv w) /\
  (result_of (acer_platform_profile_set K PLATFORM_PROFILE_PERFORMANCE) w
     = - EIO /\
   drv (after (acer_platform_profile_set K PLATFORM_PROFILE_PERFORMANCE) w)
     = drv w) /\
  (usb_charge_mode_enable (drv w) = 0 /\
   result_of (usb_charge_mode_store K "1" 2) w = - ENODEV /\
   usb_charge_mode_enable (drv (after (usb_charge_mode_store K "1" 2) w)) = 1) /\
  result_of (health_mode_store K "1" 2) w = 2 /\
  battery_status (drv (after (health_mode_store K "1" 2) w))
    = battery_status (drv w).
Proof.
  intros K w.
  split; [|split; [|split]].
  - destruct (set_failure_paths K w "2" 2) as (Hstore & _).
    apply (Hstore 2); [cbn; lia | reflexivity | | ].
    + unfold SYSTEM_CONTROL_BALANCED, SYSTEM_CONTROL_PERFORMANCE. lia.
    + cbn. unfold EIO. lia.
  - destruct (set_failure_paths K w "2" 2) as (_ & Hprofile & _).
    apply (Hprofile PLATFORM_PROFILE_PERFORMANCE 3);
      [cbn; discriminate | reflexivity | cbn; discriminate | ].
    cbn. unfold EIO. lia.
  - destruct (set_failure_paths K w "1" 2) as (_ & _ & Husb & _).
    split; [reflexivity|].
    apply (Husb x01 1969924);
      [cbn; discriminate | reflexivity | | reflexivity].
    cbn. right. left. reflexivity.
  - destruct (set_failure_paths K w "1" 2) as (_ & _ & _ & Hbattery).
    destruct (Hbattery true eq_refl) as [Hhealth _].
    destruct Hhealth as [Hres Hcache]; [cbn; lia|].
    split; [exact Hres|]. apply Hcache. reflexivity.
Defined.

(** ** Response buffers of unexpected length *)

(** The length rule does not hold of the Namespace-B call: a three-byte
    buffer is neither four nor eight bytes long, and the call still reports
    the evaluator's success and produces the value 0. *)
Lemma length_mismatch_tolerated_by_exec_u64 :
  ~ (forall (K : env) (w : world) (method_id in_ status : Z)
            (buffer : list byte),
        wmi_evaluate_method K (trace w) WMI_GUID2 0 method_id
          (bytes_of_u64 in_) = (status, Some (ACPI_TYPE_BUFFER buffer)) ->
        ACPI_FAILURE status = false ->
        buffer_length buffer <> 4 -> buffer_length buffer <> 8 ->
        ACPI_FAILURE
          (fst (result_of (acer_wmi_apgeaction_exec_u64 K method_id in_) w))
          = true /\
        snd (result_of (acer_wmi_apgeaction_exec_u64 K method_id in_) w)
          = None).
Proof.
  intros claim.
  pose (K := stub_env
               (wmi_const AE_OK (Some (ACPI_TYPE_BUFFER [x01; x02; x03])))
               (fun _ _ => (0, x01)) (fun _ _ _ => 0) (fun _ => 4096)).
  destruct (claim K (boot (-1) (-1) quirk_acer_sfg174_73)
                  ACER_WMID_GET_FUNCTION 4 AE_OK [x01; x02; x03]
                  eq_refl eq_refl) as [Hfail _].
  - cbn. discriminate.
  - cbn. discriminate.
  - vm_compute in Hfail. discriminate.
Qed.

(** C3 (the code departs from the claim on the Namespace-B call): a
    Namespace-A query answer whose buffer is not 8 bytes long makes
    [get_battery_health_control_status] return [AE_ERROR] and leaves the
    driver's variables as they were, and a Namespace-A set acknowledgement
    whose buffer is not 4 bytes long makes [set_battery_health_control]
    return [AE_ERROR], both as the claim says.  The Namespace-B call lacks
    the check its two siblings make: a buffer of 4 or 8 bytes yields its
    little-endian value, and a buffer of any other length is not refused
    but yields the value 0 with the evaluator's success status. *)
Theorem response_length_checks
    (K : env) (w : world) (status : Z) (buffer : list byte) :
  ACPI_FAILURE status = false ->
  (wmi_evaluate_method K (trace w) WMI_GUID1 0 20 query_input
     = (status, Some (ACPI_TYPE_BUFFER buffer)) ->
   buffer_length buffer <> 8 ->
   result_of (get_battery_health_control_status K) w = AE_ERROR /\
   drv (after (get_battery_health_control_status K) w) = drv w) /\
  (forall (function : Z) (fs : bool),
     wmi_evaluate_method K (trace w) WMI_GUID1 0 21 (set_input function fs)
       = (status, Some (ACPI_TYPE_BUFFER buffer)) ->
     buffer_length buffer <> 4 ->
     result_of (set_battery_health_control K function fs) w = AE_ERROR) /\
  (forall method_id in_ : Z,
     wmi_evaluate_method K (trace w) WMI_GUID2 0 method_id (bytes_of_u64 in_)
       = (status, Some (ACPI_TYPE_BUFFER buffer)) ->
     result_of (acer_wmi_apgeaction_exec_u64 K method_id in_) w
     = (status,
        Some (if (buffer_length buffer =? 4) || (buffer_length buffer =? 8)
              then le_decode buffer else 0))).
Proof.
  intros Hok. split; [|split].
  - intros Hanswer Hlen.
    unfold result_of, after. rewrite get_status_cases. cbv zeta.
    rewrite Hanswer. cbn [fst snd]. rewrite Hok.
    destruct (Z.eqb_spec (buffer_length buffer) 8); [contradiction|].
    split; reflexivity.
  - intros function fs Hanswer Hlen.
    unfold result_of. rewrite set_control_cases. cbv zeta.
    rewrite Hanswer. cbn [fst snd]. rewrite Hok.
    destruct (Z.eqb_spec (buffer_length buffer) 4); [contradiction|].
    reflexivity.
  - intros method_id in_ Hanswer.
    unfold result_of. rewrite exec_u64_cases. cbv zeta.
    rewrite Hanswer. cbn [fst snd]. rewrite Hok. reflexivity.
Qed.

(** A firmware that answers every call with a three-byte buffer: the two
    Namespace-A calls fail with [AE_ERROR], the Namespace-B call succeeds
    with the value 0. *)
Lemma response_length_checks_witness :
  let K := stub_env
             (wmi_const AE_OK (Some (ACPI_TYPE_BUFFER [x01; x02; x03])))
             (fun _ _ => (0, x01)) (fun _ _ _ => 0) (fun _ => 4096) in
  let w := boot (-1) (-1) quirk_acer_sfg174_73 in
  (result_of (get_battery_health_control_status K) w = AE_ERROR /\
   drv (after (get_battery_health_control_status K) w) = drv w) /\
  result_of (set_battery_health_control K HEALTH_MODE true) w = AE_ERROR /\
  result_of (acer_wmi_apgeaction_exec_u64 K ACER_WMID_GET_FUNCTION 4) w
  = (AE_OK, Some 0).
Proof.
  intros K w.
  destruct (response_length_checks K w AE_OK [x01; x02; x03] eq_refl)
    as (Hquery & Hset & Hexec).
  split; [|split].
  - apply Hquery; [reflexivity | cbn; discriminate].
  - apply Hset; [reflexivity | cbn; discriminate].
  - apply (Hexec ACER_WMID_GET_FUNCTION 4). reflexivity.
Defined.

(** ** The usb-charge-limit store *)

(** The usb-charge-limit store, by the byte that [sscanf] stored: it
    returns [-EOPNOTSUPP] and does nothing when the usb-charge quirk is
    off; with the quirk on and usb-charge-mode cached as 0 it returns
    [-EINVAL] and does nothing, whatever the text; with the quirk on and
    any other cached mode, a stored byte of 10, 20 or 30 makes exactly one
    Namespace-B set call with the operand 659204, 1314564 or 1969924 (the
    store returning [count], or [-ENODEV] when the firmware fails the
    call), and every other stored byte returns [-EINVAL] without a firmware
    call. *)
Lemma usb_charge_limit_store_cases
    (K : env) (w : world) (buf : string) (count : Z) :
  (usb_charge_mode (quirks (drv w)) = 0 ->
   usb_charge_limit_store K buf count w = (- EOPNOTSUPP, w)) /\
  (usb_charge_mode (quirks (drv w)) <> 0 ->
   usb_charge_mode_enable (drv w) = 0 ->
   usb_charge_limit_store K buf count w = (- EINVAL, w)) /\
  (forall stored : byte,
     usb_charge_mode (quirks (drv w)) <> 0 ->
     usb_charge_mode_enable (drv w) <> 0 ->
     sscanf_hhd K buf = (1, stored) ->
     (forall operand : Z,
        In (byte_val stored, operand)
           [(10, 659204); (20, 1314564); (30, 1969924)] ->
        let call := EvWmi WMI_GUID2 0 ACER_WMID_SET_FUNCTION
                      (bytes_of_u64 operand) in
        let status := fst (wmi_evaluate_method K (trace w) WMI_GUID2 0
                             ACER_WMID_SET_FUNCTION (bytes_of_u64 operand)) in
        usb_charge_limit_store K buf count w
        = (if ACPI_FAILURE status then - ENODEV else count,
           {| drv := drv w; trace := trace w ++ [call] |})) /\
     (byte_val stored <> 10 -> byte_val stored <> 20 ->
      byte_val stored <> 30 ->
      usb_charge_limit_store K buf count w = (- EINVAL, w))).
Proof.
  split; [|split].
  - intros Hq. unfold usb_charge_limit_store, bind, load, ret.
    rewrite Hq. reflexivity.
  - intros Hq Hoff. unfold usb_charge_limit_store, bind, load, ret.
    destruct (Z.eqb_spec (usb_charge_mode (quirks (drv w))) 0);
      [contradiction|].
    rewrite Hoff. reflexivity.
  - intros stored Hq Hon Hparse.
    assert (Hrun : usb_charge_limit_store K buf count w
                   = let val := byte_val stored in
                     let send (input_value : Z) : M Z :=
                       '(status, _) <-
                         acer_wmi_apgeaction_exec_u64 K ACER_WMID_SET_FUNCTION
                           input_value ;;
                       if ACPI_FAILURE status then ret (- ENODEV)
                       else ret count in
                     (if val =? 10 then send 659204
                      else if val =? 20 then send 1314564
                      else if val =? 30 then send 1969924
                      else ret (- EINVAL)) w).
    { unfold usb_charge_limit_store. unfold bind at 1 2. unfold load.
      destruct (Z.eqb_spec (usb_charge_mode (quirks (drv w))) 0);
        [contradiction|].
      destruct (Z.eqb_spec (usb_charge_mode_enable (drv w)) 0);
        [contradiction|].
      rewrite Hparse. reflexivity. }
    rewrite Hrun. cbv zeta. split.
    + intros operand Hin.
      assert (Hsend : forall v : Z,
                 bind (acer_wmi_apgeaction_exec_u64 K ACER_WMID_SET_FUNCTION v)
                   (fun x => match x with
                             | (status, _) =>
                                 if ACPI_FAILURE status then ret (- ENODEV)
                                 else ret count
                             end) w
                 = (if ACPI_FAILURE
                         (fst (wmi_evaluate_method K (trace w) WMI_GUID2 0
                                 ACER_WMID_SET_FUNCTION (bytes_of_u64 v)))
                    then - ENODEV else count,
                    {| drv := drv w;
                       trace := trace w
                                ++ [EvWmi WMI_GUID2 0 ACER_WMID_SET_FUNCTION
                                      (bytes_of_u64 v)] |})).
      { intros v. unfold bind, ret. rewrite exec_u64_cases. cbv zeta.
        destruct (wmi_evaluate_method K (trace w) WMI_GUID2 0
                    ACER_WMID_SET_FUNCTION (bytes_of_u64 v)) as [st obj].
        cbn [fst snd].
        destruct (ACPI_FAILURE st) eqn:Est; cbv beta iota; rewrite Est;
          reflexivity. }
      cbn [In] in Hin.
      destruct Hin as [E|[E|[E|[]]]]; injection E as Hval Hop;
        rewrite <- Hval; subst operand; cbn [Z.eqb Pos.eqb]; apply Hsend.
    + intros N10 N20 N30.
      destruct (Z.eqb_spec (byte_val stored) 10); [contradiction|].
      destruct (Z.eqb_spec (byte_val stored) 20); [contradiction|].
      destruct (Z.eqb_spec (byte_val stored) 30); [contradiction|].
      reflexivity.
Qed.

(** On a machine with the quirk and a working firmware: with charging
    cached as off a limit of 20 is refused; with charging cached as on it
    is sent as operand 1314564, and a limit of 40 is refused. *)
Lemma usb_charge_limit_store_examples :
  let off := boot (-1) (-1) quirk_acer_sfg174_73 in
  let on := {| drv := set_usb_charge_mode_enable 1 (drv off); trace := [] |} in
  usb_charge_limit_store healthy_env "20" 3 (boot (-1) (-1) quirk_unknown)
    = (- EOPNOTSUPP, boot (-1) (-1) quirk_unknown) /\
  usb_charge_limit_store healthy_env "20" 3 off = (- EINVAL, off) /\
  usb_charge_limit_store healthy_env "20" 3 on
    = (3, {| drv := drv on;
             trace := [EvWmi WMI_GUID2 0 1
                         [x04; x0f; x14; x00; x00; x00; x00; x00]] |}) /\
  usb_charge_limit_store healthy_env "40" 3 on = (- EINVAL, on).
Proof.
  intros off on.
  split; [|split; [|split]].
  - apply (usb_charge_limit_store_cases healthy_env
             (boot (-1) (-1) quirk_unknown) "20" 3). reflexivity.
  - apply (usb_charge_limit_store_cases healthy_env off "20" 3);
      [cbn; discriminate | reflexivity].
  - destruct (usb_charge_limit_store_cases healthy_env on "20" 3)
      as (_ & _ & Hon).
    destruct (Hon x14) as [Hsend _];
      [cbn; discriminate | cbn; discriminate | reflexivity |].
    apply (Hsend 1314564). cbn. right. left. reflexivity.
  - destruct (usb_charge_limit_store_cases healthy_env on "40" 3)
      as (_ & _ & Hon).
    destruct (Hon x28) as [_ Hother];
      [cbn; discriminate | cbn; discriminate | reflexivity |].
    apply Hother; cbn; discriminate.
Defined.

(** C4 (the code departs from the claim for integers that do not fit a
    byte): the usb-charge-limit store returns [-EOPNOTSUPP] and does
    nothing when the usb-charge quirk is off, and with the quirk on and
    usb-charge-mode cached as 0 it returns [-EINVAL] and does nothing,
    whatever the text.  With the quirk on and any other cached mode, a text
    holding the integer [n] is converted by [%hhd] into the one-byte [val],
    which keeps [n mod 256], and the switch sees only that: when
    [n mod 256] is 10, 20 or 30 the store makes exactly one Namespace-B set
    call with the operand 659204, 1314564 or 1969924 and returns [count]
    (or [-ENODEV] when the firmware fails the call), and it returns
    [-EINVAL] without a firmware call exactly for the other residues.  So
    10, 20 and 30 are accepted as the claim says, and so are 266, 276, 286
    and -246, which the claim has rejected. *)
Theorem usb_charge_limit_store_reduces_integer
    (K : env) (w : world) (buf : string) (count : Z) :
  (usb_charge_mode (quirks (drv w)) = 0 ->
   usb_charge_limit_store K buf count w = (- EOPNOTSUPP, w)) /\
  (usb_charge_mode (quirks (drv w)) <> 0 ->
   usb_charge_mode_enable (drv w) = 0 ->
   usb_charge_limit_store K buf count w = (- EINVAL, w)) /\
  (forall n : Z,
     usb_charge_mode (quirks (drv w)) <> 0 ->
     usb_charge_mode_enable (drv w) <> 0 ->
     sscanf_hhd K buf = (1, byte_of_Z n) ->
     (forall operand : Z,
        In (n mod 256, operand)
           [(10, 659204); (20, 1314564); (30, 1969924)] ->
        let call := EvWmi WMI_GUID2 0 ACER_WMID_SET_FUNCTION
                      (bytes_of_u64 operand) in
        let status := fst (wmi_evaluate_method K (trace w) WMI_GUID2 0
                             ACER_WMID_SET_FUNCTION (bytes_of_u64 operand)) in
        usb_charge_limit_store K buf count w
        = (if ACPI_FAILURE status then - ENODEV else count,
           {| drv := drv w; trace := trace w ++ [call] |})) /\
     (n mod 256 <> 10 -> n mod 256 <> 20 -> n mod 256 <> 30 ->
      usb_charge_limit_store K buf count w = (- EINVAL, w))).
Proof.
  destruct (usb_charge_limit_store_cases K w buf count)
    as (Hquirk & Hoff & Hon).
  split; [exact Hquirk|]. split; [exact Hoff|].
  intros n Hq Hen Hparse.
  destruct (Hon (byte_of_Z n) Hq Hen Hparse) as [Hsend Hother].
  rewrite byte_val_of_Z in Hsend, Hother. unfold to_u8 in Hsend, Hother.
  split; assumption.
Qed.

(** With charging cached as on and the texts converted as the kernel
    converts them, the limits 266 and -246 are accepted: each is sent to
    the firmware as operand 659204, the operand of the limit 10, and the
    store returns [count].  The limit 40 is refused. *)
Lemma usb_charge_limit_store_reduces_integer_witness :
  let off := boot (-1) (-1) quirk_acer_sfg174_73 in
  let on := {| drv := set_usb_charge_mode_enable 1 (drv off); trace := [] |} in
  let sent := {| drv := drv on;
                 trace := [EvWmi WMI_GUID2 0 1
                             [x04; x0f; x0a; x00; x00; x00; x00; x00]] |} in
  usb_charge_limit_store kernel_env "266" 4 on = (4, sent) /\
  usb_charge_limit_store kernel_env "-246" 5 on = (5, sent) /\
  usb_charge_limit_store kernel_env "10" 3 on = (3, sent) /\
  usb_charge_limit_store kernel_env "40" 3 on = (- EINVAL, on).
Proof.
  intros off on sent.
  split; [|split; [|split]].
  - destruct (usb_charge_limit_store_reduces_integer kernel_env on "266" 4)
      as (_ & _ & Hon).
    destruct (Hon 266) as [Hsend _];
      [cbn; discriminate | cbn; discriminate | reflexivity |].
    apply (Hsend 659204). left. reflexivity.
  - destruct (usb_charge_limit_store_reduces_integer kernel_env on "-246" 5)
      as (_ & _ & Hon).
    destruct (Hon (-246)) as [Hsend _];
      [cbn; discriminate | cbn; discriminate | reflexivity |].
    apply (Hsend 659204). left. reflexivity.
  - destruct (usb_charge_limit_store_reduces_integer kernel_env on "10" 3)
      as (_ & _ & Hon).
    destruct (Hon 10) as [Hsend _];
      [cbn; discriminate | cbn; discriminate | reflexivity |].
    apply (Hsend 659204). left. reflexivity.
  - destruct (usb_charge_limit_store_reduces_integer kernel_env on "40" 3)
      as (_ & _ & Hon).
    destruct (Hon 40) as [_ Hother];
      [cbn; discriminate | cbn; discriminate | reflexivity |].
    apply Hother; cbn; discriminate.
Defined.

(** ** The usb-charge start-up probe *)

(** The start-up probe of the usb-charge mode, once it reaches the
    firmware and the firmware answers [r]. *)
Lemma init_usb_charge_mode_classifies
    (K : env) (w : world) (status r : Z) :
  usb_charge_mode (quirks (drv w)) <> 0 ->
  wmi_has_guid K WMI_GUID2 = true ->
  result_of (acer_wmi_apgeaction_exec_u64 K ACER_WMID_GET_FUNCTION 4) w
    = (status, Some r) ->
  ACPI_FAILURE status = false ->
  usb_charge_mode_enable (drv (after (init_usb_charge_mode K) w))
  = if r =? 663296 then 0
    else if (r =? 659200) || (r =? 1314560) || (r =? 1969920) then 1
    else -1.
Proof.
  intros Hq Hguid Hprobe Hok.
  unfold init_usb_charge_mode, after.
  unfold bind at 1. unfold load.
  destruct (Z.eqb_spec (usb_charge_mode (quirks (drv w))) 0);
    [contradiction|].
  rewrite Hguid. cbn [negb].
  rewrite bind_run, Hprobe, Hok.
  destruct (exec_u64_run K ACER_WMID_GET_FUNCTION 4 w) as [Hafter _].
  rewrite Hafter.
  destruct (r =? 663296); [reflexivity|].
  destruct ((r =? 659200) || (r =? 1314560) || (r =? 1969920)); reflexivity.
Qed.

(** C5: when the start-up probe over Namespace B (get, operand 4) returns
    659200, the usb-charge-mode cache becomes 1; a usb-charge-limit read
    for which the firmware again returns 659200 prints 10; the
    usb-charge-mode store of 0 that follows sends the operand 663300 with
    the Namespace-B set method, caches 0 and, the firmware accepting the
    call, returns [count].  A probe result outside 663296, 659200, 1314560
    and 1969920 makes the cache -1. *)
Theorem usb_charge_probe_scenario
    (K : env) (w : world) (status r : Z) (buf : string) (count : Z) :
  usb_charge_mode (quirks (drv w)) <> 0 ->
  wmi_has_guid K WMI_GUID2 = true ->
  result_of (acer_wmi_apgeaction_exec_u64 K ACER_WMID_GET_FUNCTION 4) w
    = (status, Some r) ->
  ACPI_FAILURE status = false ->
  let w1 := after (init_usb_charge_mode K) w in
  (r = 659200 ->
   usb_charge_mode_enable (drv w1) = 1 /\
   forall status1 : Z,
     result_of (acer_wmi_apgeaction_exec_u64 K ACER_WMID_GET_FUNCTION 4) w1
       = (status1, Some 659200) ->
     ACPI_FAILURE status1 = false ->
     result_of (usb_charge_limit_show K) w1
       = (3, Some ("10" ++ newline)%string) /\
     let w2 := after (usb_charge_limit_show K) w1 in
     let call := EvWmi WMI_GUID2 0 ACER_WMID_SET_FUNCTION
                   (bytes_of_u64 663300) in
     (sscanf_hhd K buf = (1, x00) ->
      ACPI_FAILURE
        (fst (wmi_evaluate_method K (trace w2) WMI_GUID2 0
                ACER_WMID_SET_FUNCTION (bytes_of_u64 663300))) = false ->
      usb_charge_mode_store K buf count w2
      = (count, {| drv := set_usb_charge_mode_enable 0 (drv w2);
                   trace := trace w2 ++ [call] |}))) /\
  (r <> 663296 -> r <> 659200 -> r <> 1314560 -> r <> 1969920 ->
   usb_charge_mode_enable (drv w1) = -1).
Proof.
  intros Hq Hguid Hprobe Hok w1.
  pose proof (init_usb_charge_mode_classifies K w status r Hq Hguid Hprobe Hok)
    as Hclass.
  fold w1 in Hclass.
  assert (Hq1 : usb_charge_mode (quirks (drv w1)) <> 0).
  { subst w1. unfold init_usb_charge_mode, after.
    unfold bind at 1. unfold load.
    destruct (Z.eqb_spec (usb_charge_mode (quirks (drv w))) 0);
      [contradiction|].
    rewrite Hguid. cbn [negb].
    rewrite bind_run, Hprobe, Hok.
    destruct (exec_u64_run K ACER_WMID_GET_FUNCTION 4 w) as [Hafter _].
    rewrite Hafter.
    destruct (r =? 663296); [exact Hq|].
    destruct ((r =? 659200) || (r =? 1314560) || (r =? 1969920)); exact Hq. }
  split.
  - intros Hr. subst r. split; [exact Hclass|].
    intros status1 Hread Hok1.
    assert (Hshow : usb_charge_limit_show K w1
                    = ((3, Some ("10" ++ newline)%string),
                       after (acer_wmi_apgeaction_exec_u64 K
                                ACER_WMID_GET_FUNCTION 4) w1)).
    { unfold usb_charge_limit_show. unfold bind at 1. unfold load.
      destruct (Z.eqb_spec (usb_charge_mode (quirks (drv w1))) 0);
        [contradiction|].
      rewrite bind_run, Hread, Hok1. reflexivity. }
    split; [unfold result_of; now rewrite Hshow|].
    intros w2 call Hparse Haccept.
    assert (Hw2 : w2 = after (acer_wmi_apgeaction_exec_u64 K
                                ACER_WMID_GET_FUNCTION 4) w1)
      by (subst w2; unfold after at 1; now rewrite Hshow).
    assert (Hq2 : usb_charge_mode (quirks (drv w2)) <> 0).
    { rewrite Hw2.
      destruct (exec_u64_run K ACER_WMID_GET_FUNCTION 4 w1) as [Hafter _].
      rewrite Hafter. exact Hq1. }
    clearbody w2.
    unfold usb_charge_mode_store. unfold bind at 1. unfold load.
    destruct (Z.eqb_spec (usb_charge_mode (quirks (drv w2))) 0);
      [contradiction|].
    rewrite Hparse. cbn [Z.eqb Pos.eqb negb byte_val Byte.to_N Z.of_N].
    unfold bind at 1. unfold store. rewrite bind_run.
    set (w3 := {| drv := set_usb_charge_mode_enable 0 (drv w2);
                  trace := trace w2 |}).
    destruct (exec_u64_run K ACER_WMID_SET_FUNCTION 663300 w3)
      as [Hafter Hstatus].
    cbn [trace w3] in Hstatus.
    destruct (result_of (acer_wmi_apgeaction_exec_u64 K
                           ACER_WMID_SET_FUNCTION 663300) w3)
      as [st out].
    cbn [fst] in Hstatus. rewrite Hstatus, Haccept, Hafter.
    reflexivity.
  - intros N0 N1 N2 N3. rewrite Hclass.
    destruct (Z.eqb_spec r 663296); [contradiction|].
    destruct (Z.eqb_spec r 659200); [contradiction|].
    destruct (Z.eqb_spec r 1314560); [contradiction|].
    destruct (Z.eqb_spec r 1969920); [contradiction|].
    reflexivity.
Qed.

(** The scenario on a firmware that reports 659200: the cache is seeded
    with 1, the limit reads as 10, and writing "0" to the mode attribute
    sends 663300 and caches 0. *)
Lemma usb_charge_probe_scenario_witness :
  let K := stub_env (wmi_usb_reports 659200) (fun _ _ => (0, x01))
             (fun _ _ _ => 0) (fun _ => 4096) in
  let w := boot (-1) (-1) quirk_acer_sfg174_73 in
  let w1 := after (init_usb_charge_mode K) w in
  let w2 := after (usb_charge_limit_show K) w1 in
  usb_charge_mode_enable (drv w1) = 1 /\
  result_of (usb_charge_limit_show K) w1 = (3, Some ("10" ++ newline)%string) /\
  usb_charge_mode_store K "0" 2 w2
  = (2, {| drv := set_usb_charge_mode_enable 0 (drv w2);
           trace := trace w2
                    ++ [EvWmi WMI_GUID2 0 1
                          [x04; x1f; x0a; x00; x00; x00; x00; x00]] |}).
Proof.
  intros K w w1 w2.
  destruct (usb_charge_probe_scenario K w AE_OK 659200 "0" 2) as [Hknown _].
  - cbn. discriminate.
  - reflexivity.
  - reflexivity.
  - reflexivity.
  - destruct (Hknown eq_refl) as [Hcache Hnext].
    destruct (Hnext AE_OK eq_refl eq_refl) as [Hshow Hstore].
    split; [exact Hcache|]. split; [exact Hshow|].
    apply Hstore; reflexivity.
Defined.

(** ** The tri-state of the battery modes *)

(** C6: for every eight-byte answer to the Namespace-A query, the cached
    value of a battery mode is -1 when the mode's bit is absent from the
    availability byte (byte 0; bit 0 for health, bit 1 for calibration),
    and otherwise 1 when the mode's status byte (byte 3 for health, byte 4
    for calibration) is positive and 0 when it is zero. *)
Theorem query_response_sets_tristate
    (K : env) (w : world) (status : Z) (b0 b1 b2 b3 b4 b5 b6 b7 : byte) :
  wmi_evaluate_method K (trace w) WMI_GUID1 0 20 query_input
    = (status, Some (ACPI_TYPE_BUFFER [b0; b1; b2; b3; b4; b5; b6; b7])) ->
  ACPI_FAILURE status = false ->
  let cache := battery_status (drv (after (get_battery_health_control_status K) w)) in
  (Z.testbit (byte_val b0) 0 = false -> health_mode cache = -1) /\
  (Z.testbit (byte_val b0) 0 = true -> 0 < byte_val b3 -> health_mode cache = 1) /\
  (Z.testbit (byte_val b0) 0 = true -> byte_val b3 = 0 -> health_mode cache = 0) /\
  (Z.testbit (byte_val b0) 1 = false -> calibration_mode cache = -1) /\
  (Z.testbit (byte_val b0) 1 = true -> 0 < byte_val b4 ->
   calibration_mode cache = 1) /\
  (Z.testbit (byte_val b0) 1 = true -> byte_val b4 = 0 ->
   calibration_mode cache = 0).
Proof.
  intros Hanswer Hok cache. subst cache.
  unfold after. rewrite get_status_cases. cbv zeta.
  rewrite Hanswer. cbn [fst snd]. rewrite Hok.
  cbn [buffer_length List.length Z.of_nat Pos.of_succ_nat Pos.succ Z.eqb
       Pos.eqb decode_get_output uFunctionList uFunctionStatus nth
       drv set_battery_status battery_status health_mode calibration_mode].
  repeat split; intros Hbit; try intros Hst; rewrite Hbit; try reflexivity.
  - destruct (Z.gtb_spec (byte_val b3) 0); [reflexivity | lia].
  - now rewrite Hst.
  - destruct (Z.gtb_spec (byte_val b4) 0); [reflexivity | lia].
  - now rewrite Hst.
Qed.

(** The scenario of the specification: availability 0b01 with a positive
    health status caches health as 1 and calibration as unknown. *)
Lemma query_response_sets_tristate_witness :
  let K := stub_env
             (wmi_const AE_OK
                (Some (ACPI_TYPE_BUFFER [x01; x00; x00; x01; x00; x00; x00; x00])))
             (fun _ _ => (0, x01)) (fun _ _ _ => 0) (fun _ => 4096) in
  let cache :=
    battery_status
      (drv (after (get_battery_health_control_status K) (boot (-1) (-1) quirk_unknown))) in
  health_mode cache = 1 /\ calibration_mode cache = -1.
Proof.
  intros K cache.
  pose proof (query_response_sets_tristate K (boot (-1) (-1) quirk_unknown) AE_OK
                x01 x00 x00 x01 x00 x00 x00 x00 eq_refl eq_refl)
    as (_ & H1 & _ & H2 & _).
  split.
  - apply H1; [reflexivity | reflexivity].
  - apply H2. reflexivity.
Defined.

(** ** Profile registration with back-off *)

(** C7: the profile registration is attempted at most 10 times.  On a
    machine with the quirk, when the first [n] attempts fail and attempt
    [n + 1 <= 10] succeeds, the setup returns 0 after exactly [n + 1]
    attempts, having slept between consecutive attempts for 100 doubled at
    each attempt and capped at 1000; when all 10 attempts fail it returns
    the error of the tenth attempt, after 9 sleeps of 100, 200, 400, 800
    and then 1000 five times. *)
Theorem registration_retries_with_backoff (K : env) (w : world) :
  (count_events is_register (emitted (acer_platform_profile_setup K) w)
   <= 10)%nat /\
  (system_control_mode (quirks (drv w)) <> 0 ->
   let answer (j : nat) :=
     devm_platform_profile_register K (trace w ++ failed_attempts 0 j) in
   let events := emitted (acer_platform_profile_setup K) w in
   (forall n : nat,
      (n < 10)%nat ->
      (forall j : nat, (j < n)%nat -> IS_ERR (answer j) = true) ->
      IS_ERR (answer n) = false ->
      result_of (acer_platform_profile_setup K) w = 0 /\
      events = failed_attempts 0 n ++ [EvRegister] /\
      count_events is_register events = S n /\
      sleeps events = map delay_at (seq 0 n) /\
      platform_profile_support
        (drv (after (acer_platform_profile_setup K) w)) = true) /\
   ((forall j : nat, (j < 10)%nat -> IS_ERR (answer j) = true) ->
    result_of (acer_platform_profile_setup K) w = answer 9%nat /\
    events = failed_attempts 0 9 ++ [EvRegister] /\
    count_events is_register events = 10%nat /\
    sleeps events = [100; 200; 400; 800; 1000; 1000; 1000; 1000; 1000])).
Proof.
  split.
  - unfold acer_platform_profile_setup.
    destruct (system_control_mode (quirks (drv w)) =? 0) eqn:Eq.
    + unfold emitted, after, bind, load, ret. rewrite Eq. cbn [snd].
      rewrite skipn_all. cbn. lia.
    + destruct (register_loop_attempts_bound K (Z.to_nat max_retries) 1 100 w)
        as (evs & Htr & Hcount).
      assert (Hsame : after (q <- load quirks ;;
                             if system_control_mode q =? 0 then ret 0
                             else register_loop K (Z.to_nat max_retries) 1 100)
                        w
                      = after (register_loop K (Z.to_nat max_retries) 1 100) w).
      { unfold after, bind, load. now rewrite Eq. }
      rewrite <- Hsame in Htr.
      rewrite (emitted_app _ _ _ Htr). exact Hcount.
  - intros Hq answer events.
    assert (Hsetup : acer_platform_profile_setup K w
                     = register_loop K (10 - 0) (Z.of_nat 0 + 1) (delay_at 0) w).
    { unfold acer_platform_profile_setup, bind, load.
      destruct (Z.eqb_spec (system_control_mode (quirks (drv w))) 0);
        [contradiction | reflexivity]. }
    split.
    + intros n Hn Hfail Hok.
      destruct (register_loop_succeeds_after K n 0%nat w Hn Hfail Hok)
        as (Hres & Htrace & Hsupport).
      rewrite <- Hsetup in Hres, Htrace, Hsupport.
      assert (Hevents : events = failed_attempts 0 n ++ [EvRegister])
        by (apply emitted_app; exact Htrace).
      split; [exact Hres|]. split; [exact Hevents|].
      rewrite Hevents, count_register_failed_attempts, sleeps_failed_attempts.
      repeat split. exact Hsupport.
    + intros Hfail.
      destruct (register_loop_exhausted K 9 0%nat w eq_refl) as (Hres & Htrace).
      * intros j Hj. apply Hfail. lia.
      * rewrite <- Hsetup in Hres, Htrace.
        assert (Hevents : events = failed_attempts 0 9 ++ [EvRegister])
          by (apply emitted_app; exact Htrace).
        split; [exact Hres|]. split; [exact Hevents|].
        rewrite Hevents, count_register_failed_attempts, sleeps_failed_attempts.
        split; reflexivity.
Qed.

(** A registration that fails four times and succeeds on the fifth
    attempt: success after exactly five attempts, with the delays 100, 200,
    400 and 800 between them. *)
Lemma registration_retries_with_backoff_witness :
  let K := stub_env (wmi_const AE_OK None) (fun _ _ => (0, x01))
             (fun _ _ _ => 0) (register_after 4) in
  let w := boot (-1) (-1) quirk_acer_system_control_mode in
  result_of (acer_platform_profile_setup K) w = 0 /\
  emitted (acer_platform_profile_setup K) w
  = [EvRegister; EvSleep 100; EvRegister; EvSleep 200; EvRegister;
     EvSleep 400; EvRegister; EvSleep 800; EvRegister] /\
  count_events is_register (emitted (acer_platform_profile_setup K) w) = 5%nat /\
  sleeps (emitted (acer_platform_profile_setup K) w) = [100; 200; 400; 800].
Proof.
  intros K w.
  destruct (registration_retries_with_backoff K w) as [_ Hloop].
  destruct Hloop as [Hsuccess _]; [cbn; discriminate|].
  destruct (Hsuccess 4%nat) as (Hres & Hev & Hcount & Hsleeps & _).
  - lia.
  - intros j Hj.
    destruct j as [|[|[|[|j]]]]; [reflexivity .. | lia].
  - reflexivity.
  - split; [exact Hres|]. split; [exact Hev|].
    split; [exact Hcount | exact Hsleeps].
Defined.

(** ** The battery stores *)

(** C8: a health or calibration store issued while the cached value of its
    mode is negative returns 0 and leaves the world untouched: no firmware
    call is made.  With a non-negative cached value, a store whose text is
    the boolean [b] issues the Namespace-A set call (method 21) carrying
    battery 1, the mode's bit (1 for health, 2 for calibration) and the
    status byte of [b], then the Namespace-A query (method 20) that
    refreshes the cache, and returns [count]. *)
Theorem battery_store_guard_and_refresh
    (K : env) (w : world) (buf : string) (count : Z) :
  (health_mode (battery_status (drv w)) < 0 ->
   health_mode_store K buf count w = (0, w)) /\
  (calibration_mode (battery_status (drv w)) < 0 ->
   calibration_mode_store K buf count w = (0, w)) /\
  (forall b : bool,
     kstrtobool K buf = (0, b) ->
     let status_byte := if b then x01 else x00 in
     (0 <= health_mode (battery_status (drv w)) ->
      let request := [x01; x01; status_byte; x00; x00; x00; x00; x00] in
      result_of (health_mode_store K buf count) w = count /\
      emitted (health_mode_store K buf count) w
        = [EvWmi WMI_GUID1 0 21 request; EvWmi WMI_GUID1 0 20 query_input] /\
      after (health_mode_store K buf count) w
        = after (get_battery_health_control_status K)
            {| drv := drv w;
               trace := trace w ++ [EvWmi WMI_GUID1 0 21 request] |}) /\
     (0 <= calibration_mode (battery_status (drv w)) ->
      let request := [x01; x02; status_byte; x00; x00; x00; x00; x00] in
      result_of (calibration_mode_store K buf count) w = count /\
      emitted (calibration_mode_store K buf count) w
        = [EvWmi WMI_GUID1 0 21 request; EvWmi WMI_GUID1 0 20 query_input] /\
      after (calibration_mode_store K buf count) w
        = after (get_battery_health_control_status K)
            {| drv := drv w;
               trace := trace w ++ [EvWmi WMI_GUID1 0 21 request] |})).
Proof.
  split; [|split].
  - intros Hneg. unfold health_mode_store, bind, load, ret.
    destruct (Z.ltb_spec (health_mode (battery_status (drv w))) 0);
      [reflexivity | lia].
  - intros Hneg. unfold calibration_mode_store, bind, load, ret.
    destruct (Z.ltb_spec (calibration_mode (battery_status (drv w))) 0);
      [reflexivity | lia].
  - intros b Hparse status_byte. split.
    + intros Hcached request.
      pose proof (health_mode_store_runs K w buf count b Hcached Hparse)
        as Hrun.
      assert (Hreq : set_input HEALTH_MODE b = request)
        by (destruct b; reflexivity).
      rewrite Hreq in Hrun.
      unfold result_of. rewrite Hrun. cbn [fst].
      split; [reflexivity|]. split.
      * apply emitted_app. unfold after at 1. rewrite Hrun. cbn [snd].
        rewrite get_status_trace. cbn [trace].
        now rewrite <- app_assoc.
      * unfold after at 1. now rewrite Hrun.
    + intros Hcached request.
      pose proof (calibration_mode_store_runs K w buf count b Hcached Hparse)
        as Hrun.
      assert (Hreq : set_input CALIBRATION_MODE b = request)
        by (destruct b; reflexivity).
      rewrite Hreq in Hrun.
      unfold result_of. rewrite Hrun. cbn [fst].
      split; [reflexivity|]. split.
      * apply emitted_app. unfold after at 1. rewrite Hrun. cbn [snd].
        rewrite get_status_trace. cbn [trace].
        now rewrite <- app_assoc.
      * unfold after at 1. now rewrite Hrun.
Qed.

(** With health cached as off and calibration as unknown, writing "1" to
    the calibration attribute does nothing, and writing "1" to the health
    attribute makes the two firmware calls. *)
Lemma battery_store_guard_and_refresh_witness :
  let w := {| drv := set_battery_status
                       {| health_mode := 0; calibration_mode := -1 |}
                       (initial_driver (-1) (-1) quirk_unknown);
              trace := [] |} in
  calibration_mode_store healthy_env "1" 2 w = (0, w) /\
  result_of (health_mode_store healthy_env "1" 2) w = 2 /\
  emitted (health_mode_store healthy_env "1" 2) w
  = [EvWmi WMI_GUID1 0 21 [x01; x01; x01; x00; x00; x00; x00; x00];
     EvWmi WMI_GUID1 0 20 [x01; x01; x00; x00]].
Proof.
  intros w.
  destruct (battery_store_guard_and_refresh healthy_env w "1" 2)
    as (_ & Hcal & Hset).
  split.
  - apply Hcal. cbn. lia.
  - destruct (Hset true eq_refl) as [Hhealth _].
    destruct Hhealth as (Hres & Hev & _).
    + cbn. lia.
    + split; [exact Hres | exact Hev].
Defined.

(** ** Profile get and set *)

(** A successful profile set leaves the requested profile's mode code in
    the cache. *)
Lemma acer_platform_profile_set_success
    (K : env) (w : world) (p : platform_profile_option) :
  result_of (acer_platform_profile_set K p) w = 0 ->
  profile_mode_code p
    = Some (control_mode (drv (after (acer_platform_profile_set K p) w))).
Proof.
  unfold acer_platform_profile_set. unfold_monad.
  destruct (system_control_mode (quirks (drv w)) =? 0);
    [cbn; unfold EOPNOTSUPP; discriminate|].
  destruct p; cbn [fst snd profile_mode_code];
    try (unfold EOPNOTSUPP; discriminate);
    match goal with
    | |- context [?m =? control_mode (drv w)] =>
        destruct (Z.eqb_spec m (control_mode (drv w))) as [E|E];
          [intros _; cbn [fst snd]; now rewrite E|]
    end;
    cbn [drv trace];
    match goal with
    | |- context [ec_write K ?h ?a ?v <? 0] =>
        destruct (Z.ltb_spec (ec_write K h a v) 0) as [L|L];
          cbn [fst snd drv control_mode set_control_mode];
          [intros R; rewrite R in L; lia | reflexivity]
    end.
Qed.

(** C9: the profile adapter's get answers balanced for the cached code 1,
    performance for 3, low-power for 2, and [-EOPNOTSUPP] without a profile
    for every other cached value; and whenever a profile set of [p] returns
    0, the get that follows returns [p]. *)
Theorem profile_get_inverts_set (K : env) (w : world) :
  (control_mode (drv w) = SYSTEM_CONTROL_BALANCED ->
   result_of acer_platform_profile_get w = (0, Some PLATFORM_PROFILE_BALANCED)) /\
  (control_mode (drv w) = SYSTEM_CONTROL_PERFORMANCE ->
   result_of acer_platform_profile_get w
     = (0, Some PLATFORM_PROFILE_PERFORMANCE)) /\
  (control_mode (drv w) = SYSTEM_CONTROL_SILENT ->
   result_of acer_platform_profile_get w
     = (0, Some PLATFORM_PROFILE_LOW_POWER)) /\
  (control_mode (drv w) <> SYSTEM_CONTROL_BALANCED ->
   control_mode (drv w) <> SYSTEM_CONTROL_PERFORMANCE ->
   control_mode (drv w) <> SYSTEM_CONTROL_SILENT ->
   result_of acer_platform_profile_get w = (- EOPNOTSUPP, None)) /\
  (forall p : platform_profile_option,
     result_of (acer_platform_profile_set K p) w = 0 ->
     result_of acer_platform_profile_get
       (after (acer_platform_profile_set K p) w) = (0, Some p)).
Proof.
  assert (Hget : forall w0 : world,
             result_of acer_platform_profile_get w0
             = if control_mode (drv w0) =? SYSTEM_CONTROL_BALANCED
               then (0, Some PLATFORM_PROFILE_BALANCED)
               else if control_mode (drv w0) =? SYSTEM_CONTROL_PERFORMANCE
               then (0, Some PLATFORM_PROFILE_PERFORMANCE)
               else if control_mode (drv w0) =? SYSTEM_CONTROL_SILENT
               then (0, Some PLATFORM_PROFILE_LOW_POWER)
               else (- EOPNOTSUPP, None)).
  { intros w0. unfold acer_platform_profile_get. unfold_monad.
    repeat match goal with
           | |- context [if ?c then _ else _] => destruct c
           end; reflexivity. }
  repeat split.
  - intros E. rewrite Hget, E. reflexivity.
  - intros E. rewrite Hget, E. reflexivity.
  - intros E. rewrite Hget, E. reflexivity.
  - intros N1 N2 N3. rewrite Hget.
    destruct (Z.eqb_spec (control_mode (drv w)) SYSTEM_CONTROL_BALANCED);
      [contradiction|].
    destruct (Z.eqb_spec (control_mode (drv w)) SYSTEM_CONTROL_PERFORMANCE);
      [contradiction|].
    destruct (Z.eqb_spec (control_mode (drv w)) SYSTEM_CONTROL_SILENT);
      [contradiction|].
    reflexivity.
  - intros p Hok.
    pose proof (acer_platform_profile_set_success K w p Hok) as Hcode.
    rewrite Hget.
    destruct p; cbn in Hcode; try discriminate;
      injection Hcode as Hcode; rewrite <- Hcode; reflexivity.
Qed.

(** From the unknown cache (-1) on a machine with the quirk, setting the
    performance profile writes 3 to the register and the get that follows
    answers performance. *)
Lemma profile_get_inverts_set_witness :
  let w := boot (-1) (-1) quirk_acer_system_control_mode in
  result_of acer_platform_profile_get w = (- EOPNOTSUPP, None) /\
  result_of acer_platform_profile_get
    (after (acer_platform_profile_set healthy_env PLATFORM_PROFILE_PERFORMANCE) w)
  = (0, Some PLATFORM_PROFILE_PERFORMANCE).
Proof.
  intros w.
  destruct (profile_get_inverts_set healthy_env w) as (_ & _ & _ & Hnone & Hset).
  split.
  - apply Hnone; cbn; discriminate.
  - apply Hset. reflexivity.
Defined.

(** ** One-time initialisation of the system control mode *)

(** Once the flag is set, a probe on a machine with the quirk is a pure
    success: it reports the three profiles and touches nothing. *)
Lemma probe_when_inited (K : env) (w : world) (choices : Z) :
  system_control_mode (quirks (drv w)) <> 0 ->
  system_control_mode_inited (drv w) <> 0 ->
  acer_platform_profile_probe K choices w
  = ((0, set_bit PLATFORM_PROFILE_PERFORMANCE
           (set_bit PLATFORM_PROFILE_BALANCED
              (set_bit PLATFORM_PROFILE_LOW_POWER choices))), w).
Proof.
  intros Hq Hi.
  unfold acer_platform_profile_probe. unfold_monad.
  destruct (Z.eqb_spec (system_control_mode (quirks (drv w))) 0);
    [contradiction|].
  destruct (Z.eqb_spec (system_control_mode_inited (drv w)) 0);
    [contradiction|].
  reflexivity.
Qed.

(** The initialisation when the controller refuses the read. *)
Lemma init_when_read_fails (K : env) (w : world) (err : Z) (tp : byte) :
  ec_read K (trace w) ACER_SYSTEM_CONTROL_MODE_EC_OFFSET = (err, tp) ->
  err < 0 ->
  acer_system_control_mode_init K w
  = (err, {| drv := set_system_control_mode_inited 1 (drv w);
             trace := trace w ++ [EvEcRead ACER_SYSTEM_CONTROL_MODE_EC_OFFSET] |}).
Proof.
  intros Hread Herr.
  unfold acer_system_control_mode_init. unfold_monad. cbn [drv trace].
  rewrite (to_u8_small ACER_SYSTEM_CONTROL_MODE_EC_OFFSET)
    by (unfold ACER_SYSTEM_CONTROL_MODE_EC_OFFSET; lia).
  rewrite Hread.
  destruct (Z.ltb_spec err 0); [reflexivity | lia].
Qed.

Lemma init_sets_flag (K : env) (w : world) :
  system_control_mode_inited (drv (after (acer_system_control_mode_init K) w))
  = 1.
Proof.
  unfold acer_system_control_mode_init. unfold_monad. cbn [drv trace].
  split_paths; reflexivity.
Qed.

(** The initialisation reads the controller exactly once. *)
Lemma init_reads_once (K : env) (w : world) :
  exists evs,
    trace (after (acer_system_control_mode_init K) w) = trace w ++ evs /\
    count_events is_ec_read evs = 1%nat.
Proof.
  unfold acer_system_control_mode_init. unfold_monad. cbn [drv trace].
  split_paths; cbn [snd trace]; rewrite <- ?app_assoc;
    eexists; (split; [reflexivity | reflexivity]).
Qed.

(** What a served request may do to the flag and to the count of
    controller reads: with the flag set it reads nothing and keeps the
    flag; with the flag clear it reads at most once, and only by setting
    the flag. *)
Lemma serve_read_budget (K : env) (r : request) (w : world) :
  exists evs,
    trace (after (serve K r) w) = trace w ++ evs /\
    (system_control_mode_inited (drv w) <> 0 ->
     system_control_mode_inited (drv (after (serve K r) w)) <> 0 /\
     count_events is_ec_read evs = 0%nat) /\
    (system_control_mode_inited (drv w) = 0 ->
     (system_control_mode_inited (drv (after (serve K r) w)) = 0 /\
      count_events is_ec_read evs = 0%nat) \/
     (system_control_mode_inited (drv (after (serve K r) w)) <> 0 /\
      count_events is_ec_read evs = 1%nat)).
Proof.
  destruct r; cbn [serve].
  11: { (* the probe *)
    unfold acer_platform_profile_probe.
    destruct (Z.eqb_spec (system_control_mode (quirks (drv w))) 0) as [Hq|Hq].
    - exists []. unfold_monad. rewrite Hq. cbn. rewrite app_nil_r.
      repeat split; auto.
    - destruct (Z.eqb_spec (system_control_mode_inited (drv w)) 0) as [Hi|Hi].
      + destruct (init_reads_once K w) as (evs & Htr & Hcount).
        pose proof (init_sets_flag K w) as Hflag.
        exists evs. unfold after in *. unfold bind, load, ret.
        destruct (Z.eqb_spec (system_control_mode (quirks (drv w))) 0);
          [contradiction|].
        rewrite Hi. cbn [Z.eqb].
        destruct (acer_system_control_mode_init K w) as [e w'].
        cbn [snd] in *.
        assert (Hsame : snd (if negb (e =? 0)
                             then (e, choices, w')
                             else (0, set_bit PLATFORM_PROFILE_PERFORMANCE
                                        (set_bit PLATFORM_PROFILE_BALANCED
                                           (set_bit PLATFORM_PROFILE_LOW_POWER
                                              choices)), w')) = w')
          by (destruct (negb (e =? 0)); reflexivity).
        destruct (negb (e =? 0)); cbn [snd];
          (split; [assumption|]); (split; [intros; lia|]);
          intros _; right; split; try assumption; rewrite Hflag; lia.
      + exists []. unfold_monad.
        destruct (Z.eqb_spec (system_control_mode (quirks (drv w))) 0);
          [contradiction|].
        destruct (Z.eqb_spec (system_control_mode_inited (drv w)) 0);
          [contradiction|].
        cbn. rewrite app_nil_r. repeat split; auto. }
  all: try match goal with
           | p : platform_profile_option |- _ => destruct p
           end;
    unfold_driver; unfold_monad; cbn [drv trace]; split_paths;
    cbn [snd fst trace drv]; rewrite <- ?app_assoc;
    try (exists []; rewrite app_nil_r; repeat split; auto; fail);
    eexists; (split; [reflexivity|]); cbn; repeat split; auto.
Qed.

Lemma serve_all_read_budget (K : env) (rs : list request) :
  forall w : world,
  exists evs,
    trace (after (serve_all K rs) w) = trace w ++ evs /\
    (system_control_mode_inited (drv w) <> 0 ->
     count_events is_ec_read evs = 0%nat) /\
    (count_events is_ec_read evs <= 1)%nat.
Proof.
  induction rs as [|r rest IH]; intros w.
  - exists []. cbn. rewrite app_nil_r. repeat split; auto.
  - cbn [serve_all]. rewrite after_bind.
    destruct (serve_read_budget K r w) as (e1 & Ht1 & Hset & Hclear).
    destruct (IH (after (serve K r) w)) as (e2 & Ht2 & Hquiet & Hone).
    exists (e1 ++ e2). rewrite Ht2, Ht1, app_assoc.
    split; [reflexivity|]. rewrite count_events_app.
    split.
    + intros Hi. destruct (Hset Hi) as [Hi' H1].
      rewrite H1, (Hquiet Hi'). reflexivity.
    + destruct (Z.eq_dec (system_control_mode_inited (drv w)) 0) as [Hi|Hi].
      * destruct (Hclear Hi) as [[_ H1]|[Hi' H1]].
        -- rewrite H1. exact Hone.
        -- rewrite H1, (Hquiet Hi'). auto.
      * destruct (Hset Hi) as [Hi' H1].
        rewrite H1, (Hquiet Hi'). auto.
Qed.

(** The initialisation when the controller answers the read: the byte read
    is cached before the module parameter is looked at, so a failure that
    comes later (a parameter out of range, a refused write) leaves it
    cached. *)
Lemma init_when_read_succeeds (K : env) (w : world) (err : Z) (tp : byte) :
  ec_read K (trace w) ACER_SYSTEM_CONTROL_MODE_EC_OFFSET = (err, tp) ->
  0 <= err ->
  result_of (acer_system_control_mode_init K) w <> 0 ->
  control_mode (drv (after (acer_system_control_mode_init K) w))
    = byte_val tp.
Proof.
  intros Hread Herr.
  unfold result_of, after, acer_system_control_mode_init.
  unfold_monad. cbn [drv trace].
  rewrite (to_u8_small ACER_SYSTEM_CONTROL_MODE_EC_OFFSET)
    by (unfold ACER_SYSTEM_CONTROL_MODE_EC_OFFSET; lia).
  rewrite Hread.
  destruct (Z.ltb_spec err 0); [lia|].
  split_paths; cbn [fst snd drv control_mode set_control_mode
                    set_system_control_mode_inited];
    intros Hres; try reflexivity; exfalso; apply Hres; reflexivity.
Qed.

Lemma init_keeps_quirks (K : env) (w : world) :
  quirks (drv (after (acer_system_control_mode_init K) w)) = quirks (drv w).
Proof.
  unfold acer_system_control_mode_init. unfold_monad. cbn [drv trace].
  split_paths; reflexivity.
Qed.

(** C10, as stated, fails when the initialisation fails after its read: with
    the module parameter set to 7 the read of mode 2 succeeds, the range
    check returns [-EINVAL], and the later probe succeeds with mode 2
    cached, so that the profile get answers low-power. *)
Lemma failed_init_after_read_leaves_mode_cached :
  ~ (forall (K : env) (w : world) (choices : Z),
        system_control_mode (quirks (drv w)) <> 0 ->
        system_control_mode_inited (drv w) = 0 ->
        control_mode (drv w) = -1 ->
        result_of (acer_system_control_mode_init K) w <> 0 ->
        let w1 := after (acer_system_control_mode_init K) w in
        fst (result_of (acer_platform_profile_probe K choices) w1) = 0 /\
        control_mode (drv (after (acer_platform_profile_probe K choices) w1))
          = -1 /\
        result_of acer_platform_profile_get
          (after (acer_platform_profile_probe K choices) w1)
          = (- EOPNOTSUPP, None)).
Proof.
  intros claim.
  pose (K := stub_env (wmi_const AE_OK None) (fun _ _ => (0, x02))
               (fun _ _ _ => 0) (fun _ => 4096)).
  destruct (claim K (boot (-1) 7 quirk_acer_system_control_mode) 0)
    as (_ & Hmode & _).
  - cbn. discriminate.
  - reflexivity.
  - reflexivity.
  - vm_compute. discriminate.
  - vm_compute in Hmode. discriminate.
Qed.

(** C10, amended: the initialisation sets its flag whatever the controller
    answers, and over any sequence of requests served after start-up the
    controller's mode register is read at most once.  If the initialisation
    fails at its read of the register, whether run at start-up or inside the
    first probe, then with -1 cached before it every later probe succeeds
    without reading the register and without changing anything, the cached
    mode is still -1, and the profile get answers [-EOPNOTSUPP].  If the
    read succeeds and the initialisation fails after it (the module
    parameter is out of range, or the write of the parameter is refused),
    the byte that was read is cached all the same: on a machine with the
    quirk every later probe succeeds without changing anything, so the
    cached mode stays the byte read, and the profile get answers from
    it. *)
Theorem system_control_mode_init_runs_once (K : env) (w : world) :
  system_control_mode_inited (drv (after (acer_system_control_mode_init K) w))
    = 1 /\
  (forall rs : list request,
     (count_events is_ec_read (emitted (serve_all K rs) w) <= 1)%nat) /\
  (forall (err : Z) (tp : byte) (first : Z),
     system_control_mode (quirks (drv w)) <> 0 ->
     system_control_mode_inited (drv w) = 0 ->
     control_mode (drv w) = -1 ->
     ec_read K (trace w) ACER_SYSTEM_CONTROL_MODE_EC_OFFSET = (err, tp) ->
     err < 0 ->
     result_of (acer_system_control_mode_init K) w = err /\
     result_of (acer_platform_profile_probe K first) w = (err, first) /\
     after (acer_platform_profile_probe K first) w
       = after (acer_system_control_mode_init K) w /\
     let w1 := after (acer_system_control_mode_init K) w in
     control_mode (drv w1) = -1 /\
     result_of acer_platform_profile_get w1 = (- EOPNOTSUPP, None) /\
     forall choices : Z,
       acer_platform_profile_probe K choices w1
       = ((0, set_bit PLATFORM_PROFILE_PERFORMANCE
                (set_bit PLATFORM_PROFILE_BALANCED
                   (set_bit PLATFORM_PROFILE_LOW_POWER choices))), w1)) /\
  (forall (err : Z) (tp : byte),
     ec_read K (trace w) ACER_SYSTEM_CONTROL_MODE_EC_OFFSET = (err, tp) ->
     0 <= err ->
     result_of (acer_system_control_mode_init K) w <> 0 ->
     let w1 := after (acer_system_control_mode_init K) w in
     control_mode (drv w1) = byte_val tp /\
     (system_control_mode (quirks (drv w)) <> 0 ->
      forall choices : Z,
        acer_platform_profile_probe K choices w1
        = ((0, set_bit PLATFORM_PROFILE_PERFORMANCE
                 (set_bit PLATFORM_PROFILE_BALANCED
                    (set_bit PLATFORM_PROFILE_LOW_POWER choices))), w1) /\
        control_mode
          (drv (after (acer_platform_profile_probe K choices) w1))
          = byte_val tp /\
        result_of acer_platform_profile_get
          (after (acer_platform_profile_probe K choices) w1)
        = (if byte_val tp =? SYSTEM_CONTROL_BALANCED
           then (0, Some PLATFORM_PROFILE_BALANCED)
           else if byte_val tp =? SYSTEM_CONTROL_PERFORMANCE
           then (0, Some PLATFORM_PROFILE_PERFORMANCE)
           else if byte_val tp =? SYSTEM_CONTROL_SILENT
           then (0, Some PLATFORM_PROFILE_LOW_POWER)
           else (- EOPNOTSUPP, None)))).
Proof.
  split; [apply init_sets_flag|]. split; [|split].
  - intros rs.
    destruct (serve_all_read_budget K rs w) as (evs & Htr & _ & Hone).
    now rewrite (emitted_app _ _ _ Htr).
  - intros err tp first Hq Hi Hm Hread Herr.
    pose proof (init_when_read_fails K w err tp Hread Herr) as Hinit.
    assert (Hprobe : acer_platform_profile_probe K first w
                     = ((err, first),
                        after (acer_system_control_mode_init K) w)).
    { unfold after. rewrite Hinit.
      unfold acer_platform_profile_probe, bind, load, ret.
      destruct (Z.eqb_spec (system_control_mode (quirks (drv w))) 0);
        [contradiction|].
      rewrite Hi. cbn [Z.eqb]. rewrite Hinit.
      destruct (Z.eqb_spec err 0); [lia | reflexivity]. }
    unfold result_of, after. rewrite Hprobe. unfold after. rewrite Hinit.
    cbn [fst snd].
    split; [reflexivity|]. split; [reflexivity|]. split; [reflexivity|].
    split; [|split].
    + exact Hm.
    + unfold acer_platform_profile_get. unfold_monad.
      cbn [drv control_mode set_system_control_mode_inited]. rewrite Hm.
      reflexivity.
    + intros choices. apply probe_when_inited; cbn; [exact Hq | lia].
  - intros err tp Hread Herr Hres w1.
    pose proof (init_when_read_succeeds K w err tp Hread Herr Hres) as Hmode.
    fold w1 in Hmode.
    split; [exact Hmode|].
    intros Hq choices.
    assert (Hprobe : acer_platform_profile_probe K choices w1
                     = ((0, set_bit PLATFORM_PROFILE_PERFORMANCE
                              (set_bit PLATFORM_PROFILE_BALANCED
                                 (set_bit PLATFORM_PROFILE_LOW_POWER
                                    choices))), w1)).
    { apply probe_when_inited.
      - unfold w1. rewrite init_keeps_quirks. exact Hq.
      - unfold w1. rewrite init_sets_flag. lia. }
    split; [exact Hprobe|].
    unfold after. rewrite Hprobe. cbn [snd].
    split; [exact Hmode|].
    unfold acer_platform_profile_get, result_of, bind, load, ret.
    cbn [fst]. rewrite Hmode.
    destruct (byte_val tp =? SYSTEM_CONTROL_BALANCED); [reflexivity|].
    destruct (byte_val tp =? SYSTEM_CONTROL_PERFORMANCE); [reflexivity|].
    destruct (byte_val tp =? SYSTEM_CONTROL_SILENT); reflexivity.
Qed.

(** The controller refuses the read at start-up: the initialisation fails
    with [-EIO], the next probe does not read again and reports success,
    and the profile get has nothing to report.  On a second machine the
    controller reads mode 2 and the module parameter is 7: the
    initialisation fails with [-EINVAL] after the read, mode 2 is cached,
    the next probe reports success, and the profile get answers
    low-power. *)
Lemma system_control_mode_init_runs_once_witness :
  let K := stub_env (wmi_const AE_OK None) (fun _ _ => (- EIO, x00))
             (fun _ _ _ => 0) (fun _ => 4096) in
  let w := boot (-1) (-1) quirk_acer_system_control_mode in
  let w1 := after (acer_system_control_mode_init K) w in
  let K' := stub_env (wmi_const AE_OK None) (fun _ _ => (0, x02))
              (fun _ _ _ => 0) (fun _ => 4096) in
  let w' := boot (-1) 7 quirk_acer_system_control_mode in
  let w1' := after (acer_system_control_mode_init K') w' in
  (result_of (acer_system_control_mode_init K) w = - EIO /\
   result_of acer_platform_profile_get w1 = (- EOPNOTSUPP, None) /\
   acer_platform_profile_probe K 0 w1 = ((0, 41), w1)) /\
  (result_of (acer_system_control_mode_init K') w' = - EINVAL /\
   control_mode (drv w1') = 2 /\
   acer_platform_profile_probe K' 0 w1' = ((0, 41), w1') /\
   result_of acer_platform_profile_get
     (after (acer_platform_profile_probe K' 0) w1')
   = (0, Some PLATFORM_PROFILE_LOW_POWER)).
Proof.
  intros K w w1 K' w' w1'.
  split.
  - destruct (system_control_mode_init_runs_once K w) as (_ & _ & Hfail & _).
    destruct (Hfail (- EIO) x00 0) as (Hres & _ & _ & _ & Hget & Hprobe).
    + cbn. discriminate.
    + reflexivity.
    + reflexivity.
    + reflexivity.
    + unfold EIO. lia.
    + split; [exact Hres|]. split; [exact Hget|]. apply (Hprobe 0).
  - destruct (system_control_mode_init_runs_once K' w') as (_ & _ & _ & Hlate).
    destruct (Hlate 0 x02) as (Hmode & Hafter).
    + reflexivity.
    + lia.
    + vm_compute. discriminate.
    + destruct (Hafter ltac:(cbn; discriminate) 0) as (Hprobe & _ & Hget).
      split; [reflexivity|]. split; [exact Hmode|].
      split; [exact Hprobe|]. exact Hget.
Defined.

(** ** Invariants of the served requests *)

Ltac split_paths_eqn :=
  repeat (cbv beta iota;
          match goal with
          | |- context [wmi_evaluate_method ?K ?h ?g ?i ?m ?x] =>
              destruct (wmi_evaluate_method K h g i m x) as [? [[?|?|?]|]]
          | |- context [ec_read ?K ?h ?a] => destruct (ec_read K h a)
          | |- context [kstrtobool ?K ?b] => destruct (kstrtobool K b)
          | |- context [kstrtoint ?K ?b] => destruct (kstrtoint K b)
          | |- context [sscanf_hhd ?K ?b] => destruct (sscanf_hhd K b)
          | |- context [if ?c then _ else _] =>
              atomic_condition c; destruct c eqn:?
          end).

(** The comparisons a path went through, as propositions. *)
Ltac reflect_conditions :=
  repeat match goal with
         | H : (_ || _)%bool = false |- _ =>
             apply orb_false_iff in H; destruct H
         | H : negb _ = true |- _ => apply negb_true_iff in H
         | H : negb _ = false |- _ => apply negb_false_iff in H
         | H : (_ =? _) = true |- _ => apply Z.eqb_eq in H
         | H : (_ =? _) = false |- _ => apply Z.eqb_neq in H
         | H : (_ <? _) = true |- _ => apply Z.ltb_lt in H
         | H : (_ <? _) = false |- _ => apply Z.ltb_ge in H
         | H : (_ >? _) = true |- _ => rewrite Z.gtb_ltb in H
         | H : (_ >? _) = false |- _ => rewrite Z.gtb_ltb in H
         | H : (_ >=? _) = true |- _ => rewrite Z.geb_leb in H
         | H : (_ >=? _) = false |- _ => rewrite Z.geb_leb in H
         | H : (_ <=? _) = true |- _ => apply Z.leb_le in H
         | H : (_ <=? _) = false |- _ => apply Z.leb_gt in H
         end.

(** A property of the world that every request keeps, while emitting no
    event of the kind [p], is kept by every sequence of requests, and the
    sequence emits no such event. *)
Lemma serve_all_invariant
    (K : env) (I : world -> Prop) (p : event -> bool) :
  (forall (r : request) (w : world),
     I w ->
     exists evs,
       trace (after (serve K r) w) = trace w ++ evs /\
       count_events p evs = 0%nat /\
       I (after (serve K r) w)) ->
  forall (rs : list request) (w : world),
    I w ->
    count_events p (emitted (serve_all K rs) w) = 0%nat /\
    I (after (serve_all K rs) w).
Proof.
  intros Hstep rs.
  assert (Hgen : forall w : world,
             I w ->
             exists evs,
               trace (after (serve_all K rs) w) = trace w ++ evs /\
               count_events p evs = 0%nat /\
               I (after (serve_all K rs) w)).
  { induction rs as [|r rest IH]; intros w Hw.
    - exists []. cbn. rewrite app_nil_r. repeat split. exact Hw.
    - cbn [serve_all]. rewrite after_bind.
      destruct (Hstep r w Hw) as (e1 & Ht1 & Hc1 & Hi1).
      destruct (IH _ Hi1) as (e2 & Ht2 & Hc2 & Hi2).
      exists (e1 ++ e2). rewrite Ht2, Ht1, app_assoc.
      split; [reflexivity|]. split; [|exact Hi2].
      rewrite count_events_app, Hc1, Hc2. reflexivity. }
  intros w Hw.
  destruct (Hgen w Hw) as (evs & Htr & Hcount & Hinv).
  rewrite (emitted_app _ _ _ Htr). split; assumption.
Qed.

(** Every path of every request, with the events it emits made explicit. *)
Ltac request_paths r :=
  destruct r; cbn [serve];
  try match goal with
      | p : platform_profile_option |- _ => destruct p
      end;
  unfold_driver; unfold_driver; unfold_monad; cbn [drv trace];
  split_paths_eqn;
  cbn [snd fst trace drv]; rewrite <- ?app_assoc;
  (eexists; split;
   [first [reflexivity | symmetry; apply app_nil_r]|]).

(** X11: on a machine without the system-control-mode quirk whose cached
    mode is negative, no sequence of requests reads or writes the
    embedded controller, and the cached mode and the initialised flag stay
    as they are. *)
Theorem no_ec_access_without_quirk
    (K : env) (rs : list request) (w : world) :
  system_control_mode (quirks (drv w)) = 0 ->
  control_mode (drv w) < 0 ->
  let w' := after (serve_all K rs) w in
  count_events is_ec_access (emitted (serve_all K rs) w) = 0%nat /\
  control_mode (drv w') = control_mode (drv w) /\
  system_control_mode_inited (drv w') = system_control_mode_inited (drv w).
Proof.
  intros Hq Hm w'. subst w'.
  pose (I := fun x : world =>
               system_control_mode (quirks (drv x)) = 0 /\
               control_mode (drv x) = control_mode (drv w) /\
               system_control_mode_inited (drv x)
                 = system_control_mode_inited (drv w)).
  destruct (serve_all_invariant K I is_ec_access) with (rs := rs) (w := w)
    as [Hcount (_ & Hmode & Hflag)].
  - clear rs. intros r x (Hqx & Hmx & Hix).
    assert (Hneg : control_mode (drv x) < 0) by lia.
    subst I. cbv beta.
    request_paths r; reflect_conditions;
      cbn [drv quirks control_mode system_control_mode_inited
           set_battery_status set_control_mode set_usb_charge_mode_enable
           set_system_control_mode_inited];
      try lia; try (split; [reflexivity|]; repeat split; assumption).
  - subst I. cbv beta. repeat split; assumption.
  - repeat split; assumption.
Qed.

Lemma no_ec_access_without_quirk_witness :
  let rs := [SystemControlModeStore "2" 2; ProfileProbe 0;
             ProfileSet PLATFORM_PROFILE_PERFORMANCE; ProfileGet;
             SystemControlModeShow] in
  let w := boot (-1) (-1) quirk_unknown in
  count_events is_ec_access (emitted (serve_all healthy_env rs) w) = 0%nat /\
  control_mode (drv (after (serve_all healthy_env rs) w)) = -1 /\
  system_control_mode_inited (drv (after (serve_all healthy_env rs) w)) = 0.
Proof.
  intros rs w.
  apply (no_ec_access_without_quirk healthy_env rs w); [reflexivity | cbn; lia].
Defined.

(** X12: on a machine without the usb-charge quirk no sequence of requests
    evaluates a Namespace-B method, and the cached usb-charge mode stays
    as it is. *)
Theorem no_namespace_b_without_usb_quirk
    (K : env) (rs : list request) (w : world) :
  usb_charge_mode (quirks (drv w)) = 0 ->
  count_events is_namespace_b (emitted (serve_all K rs) w) = 0%nat /\
  usb_charge_mode_enable (drv (after (serve_all K rs) w))
    = usb_charge_mode_enable (drv w).
Proof.
  intros Hq.
  pose (I := fun x : world =>
               usb_charge_mode (quirks (drv x)) = 0 /\
               usb_charge_mode_enable (drv x) = usb_charge_mode_enable (drv w)).
  destruct (serve_all_invariant K I is_namespace_b) with (rs := rs) (w := w)
    as [Hcount (_ & Husb)].
  - clear rs. intros r x (Hqx & Hux).
    subst I. cbv beta.
    request_paths r; reflect_conditions;
      cbn [drv quirks usb_charge_mode_enable
           set_battery_status set_control_mode set_usb_charge_mode_enable
           set_system_control_mode_inited];
      try contradiction;
      (split; [reflexivity|]; split; assumption).
  - subst I. cbv beta. split; [assumption | reflexivity].
  - split; assumption.
Qed.

Lemma no_namespace_b_without_usb_quirk_witness :
  let rs := [UsbChargeModeStore "1" 2; UsbChargeLimitStore "20" 3;
             UsbChargeLimitShow; UsbChargeModeShow;
             HealthModeStore "1" 2] in
  let w := boot (-1) (-1) quirk_acer_system_control_mode in
  count_events is_namespace_b (emitted (serve_all healthy_env rs) w) = 0%nat /\
  usb_charge_mode_enable (drv (after (serve_all healthy_env rs) w)) = 0.
Proof.
  intros rs w.
  apply (no_namespace_b_without_usb_quirk healthy_env rs w). reflexivity.
Defined.

(** X13: while both battery modes are cached as negative, no sequence of
    requests evaluates a Namespace-A method, and the battery cache stays
    as it is. *)
Theorem unknown_battery_modes_stay_unknown
    (K : env) (rs : list request) (w : world) :
  health_mode (battery_status (drv w)) < 0 ->
  calibration_mode (battery_status (drv w)) < 0 ->
  count_events is_namespace_a (emitted (serve_all K rs) w) = 0%nat /\
  battery_status (drv (after (serve_all K rs) w)) = battery_status (drv w).
Proof.
  intros Hh Hc.
  pose (I := fun x : world => battery_status (drv x) = battery_status (drv w)).
  destruct (serve_all_invariant K I is_namespace_a) with (rs := rs) (w := w)
    as [Hcount Hbat].
  - clear rs. intros r x Hbx.
    assert (Hhx : health_mode (battery_status (drv x)) < 0)
      by (rewrite Hbx; exact Hh).
    assert (Hcx : calibration_mode (battery_status (drv x)) < 0)
      by (rewrite Hbx; exact Hc).
    subst I. cbv beta.
    request_paths r; reflect_conditions;
      cbn [drv battery_status
           set_battery_status set_control_mode set_usb_charge_mode_enable
           set_system_control_mode_inited];
      try lia;
      (split; [reflexivity | assumption]).
  - subst I. reflexivity.
  - split; assumption.
Qed.

Lemma unknown_battery_modes_stay_unknown_witness :
  let rs := [HealthModeStore "1" 2; CalibrationModeStore "1" 2;
             HealthModeShow; UsbChargeModeStore "1" 2] in
  let w := {| drv := set_battery_status
                       {| health_mode := -1; calibration_mode := -1 |}
                       (initial_driver (-1) (-1) quirk_acer_sfg174_73);
              trace := [] |} in
  count_events is_namespace_a (emitted (serve_all healthy_env rs) w) = 0%nat /\
  battery_status (drv (after (serve_all healthy_env rs) w))
    = {| health_mode := -1; calibration_mode := -1 |}.
Proof.
  intros rs w.
  apply (unknown_battery_modes_stay_unknown healthy_env rs w); cbn; lia.
Defined.

Ltac byte_ranges :=
  repeat match goal with
         | b : byte |- _ =>
             lazymatch goal with
             | H : 0 <= byte_val b < 256 |- _ => fail
             | _ => pose proof (byte_val_range b)
             end
         end.

(** X9: whatever the surroundings answer, a sequence of requests keeps
    the cached battery modes and the cached usb-charge mode within -1, 0
    and 1 and the cached system control mode within -1 .. 255, and never
    changes the quirk entry or the two module parameters. *)
Theorem served_requests_keep_ranges
    (K : env) (rs : list request) (w : world) :
  -1 <= health_mode (battery_status (drv w)) <= 1 ->
  -1 <= calibration_mode (battery_status (drv w)) <= 1 ->
  -1 <= usb_charge_mode_enable (drv w) <= 1 ->
  -1 <= control_mode (drv w) <= 255 ->
  let d := drv (after (serve_all K rs) w) in
  -1 <= health_mode (battery_status d) <= 1 /\
  -1 <= calibration_mode (battery_status d) <= 1 /\
  -1 <= usb_charge_mode_enable d <= 1 /\
  -1 <= control_mode d <= 255 /\
  quirks d = quirks (drv w) /\
  enable_health_mode d = enable_health_mode (drv w) /\
  enable_system_control_mode d = enable_system_control_mode (drv w).
Proof.
  intros Hh Hc Hu Hm d. subst d.
  pose (I := fun x : world =>
               -1 <= health_mode (battery_status (drv x)) <= 1 /\
               -1 <= calibration_mode (battery_status (drv x)) <= 1 /\
               -1 <= usb_charge_mode_enable (drv x) <= 1 /\
               -1 <= control_mode (drv x) <= 255 /\
               quirks (drv x) = quirks (drv w) /\
               enable_health_mode (drv x) = enable_health_mode (drv w) /\
               enable_system_control_mode (drv x)
                 = enable_system_control_mode (drv w)).
  destruct (serve_all_invariant K I (fun _ => false)) with (rs := rs) (w := w)
    as [_ Hinv].
  - clear rs. intros r x (Hhx & Hcx & Hux & Hmx & Hqx & Hpx & Hsx).
    subst I. cbv beta.
    request_paths r; reflect_conditions; byte_ranges;
      unfold SYSTEM_CONTROL_BALANCED, SYSTEM_CONTROL_SILENT,
             SYSTEM_CONTROL_PERFORMANCE in *;
      cbn [drv quirks battery_status health_mode calibration_mode
           usb_charge_mode_enable control_mode enable_health_mode
           enable_system_control_mode
           set_battery_status set_control_mode set_usb_charge_mode_enable
           set_system_control_mode_inited] in *;
      (split; [unfold count_events; now rewrite filter_false|]);
      repeat split; try assumption; try lia.
  - subst I. cbv beta. repeat split; (assumption || lia || reflexivity).
  - exact Hinv.
Qed.

Lemma served_requests_keep_ranges_witness :
  let K := stub_env wmi_battery_ok (fun _ _ => (0, xff)) (fun _ _ _ => 0)
             (fun _ => 4096) in
  let rs := [ProfileProbe 0; HealthModeStore "1" 2;
             UsbChargeModeStore "1" 2; SystemControlModeStore "3" 2] in
  let d := drv (after (serve_all K rs) (boot (-1) (-1) quirk_acer_sfg174_73)) in
  -1 <= health_mode (battery_status d) <= 1 /\
  -1 <= calibration_mode (battery_status d) <= 1 /\
  -1 <= usb_charge_mode_enable d <= 1 /\
  -1 <= control_mode d <= 255 /\
  quirks d = quirk_acer_sfg174_73 /\
  enable_health_mode d = -1 /\
  enable_system_control_mode d = -1.
Proof.
  intros K rs.
  apply (served_requests_keep_ranges K rs (boot (-1) (-1) quirk_acer_sfg174_73));
    cbn; lia.
Defined.

(** X10: once the initialised flag is set and the cached system control
    mode is one of 1, 2, 3, every sequence of requests leaves the flag set
    and the cached mode one of 1, 2, 3, and never reads the mode register
    again. *)
Theorem valid_control_mode_stays_valid
    (K : env) (rs : list request) (w : world) :
  system_control_mode_inited (drv w) <> 0 ->
  SYSTEM_CONTROL_BALANCED <= control_mode (drv w)
    <= SYSTEM_CONTROL_PERFORMANCE ->
  let d := drv (after (serve_all K rs) w) in
  count_events is_ec_read (emitted (serve_all K rs) w) = 0%nat /\
  system_control_mode_inited d <> 0 /\
  SYSTEM_CONTROL_BALANCED <= control_mode d <= SYSTEM_CONTROL_PERFORMANCE.
Proof.
  intros Hi Hm d. subst d.
  unfold SYSTEM_CONTROL_BALANCED, SYSTEM_CONTROL_PERFORMANCE in *.
  pose (I := fun x : world =>
               system_control_mode_inited (drv x) <> 0 /\
               1 <= control_mode (drv x) <= 3).
  destruct (serve_all_invariant K I is_ec_read) with (rs := rs) (w := w)
    as [Hcount Hinv].
  - clear rs. intros r x (Hix & Hmx).
    subst I. cbv beta.
    request_paths r; reflect_conditions;
      unfold SYSTEM_CONTROL_BALANCED, SYSTEM_CONTROL_SILENT,
             SYSTEM_CONTROL_PERFORMANCE in *;
      cbn [drv control_mode system_control_mode_inited
           set_battery_status set_control_mode set_usb_charge_mode_enable
           set_system_control_mode_inited] in *;
      try contradiction;
      (split; [reflexivity|]); split; try assumption; try lia.
  - subst I. cbv beta. split; assumption.
  - split; [exact Hcount | exact Hinv].
Qed.

Lemma valid_control_mode_stays_valid_witness :
  let rs := [ProfileProbe 0; ProfileSet PLATFORM_PROFILE_PERFORMANCE;
             SystemControlModeStore "2" 2; ProfileSet PLATFORM_PROFILE_COOL] in
  let w := {| drv := set_system_control_mode_inited 1
                       (set_control_mode 1
                          (initial_driver (-1) (-1)
                             quirk_acer_system_control_mode));
              trace := [] |} in
  let d := drv (after (serve_all healthy_env rs) w) in
  count_events is_ec_read (emitted (serve_all healthy_env rs) w) = 0%nat /\
  system_control_mode_inited d <> 0 /\
  SYSTEM_CONTROL_BALANCED <= control_mode d <= SYSTEM_CONTROL_PERFORMANCE.
Proof.
  intros rs w.
  apply (valid_control_mode_stays_valid healthy_env rs w).
  - cbn. discriminate.
  - cbn. unfold SYSTEM_CONTROL_BALANCED, SYSTEM_CONTROL_PERFORMANCE. lia.
Defined.

(** ** The firmware transport *)

Lemma le_decode_encode (n : nat) :
  forall v : Z, 0 <= v -> le_decode (le_encode n v) = v mod 256 ^ Z.of_nat n.
Proof.
  induction n as [|n IH]; intros v Hv.
  - cbn. now rewrite Z.mod_1_r.
  - cbn [le_encode le_decode].
    rewrite byte_val_of_Z, IH by (apply Z.div_pos; lia).
    unfold to_u8.
    rewrite Nat2Z.inj_succ, Z.pow_succ_r by lia.
    rewrite Z.rem_mul_r by (try apply Z.pow_pos_nonneg; lia).
    reflexivity.
Qed.

Lemma le_encode_length (n : nat) (v : Z) : List.length (le_encode n v) = n.
Proof. revert v. induction n as [|n IH]; intros v; cbn; [|rewrite IH]; reflexivity. Qed.

(** X3: the Namespace-B call normalises its answers.  An integer object
    yields its value modulo 2^64; a firmware that answers with the eight
    bytes it was sent yields the operand modulo 2^64 (the request encoding
    and the buffer decoding are inverse); a four-byte buffer yields a value
    below 2^32; a missing object or an object of another type yields 0.  In
    every case exactly one method of GUID2 is evaluated and the driver's
    variables are untouched. *)
Theorem exec_u64_normalises_answers
    (K : env) (w : world) (method_id in_ status : Z)
    (obj : option acpi_object) :
  wmi_evaluate_method K (trace w) WMI_GUID2 0 method_id (bytes_of_u64 in_)
    = (status, obj) ->
  ACPI_FAILURE status = false ->
  let value := snd (result_of (acer_wmi_apgeaction_exec_u64 K method_id in_) w) in
  (forall v : Z, obj = Some (ACPI_TYPE_INTEGER v) -> value = Some (to_u64 v)) /\
  (obj = Some (ACPI_TYPE_BUFFER (bytes_of_u64 in_)) ->
   value = Some (to_u64 in_)) /\
  (forall buffer : list byte,
     obj = Some (ACPI_TYPE_BUFFER buffer) -> buffer_length buffer = 4 ->
     exists v : Z, value = Some v /\ 0 <= v < 2 ^ 32) /\
  (forall type : Z,
     obj = None \/ obj = Some (ACPI_TYPE_OTHER type) -> value = Some 0) /\
  after (acer_wmi_apgeaction_exec_u64 K method_id in_) w
    = {| drv := drv w;
         trace := trace w
                  ++ [EvWmi WMI_GUID2 0 method_id (bytes_of_u64 in_)] |}.
Proof.
  intros Hanswer Hok value. subst value.
  unfold result_of, after. rewrite exec_u64_cases. cbv zeta.
  rewrite Hanswer. cbn [fst snd]. rewrite Hok. cbn [fst snd].
  split; [|split; [|split; [|split]]].
  - intros v ->. reflexivity.
  - intros ->.
    assert (Hlen : buffer_length (bytes_of_u64 in_) = 8)
      by (unfold buffer_length, bytes_of_u64; now rewrite le_encode_length).
    rewrite Hlen. cbn [Z.eqb Pos.eqb orb].
    unfold bytes_of_u64.
    rewrite le_decode_encode
      by (unfold to_u64; apply Z.mod_pos_bound; lia).
    change (256 ^ Z.of_nat 8) with (2 ^ 64).
    unfold to_u64. now rewrite Z.mod_mod by lia.
  - intros buffer -> Hlen. rewrite Hlen. cbn [Z.eqb Pos.eqb orb].
    eexists; split; [reflexivity|].
    pose proof (le_decode_range buffer) as Hr.
    unfold buffer_length in Hlen. rewrite Hlen in Hr. exact Hr.
  - intros type [->| ->]; reflexivity.
  - reflexivity.
Qed.

(** A firmware that echoes the operand 663300 as an eight-byte buffer. *)
Lemma exec_u64_normalises_answers_witness :
  let K := stub_env
             (wmi_const AE_OK (Some (ACPI_TYPE_BUFFER (bytes_of_u64 663300))))
             (fun _ _ => (0, x01)) (fun _ _ _ => 0) (fun _ => 4096) in
  snd (result_of (acer_wmi_apgeaction_exec_u64 K ACER_WMID_SET_FUNCTION 663300)
         (boot (-1) (-1) quirk_acer_sfg174_73)) = Some 663300.
Proof.
  intros K.
  destruct (exec_u64_normalises_answers K (boot (-1) (-1) quirk_acer_sfg174_73)
              ACER_WMID_SET_FUNCTION 663300 AE_OK
              (Some (ACPI_TYPE_BUFFER (bytes_of_u64 663300)))
              eq_refl eq_refl) as (_ & Hecho & _).
  apply Hecho. reflexivity.
Defined.

(** X1: the status query reports success exactly when the evaluation
    succeeded and produced a buffer object of eight bytes; a missing
    object, an object of another type and a buffer of another length all
    give [AE_ERROR].  Whenever it reports a failure the driver's variables
    are untouched; whenever it succeeds both cached battery modes are -1,
    0 or 1.  It always evaluates method 20 of GUID1 once, on the bytes
    1, 1, 0, 0. *)
Theorem query_succeeds_only_on_well_formed_answer (K : env) (w : world) :
  let answer := wmi_evaluate_method K (trace w) WMI_GUID1 0 20 query_input in
  let status := result_of (get_battery_health_control_status K) w in
  let w' := after (get_battery_health_control_status K) w in
  (ACPI_FAILURE status = false <->
   ACPI_FAILURE (fst answer) = false /\
   exists buffer : list byte,
     snd answer = Some (ACPI_TYPE_BUFFER buffer) /\ buffer_length buffer = 8) /\
  (ACPI_FAILURE status = true ->
   drv w' = drv w /\ (ACPI_FAILURE (fst answer) = false -> status = AE_ERROR)) /\
  (ACPI_FAILURE status = false ->
   -1 <= health_mode (battery_status (drv w')) <= 1 /\
   -1 <= calibration_mode (battery_status (drv w')) <= 1) /\
  emitted (get_battery_health_control_status K) w
    = [EvWmi WMI_GUID1 0 20 [x01; x01; x00; x00]].
Proof.
  cbv zeta.
  split; [|split; [|split]].
  4: { apply emitted_app. apply get_status_trace. }
  all: unfold result_of, after; rewrite get_status_cases; cbv zeta;
    destruct (wmi_evaluate_method K (trace w) WMI_GUID1 0 20 query_input)
      as [st output];
    cbn [fst snd];
    destruct (ACPI_FAILURE st) eqn:Est; cbn [fst snd].
  - rewrite Est. split; [discriminate | intros [H _]; discriminate].
  - destruct output as [[value|buffer|type]|]; cbn [fst snd].
    + split; [discriminate | intros (_ & b & Hb & _); discriminate].
    + destruct (Z.eqb_spec (buffer_length buffer) 8) as [E|E]; cbn [fst].
      * rewrite Est. split; [|reflexivity].
        intros _. split; [reflexivity|]. exists buffer. split; [reflexivity | exact E].
      * split; [discriminate|].
        intros (_ & b & Hb & Hl). injection Hb as <-. contradiction.
    + split; [discriminate | intros (_ & b & Hb & _); discriminate].
    + split; [discriminate | intros (_ & b & Hb & _); discriminate].
  - intros _. split; [reflexivity | discriminate].
  - destruct output as [[value|buffer|type]|]; cbn [fst snd];
      try (intros _; split; reflexivity).
    destruct (buffer_length buffer =? 8); cbn [fst snd].
    + rewrite Est. discriminate.
    + intros _. split; reflexivity.
  - rewrite Est. discriminate.
  - destruct output as [[value|buffer|type]|]; cbn [fst snd];
      try discriminate.
    destruct (buffer_length buffer =? 8); cbn [fst snd]; [|discriminate].
    intros _.
    cbn [drv battery_status set_battery_status health_mode calibration_mode].
    destruct (Z.testbit _ 0), (Z.testbit _ 1);
      repeat match goal with
             | |- context [if ?c then _ else _] => destruct c
             end; lia.
Qed.

(** X2: the set call reports success exactly when the evaluation succeeded
    and produced a buffer object of four bytes.  Whatever the answer, it
    evaluates method 21 of GUID1 once, on battery 1, the function mask,
    the status byte and five zero bytes, and never changes the driver's
    variables. *)
Theorem set_control_succeeds_only_on_four_byte_ack
    (K : env) (w : world) (function : Z) (fs : bool) :
  let answer :=
    wmi_evaluate_method K (trace w) WMI_GUID1 0 21 (set_input function fs) in
  let status := result_of (set_battery_health_control K function fs) w in
  (ACPI_FAILURE status = false <->
   ACPI_FAILURE (fst answer) = false /\
   exists buffer : list byte,
     snd answer = Some (ACPI_TYPE_BUFFER buffer) /\ buffer_length buffer = 4) /\
  after (set_battery_health_control K function fs) w
    = {| drv := drv w;
         trace := trace w
                  ++ [EvWmi WMI_GUID1 0 21
                        [x01; byte_of_Z function; if fs then x01 else x00;
                         x00; x00; x00; x00; x00]] |}.
Proof.
  cbv zeta. split.
  - unfold result_of. rewrite set_control_cases. cbv zeta.
    destruct (wmi_evaluate_method K (trace w) WMI_GUID1 0 21
                (set_input function fs)) as [st output].
    cbn [fst snd].
    destruct (ACPI_FAILURE st) eqn:Est.
    + rewrite Est. split; [discriminate | intros [H _]; discriminate].
    + destruct output as [[value|buffer|type]|].
      * split; [discriminate | intros (_ & b & Hb & _); discriminate].
      * destruct (Z.eqb_spec (buffer_length buffer) 4) as [E|E].
        -- rewrite Est. split; [|reflexivity].
           intros _. split; [reflexivity|]. exists buffer. split; [reflexivity | exact E].
        -- split; [discriminate|].
           intros (_ & b & Hb & Hl). injection Hb as <-. contradiction.
      * split; [discriminate | intros (_ & b & Hb & _); discriminate].
      * split; [discriminate | intros (_ & b & Hb & _); discriminate].
  - rewrite set_control_after. destruct fs; reflexivity.
Qed.

(** ** The mode controllers *)

(** X4: the system-control-mode store does nothing and returns 0 while the
    cached mode is negative, whatever the text; with a non-negative cached
    mode it returns the parser's error for a text that does not parse and
    [-EINVAL] for a parsed value below 1 or above 3.  None of these paths
    writes the register or changes the driver's variables. *)
Theorem system_control_mode_store_refusals
    (K : env) (w : world) (buf : string) (count : Z) :
  (control_mode (drv w) < 0 ->
   system_control_mode_store K buf count w = (0, w)) /\
  (forall err v : Z,
     0 <= control_mode (drv w) ->
     kstrtoint K buf = (err, v) ->
     err <> 0 ->
     system_control_mode_store K buf count w = (err, w)) /\
  (forall v : Z,
     0 <= control_mode (drv w) ->
     kstrtoint K buf = (0, v) ->
     v < SYSTEM_CONTROL_BALANCED \/ SYSTEM_CONTROL_PERFORMANCE < v ->
     system_control_mode_store K buf count w = (- EINVAL, w)).
Proof.
  unfold SYSTEM_CONTROL_BALANCED, SYSTEM_CONTROL_PERFORMANCE.
  split; [|split].
  - intros Hneg. unfold system_control_mode_store, bind, load, ret.
    destruct (Z.ltb_spec (control_mode (drv w)) 0); [reflexivity | lia].
  - intros err v Hcached Hparse Herr.
    unfold system_control_mode_store, bind, load, ret.
    destruct (Z.ltb_spec (control_mode (drv w)) 0); [lia|].
    rewrite Hparse.
    destruct (Z.eqb_spec err 0); [contradiction | reflexivity].
  - intros v Hcached Hparse Hrange.
    unfold system_control_mode_store, bind, load, ret.
    destruct (Z.ltb_spec (control_mode (drv w)) 0); [lia|].
    rewrite Hparse. cbn [Z.eqb negb].
    unfold SYSTEM_CONTROL_BALANCED, SYSTEM_CONTROL_PERFORMANCE.
    destruct (Z.ltb_spec v 1); [reflexivity|].
    destruct (Z.gtb_spec v 3); [reflexivity | lia].
Qed.

Lemma system_control_mode_store_refusals_witness :
  let unknown := boot (-1) (-1) quirk_acer_system_control_mode in
  let known := {| drv := set_control_mode 1 (drv unknown); trace := [] |} in
  system_control_mode_store healthy_env "2" 2 unknown = (0, unknown) /\
  system_control_mode_store healthy_env "fast" 5 known = (- EINVAL, known).
Proof.
  intros unknown known.
  split.
  - apply (system_control_mode_store_refusals healthy_env unknown "2" 2).
    cbn. lia.
  - destruct (system_control_mode_store_refusals healthy_env known "fast" 5)
      as (_ & Hparse & _).
    apply (Hparse (- EINVAL) 0); [cbn; lia | reflexivity | discriminate].
Defined.

(** A store that returns a positive [count] went through every guard. *)
Lemma system_control_mode_store_count_inversion
    (K : env) (w : world) (buf : string) (count v : Z) :
  0 < count ->
  kstrtoint K buf = (0, v) ->
  result_of (system_control_mode_store K buf count) w = count ->
  0 <= control_mode (drv w) /\
  SYSTEM_CONTROL_BALANCED <= v <= SYSTEM_CONTROL_PERFORMANCE /\
  0 <= ec_write K (trace w) ACER_SYSTEM_CONTROL_MODE_EC_OFFSET v.
Proof.
  intros Hcount Hparse.
  unfold system_control_mode_store, result_of. unfold_monad.
  rewrite Hparse. cbn [Z.eqb negb drv trace].
  unfold SYSTEM_CONTROL_BALANCED, SYSTEM_CONTROL_PERFORMANCE, EINVAL.
  destruct (Z.ltb_spec (control_mode (drv w)) 0); [cbn; lia|].
  destruct (Z.ltb_spec v 1); [cbn; lia|].
  destruct (Z.gtb_spec v 3); [cbn; lia|].
  cbn [orb]. rewrite (to_u8_small v), offset_is_u8 by lia.
  destruct (Z.ltb_spec
              (ec_write K (trace w) ACER_SYSTEM_CONTROL_MODE_EC_OFFSET v) 0);
    cbn [fst]; lia.
Qed.

(** X5: after a system-control-mode store of [v] that returns [count] > 0
    (so [v] is 1, 2 or 3 and the register write succeeded), the attribute
    reads back as the decimal text of [v], and the profile adapter's get
    answers the profile whose mode code is [v]. *)
Theorem system_control_mode_store_then_read
    (K : env) (w : world) (buf : string) (count v : Z) :
  0 < count ->
  kstrtoint K buf = (0, v) ->
  result_of (system_control_mode_store K buf count) w = count ->
  let w' := after (system_control_mode_store K buf count) w in
  control_mode (drv w') = v /\
  SYSTEM_CONTROL_BALANCED <= v <= SYSTEM_CONTROL_PERFORMANCE /\
  result_of system_control_mode_show w' = sprintf_d v /\
  exists p : platform_profile_option,
    profile_mode_code p = Some v /\
    result_of acer_platform_profile_get w' = (0, Some p).
Proof.
  intros Hcount Hparse Hres w'.
  destruct (system_control_mode_store_count_inversion K w buf count v
              Hcount Hparse Hres) as (Hcached & Hrange & Hwrite).
  pose proof (system_control_mode_store_runs K w buf count v
                Hcached Hparse Hrange) as Hrun.
  cbv zeta in Hrun.
  assert (Hmode : control_mode (drv w') = v).
  { subst w'. unfold after. rewrite Hrun.
    destruct (Z.ltb_spec
                (ec_write K (trace w) ACER_SYSTEM_CONTROL_MODE_EC_OFFSET v) 0);
      [lia | reflexivity]. }
  split; [exact Hmode|]. split; [exact Hrange|]. split.
  - unfold system_control_mode_show, result_of, bind, load, ret. cbn [fst].
    now rewrite Hmode.
  - unfold SYSTEM_CONTROL_BALANCED, SYSTEM_CONTROL_PERFORMANCE in Hrange.
    unfold acer_platform_profile_get, result_of, bind, load, ret.
    rewrite Hmode.
    assert (Hv : v = 1 \/ v = 2 \/ v = 3) by lia.
    destruct Hv as [->|[->| ->]].
    + exists PLATFORM_PROFILE_BALANCED. split; reflexivity.
    + exists PLATFORM_PROFILE_LOW_POWER. split; reflexivity.
    + exists PLATFORM_PROFILE_PERFORMANCE. split; reflexivity.
Qed.

Lemma system_control_mode_store_then_read_witness :
  let w := {| drv := set_control_mode 1
                       (initial_driver (-1) (-1) quirk_acer_system_control_mode);
              trace := [] |} in
  let w' := after (system_control_mode_store healthy_env "2" 2) w in
  control_mode (drv w') = 2 /\
  SYSTEM_CONTROL_BALANCED <= 2 <= SYSTEM_CONTROL_PERFORMANCE /\
  result_of system_control_mode_show w' = sprintf_d 2 /\
  exists p : platform_profile_option,
    profile_mode_code p = Some 2 /\
    result_of acer_platform_profile_get w' = (0, Some p).
Proof.
  intros w.
  apply (system_control_mode_store_then_read healthy_env w "2" 2 2);
    [lia | reflexivity | reflexivity].
Defined.

(** X6: the usb-charge-mode store returns [-EOPNOTSUPP] when the usb-charge
    quirk is off, and with the quirk on returns [-EINVAL] when [sscanf]
    converts nothing or the stored value is neither 0 nor 1.  None of these
    paths calls the firmware or changes the driver's variables. *)
Theorem usb_charge_mode_store_refusals
    (K : env) (w : world) (buf : string) (count : Z) :
  (usb_charge_mode (quirks (drv w)) = 0 ->
   usb_charge_mode_store K buf count w = (- EOPNOTSUPP, w)) /\
  (forall (n : Z) (stored : byte),
     usb_charge_mode (quirks (drv w)) <> 0 ->
     sscanf_hhd K buf = (n, stored) ->
     n <> 1 \/ (byte_val stored <> 0 /\ byte_val stored <> 1) ->
     usb_charge_mode_store K buf count w = (- EINVAL, w)).
Proof.
  split.
  - intros Hq. unfold usb_charge_mode_store, bind, load, ret.
    rewrite Hq. reflexivity.
  - intros n stored Hq Hparse Hbad.
    unfold usb_charge_mode_store. unfold bind at 1. unfold load, ret.
    destruct (Z.eqb_spec (usb_charge_mode (quirks (drv w))) 0);
      [contradiction|].
    rewrite Hparse.
    destruct (Z.eqb_spec n 1) as [E|E]; cbn [negb]; [|reflexivity].
    destruct Hbad as [Hn|[H0 H1]]; [contradiction|].
    destruct (Z.eqb_spec (byte_val stored) 0); [contradiction|].
    destruct (Z.eqb_spec (byte_val stored) 1); [contradiction|].
    reflexivity.
Qed.

Lemma usb_charge_mode_store_refusals_witness :
  let w := boot (-1) (-1) quirk_acer_sfg174_73 in
  usb_charge_mode_store healthy_env "1" 2 (boot (-1) (-1) quirk_unknown)
    = (- EOPNOTSUPP, boot (-1) (-1) quirk_unknown) /\
  usb_charge_mode_store healthy_env "on" 3 w = (- EINVAL, w) /\
  usb_charge_mode_store healthy_env "10" 3 w = (- EINVAL, w).
Proof.
  intros w. split; [|split].
  - apply (usb_charge_mode_store_refusals healthy_env
             (boot (-1) (-1) quirk_unknown) "1" 2). reflexivity.
  - destruct (usb_charge_mode_store_refusals healthy_env w "on" 3) as [_ H].
    apply (H 0 x00); [cbn; discriminate | reflexivity | left; discriminate].
  - destruct (usb_charge_mode_store_refusals healthy_env w "10" 3) as [_ H].
    apply (H 1 x0a); [cbn; discriminate | reflexivity |].
    right. split; cbn; discriminate.
Defined.

(** ** USB charging: the limit read and the start-up probe *)

(** The limit read with the quirk on, in terms of the Namespace-B get. *)
Lemma usb_charge_limit_show_runs (K : env) (w : world) :
  usb_charge_mode (quirks (drv w)) <> 0 ->
  let get := acer_wmi_apgeaction_exec_u64 K ACER_WMID_GET_FUNCTION 4 in
  usb_charge_limit_show K w
  = (match snd (result_of get w) with
     | None => (- ENODEV, None)
     | Some r =>
         let limit := if r =? 659200 then 10
                      else if r =? 1314560 then 20
                      else if r =? 1969920 then 30
                      else -1 in
         (fst (sprintf_d limit), Some (snd (sprintf_d limit)))
     end,
     {| drv := drv w;
        trace := trace w
                 ++ [EvWmi WMI_GUID2 0 ACER_WMID_GET_FUNCTION (bytes_of_u64 4)] |}).
Proof.
  intros Hq get. subst get.
  unfold usb_charge_limit_show. unfold bind at 1. unfold load.
  destruct (Z.eqb_spec (usb_charge_mode (quirks (drv w))) 0);
    [contradiction|].
  rewrite bind_run.
  destruct (exec_u64_run K ACER_WMID_GET_FUNCTION 4 w) as [Hafter _].
  rewrite Hafter.
  unfold result_of. rewrite exec_u64_cases. cbv zeta.
  destruct (wmi_evaluate_method K (trace w) WMI_GUID2 0 ACER_WMID_GET_FUNCTION
              (bytes_of_u64 4)) as [st obj].
  cbn [fst snd].
  destruct (ACPI_FAILURE st) eqn:Est; cbn [fst snd]; [reflexivity|].
  rewrite Est. unfold ret.
  match goal with
  | |- context [sprintf_d ?l] => destruct (sprintf_d l)
  end.
  reflexivity.
Qed.

(** X7: the usb-charge-limit read is not served from a cache.  With the
    quirk off it returns [-EOPNOTSUPP] and does nothing; with the quirk on
    it evaluates the Namespace-B get on operand 4 once, leaves the
    driver's variables untouched, returns [-ENODEV] without a text when
    the evaluation fails, and otherwise prints 10, 20 or 30 for the
    values 659200, 1314560 and 1969920 and -1 for every other value. *)
Theorem usb_charge_limit_show_queries_firmware (K : env) (w : world) :
  (usb_charge_mode (quirks (drv w)) = 0 ->
   usb_charge_limit_show K w = ((- EOPNOTSUPP, None), w)) /\
  (usb_charge_mode (quirks (drv w)) <> 0 ->
   let answer :=
     result_of (acer_wmi_apgeaction_exec_u64 K ACER_WMID_GET_FUNCTION 4) w in
   after (usb_charge_limit_show K) w
     = {| drv := drv w;
          trace := trace w
                   ++ [EvWmi WMI_GUID2 0 ACER_WMID_GET_FUNCTION
                         [x04; x00; x00; x00; x00; x00; x00; x00]] |} /\
   (snd answer = None ->
    result_of (usb_charge_limit_show K) w = (- ENODEV, None)) /\
   (forall r limit : Z,
      snd answer = Some r ->
      In (r, limit) [(659200, 10); (1314560, 20); (1969920, 30)] ->
      result_of (usb_charge_limit_show K) w
        = (3, Some (NilZero.string_of_int (Z.to_int limit) ++ newline)%string)) /\
   (forall r : Z,
      snd answer = Some r ->
      r <> 659200 -> r <> 1314560 -> r <> 1969920 ->
      result_of (usb_charge_limit_show K) w
        = (3, Some ("-1" ++ newline)%string))).
Proof.
  split.
  - intros Hq. unfold usb_charge_limit_show, bind, load, ret.
    rewrite Hq. reflexivity.
  - intros Hq answer. subst answer.
    pose proof (usb_charge_limit_show_runs K w Hq) as Hrun. cbv zeta in Hrun.
    unfold after at 1. unfold result_of at 2 4 6. rewrite Hrun. cbn [fst snd].
    split; [reflexivity|]. split; [|split].
    + intros ->. reflexivity.
    + intros r limit -> Hin. cbn [In] in Hin.
      destruct Hin as [E|[E|[E|[]]]]; injection E as <- <-; reflexivity.
    + intros r -> N1 N2 N3.
      destruct (Z.eqb_spec r 659200); [contradiction|].
      destruct (Z.eqb_spec r 1314560); [contradiction|].
      destruct (Z.eqb_spec r 1969920); [contradiction|].
      reflexivity.
Qed.

(** On a firmware that reports 1314560 the limit reads as 20, by one
    Namespace-B get; on a firmware that fails, it reads as [-ENODEV]. *)
Lemma usb_charge_limit_show_queries_firmware_witness :
  let K := stub_env (wmi_usb_reports 1314560) (fun _ _ => (0, x01))
             (fun _ _ _ => 0) (fun _ => 4096) in
  let w := boot (-1) (-1) quirk_acer_sfg174_73 in
  usb_charge_limit_show K w
  = ((3, Some ("20" ++ newline)%string),
     {| drv := drv w;
        trace := [EvWmi WMI_GUID2 0 2
                    [x04; x00; x00; x00; x00; x00; x00; x00]] |}) /\
  result_of (usb_charge_limit_show broken_firmware_env) w = (- ENODEV, None).
Proof.
  intros K w. split.
  - destruct (usb_charge_limit_show_queries_firmware K w) as [_ Hon].
    destruct Hon as (Hafter & _ & Hknown & _); [cbn; discriminate|].
    specialize (Hknown 1314560 20 eq_refl).
    unfold after in Hafter. unfold result_of in Hknown.
    destruct (usb_charge_limit_show K w) as [res w'].
    cbn [fst snd] in *. rewrite Hafter, Hknown; [reflexivity|].
    cbn. right. left. reflexivity.
  - destruct (usb_charge_limit_show_queries_firmware broken_firmware_env w)
      as [_ Hon].
    destruct Hon as (_ & Hfail & _); [cbn; discriminate|].
    apply Hfail. reflexivity.
Defined.

(** X8: the start-up probe and the limit read classify the firmware's
    value alike.  For one and the same value returned by the Namespace-B
    get, the probe caches the mode as on (1) exactly when the limit read
    prints 10, 20 or 30; whenever the probe caches off (0) or unknown (-1),
    the limit read prints -1. *)
Theorem limit_read_agrees_with_probe
    (K : env) (w w' : world) (status status' r : Z) :
  usb_charge_mode (quirks (drv w)) <> 0 ->
  usb_charge_mode (quirks (drv w')) <> 0 ->
  wmi_has_guid K WMI_GUID2 = true ->
  result_of (acer_wmi_apgeaction_exec_u64 K ACER_WMID_GET_FUNCTION 4) w
    = (status, Some r) ->
  ACPI_FAILURE status = false ->
  result_of (acer_wmi_apgeaction_exec_u64 K ACER_WMID_GET_FUNCTION 4) w'
    = (status', Some r) ->
  let cached := usb_charge_mode_enable (drv (after (init_usb_charge_mode K) w)) in
  let printed := result_of (usb_charge_limit_show K) w' in
  (cached = 1 ->
   exists limit : Z,
     In limit [10; 20; 30] /\
     printed
       = (3, Some (NilZero.string_of_int (Z.to_int limit) ++ newline)%string)) /\
  (cached <> 1 ->
   (cached = 0 \/ cached = -1) /\
   printed = (3, Some ("-1" ++ newline)%string)).
Proof.
  intros Hq Hq' Hguid Hprobe Hok Hread cached printed. subst cached printed.
  rewrite (init_usb_charge_mode_classifies K w status r Hq Hguid Hprobe Hok).
  pose proof (usb_charge_limit_show_runs K w' Hq') as Hrun. cbv zeta in Hrun.
  unfold result_of at 1 2. rewrite Hrun. cbn [fst].
  rewrite Hread. cbn [snd].
  destruct (Z.eqb_spec r 663296) as [->|N0].
  - cbn [Z.eqb Pos.eqb]. split; [discriminate|].
    intros _. split; [left|]; reflexivity.
  - destruct (Z.eqb_spec r 659200) as [->|N1].
    { cbn [orb]. split; [|intros H; contradiction].
      intros _. exists 10. split; [left|]; reflexivity. }
    destruct (Z.eqb_spec r 1314560) as [->|N2].
    { cbn [orb]. split; [|intros H; contradiction].
      intros _. exists 20. split; [right; left|]; reflexivity. }
    destruct (Z.eqb_spec r 1969920) as [->|N3].
    { cbn [orb]. split; [|intros H; contradiction].
      intros _. exists 30. split; [right; right; left|]; reflexivity. }
    cbn [orb]. split; [discriminate|].
    intros _. split; [right|]; reflexivity.
Qed.

Lemma limit_read_agrees_with_probe_witness :
  let K := stub_env (wmi_usb_reports 663296) (fun _ _ => (0, x01))
             (fun _ _ _ => 0) (fun _ => 4096) in
  let w := boot (-1) (-1) quirk_acer_sfg174_73 in
  usb_charge_mode_enable (drv (after (init_usb_charge_mode K) w)) = 0 /\
  result_of (usb_charge_limit_show K) w = (3, Some ("-1" ++ newline)%string).
Proof.
  intros K w.
  destruct (limit_read_agrees_with_probe K w w AE_OK AE_OK 663296)
    as [_ Hoff]; try reflexivity; try (cbn; discriminate).
  destruct Hoff as [_ Hprinted]; [vm_compute; discriminate|].
  split; [reflexivity | exact Hprinted].
Defined.

(** ** System control mode initialisation and the profile adapter *)

(** X15: when the read of the mode register succeeds, the initialisation
    caches the byte read and then handles the module parameter: a negative
    parameter leaves that byte cached and returns 0 after the read alone;
    a parameter of 1, 2 or 3 is written to the register and, the write
    succeeding, cached; every other parameter (0 included) returns
    [-EINVAL] with the byte read cached and without any write. *)
Theorem init_applies_module_parameter
    (K : env) (w : world) (err : Z) (tp : byte) :
  ec_read K (trace w) ACER_SYSTEM_CONTROL_MODE_EC_OFFSET = (err, tp) ->
  0 <= err ->
  let p := enable_system_control_mode (drv w) in
  let read := EvEcRead ACER_SYSTEM_CONTROL_MODE_EC_OFFSET in
  let write := EvEcWrite ACER_SYSTEM_CONTROL_MODE_EC_OFFSET p in
  let r := result_of (acer_system_control_mode_init K) w in
  let w' := after (acer_system_control_mode_init K) w in
  (p < 0 ->
   r = 0 /\ control_mode (drv w') = byte_val tp /\ trace w' = trace w ++ [read]) /\
  (p = 0 \/ SYSTEM_CONTROL_PERFORMANCE < p ->
   r = - EINVAL /\ control_mode (drv w') = byte_val tp /\
   trace w' = trace w ++ [read]) /\
  (SYSTEM_CONTROL_BALANCED <= p <= SYSTEM_CONTROL_PERFORMANCE ->
   let werr := ec_write K (trace w ++ [read])
                 ACER_SYSTEM_CONTROL_MODE_EC_OFFSET p in
   trace w' = trace w ++ [read; write] /\
   (0 <= werr -> r = 0 /\ control_mode (drv w') = p) /\
   (werr < 0 -> r = werr /\ control_mode (drv w') = byte_val tp)).
Proof.
  intros Hread Herr p read write r w'. subst p read write r w'.
  unfold SYSTEM_CONTROL_BALANCED, SYSTEM_CONTROL_PERFORMANCE.
  unfold acer_system_control_mode_init, result_of, after. unfold_monad.
  cbn [drv trace]. rewrite offset_is_u8, Hread.
  destruct (Z.ltb_spec err 0); [lia|].
  cbn [drv trace enable_system_control_mode set_control_mode
       set_system_control_mode_inited].
  unfold SYSTEM_CONTROL_BALANCED, SYSTEM_CONTROL_PERFORMANCE.
  set (p := enable_system_control_mode (drv w)).
  split; [|split].
  - intros Hp. destruct (Z.geb_spec p 0); [lia|].
    cbn. repeat split.
  - intros Hp. destruct (Z.geb_spec p 0); [|lia].
    destruct (Z.ltb_spec p 1); [cbn; repeat split|].
    destruct (Z.gtb_spec p 3); [cbn; repeat split | lia].
  - intros Hp. destruct (Z.geb_spec p 0); [|lia].
    destruct (Z.ltb_spec p 1); [lia|].
    destruct (Z.gtb_spec p 3); [lia|].
    cbn [orb trace drv]. rewrite (to_u8_small p) by lia.
    match goal with
    | |- context [ec_write K ?h ?a ?v <? 0] =>
        destruct (Z.ltb_spec (ec_write K h a v) 0)
    end;
      cbn [fst snd drv trace control_mode set_control_mode];
      rewrite <- app_assoc; (split; [reflexivity|]); split; intros; try lia;
      split; reflexivity.
Qed.

(** The register holds 2: without a parameter the cached mode is 2; with
    the parameter 3 the mode 3 is written and cached; with the parameter 0
    the initialisation returns [-EINVAL]. *)
Lemma init_applies_module_parameter_witness :
  let K := stub_env (wmi_const AE_OK None) (fun _ _ => (0, x02))
             (fun _ _ _ => 0) (fun _ => 4096) in
  let at_ (p : Z) := boot (-1) p quirk_acer_system_control_mode in
  (result_of (acer_system_control_mode_init K) (at_ (-1)) = 0 /\
   control_mode (drv (after (acer_system_control_mode_init K) (at_ (-1)))) = 2) /\
  (result_of (acer_system_control_mode_init K) (at_ 3) = 0 /\
   control_mode (drv (after (acer_system_control_mode_init K) (at_ 3))) = 3) /\
  result_of (acer_system_control_mode_init K) (at_ 0) = - EINVAL.
Proof.
  intros K at_. split; [|split].
  - destruct (init_applies_module_parameter K (at_ (-1)) 0 x02 eq_refl)
      as (Hneg & _); [lia|].
    destruct Hneg as (Hr & Hm & _); [cbn; lia|]. split; assumption.
  - destruct (init_applies_module_parameter K (at_ 3) 0 x02 eq_refl)
      as (_ & _ & Hset); [lia|].
    destruct Hset as (_ & Hok & _);
      [cbn; unfold SYSTEM_CONTROL_BALANCED, SYSTEM_CONTROL_PERFORMANCE; lia|].
    apply Hok. cbn. lia.
  - destruct (init_applies_module_parameter K (at_ 0) 0 x02 eq_refl)
      as (_ & Hbad & _); [lia|].
    destruct Hbad as (Hr & _); [left; reflexivity | exact Hr].
Defined.

(** X16: the probe advertises exactly the profiles the set accepts.  On a
    machine with the quirk whose flag is set, starting from an empty
    bitmap, a profile's bit is in the probe's choices exactly when the
    profile has a mode code; a set of a profile whose bit is not advertised
    returns [-EOPNOTSUPP] and does nothing, and a set of an advertised
    profile returns 0 whenever the register write (if one is needed)
    succeeds, leaving that profile's code cached. *)
Theorem probe_advertises_settable_profiles
    (K : env) (w : world) (p : platform_profile_option) :
  system_control_mode (quirks (drv w)) <> 0 ->
  system_control_mode_inited (drv w) <> 0 ->
  let choices := snd (result_of (acer_platform_profile_probe K 0) w) in
  let advertised := Z.testbit choices (profile_index p) in
  fst (result_of (acer_platform_profile_probe K 0) w) = 0 /\
  (advertised = false ->
   acer_platform_profile_set K p w = (- EOPNOTSUPP, w)) /\
  (advertised = true ->
   exists m : Z,
     profile_mode_code p = Some m /\
     (m = control_mode (drv w) \/
      0 <= ec_write K (trace w) ACER_SYSTEM_CONTROL_MODE_EC_OFFSET m ->
      result_of (acer_platform_profile_set K p) w = 0 /\
      control_mode (drv (after (acer_platform_profile_set K p) w)) = m)).
Proof.
  intros Hq Hi choices advertised. subst advertised choices.
  assert (Hprobe : result_of (acer_platform_profile_probe K 0) w = (0, 41))
    by (unfold result_of; now rewrite (probe_when_inited K w 0 Hq Hi)).
  rewrite Hprobe. cbn [fst snd]. split; [reflexivity|]. split.
  - intros Hbit.
    unfold acer_platform_profile_set, bind, load, ret.
    destruct (Z.eqb_spec (system_control_mode (quirks (drv w))) 0);
      [contradiction|].
    destruct p; try reflexivity; vm_compute in Hbit; discriminate.
  - intros Hbit.
    assert (Hcode : exists m, profile_mode_code p = Some m)
      by (destruct p; try (vm_compute in Hbit; discriminate);
          eexists; reflexivity).
    destruct Hcode as [m Hcode]. exists m. split; [exact Hcode|].
    intros Hwrite.
    pose proof (acer_platform_profile_set_runs K w p m Hq Hcode) as Hrun.
    cbv zeta in Hrun. unfold result_of, after. rewrite Hrun.
    destruct (Z.eqb_spec m (control_mode (drv w))) as [E|E];
      [split; [reflexivity | now rewrite E]|].
    destruct Hwrite as [Hsame|Hwrite]; [contradiction|].
    destruct (Z.ltb_spec
                (ec_write K (trace w) ACER_SYSTEM_CONTROL_MODE_EC_OFFSET m) 0);
      [lia|].
    split; reflexivity.
Qed.

Lemma probe_advertises_settable_profiles_witness :
  let w := {| drv := set_system_control_mode_inited 1
                       (set_control_mode 1
                          (initial_driver (-1) (-1)
                             quirk_acer_system_control_mode));
              trace := [] |} in
  acer_platform_profile_set healthy_env PLATFORM_PROFILE_QUIET w
    = (- EOPNOTSUPP, w) /\
  exists m : Z,
    profile_mode_code PLATFORM_PROFILE_LOW_POWER = Some m /\
    (m = control_mode (drv w) \/
     0 <= ec_write healthy_env (trace w) ACER_SYSTEM_CONTROL_MODE_EC_OFFSET m ->
     result_of (acer_platform_profile_set healthy_env PLATFORM_PROFILE_LOW_POWER)
       w = 0 /\
     control_mode
       (drv (after (acer_platform_profile_set healthy_env
                      PLATFORM_PROFILE_LOW_POWER) w)) = m).
Proof.
  intros w. split.
  - destruct (probe_advertises_settable_profiles healthy_env w
                PLATFORM_PROFILE_QUIET) as (_ & Hno & _);
      [cbn; discriminate | cbn; discriminate |].
    apply Hno. reflexivity.
  - destruct (probe_advertises_settable_profiles healthy_env w
                PLATFORM_PROFILE_LOW_POWER) as (_ & _ & Hyes);
      [cbn; discriminate | cbn; discriminate |].
    apply Hyes. reflexivity.
Defined.

(** ** The outcome of the profile setup *)

(** The loop from attempt [attempt] with [remaining] iterations left, the
    two adding up to the ten attempts: it ends on a good pointer with the
    support flag set, or on the error pointer of the last attempt with the
    flag as it was. *)
Lemma register_loop_outcome (K : env) (remaining : nat) :
  forall (attempt delay_ms : Z) (w : world),
    (0 < remaining)%nat ->
    attempt + Z.of_nat remaining = 11 ->
    let r := register_loop K remaining attempt delay_ms w in
    (fst r = 0 /\
     platform_profile_support (drv (snd r)) = true /\
     IS_ERR (platform_profile_device (drv (snd r))) = false) \/
    (IS_ERR (fst r) = true /\
     platform_profile_support (drv (snd r)) = platform_profile_support (drv w) /\
     platform_profile_device (drv (snd r)) = fst r).
Proof.
  induction remaining as [|k IH]; intros attempt delay_ms w Hpos Hsum;
    [lia|].
  cbn [register_loop]. unfold max_retries.
  destruct (Z.leb_spec attempt 10); [|lia].
  unfold_monad. cbn [drv trace].
  destruct (IS_ERR (devm_platform_profile_register K (trace w))) eqn:Eerr;
    cbn [negb].
  - destruct (Z.ltb_spec attempt 10) as [Hlt|Hge]; cbn [drv trace].
    + match goal with
      | |- context [register_loop K k ?a ?d ?w0] =>
          destruct (IH a d w0) as [Hgood|Hbad]; [lia | lia | |]
      end.
      * left. exact Hgood.
      * right. exact Hbad.
    + assert (k = 0%nat) by lia. subst k.
      cbn [register_loop]. unfold_monad. unfold PTR_ERR.
      cbn [fst snd drv platform_profile_device platform_profile_support
           set_platform_profile_device].
      right. repeat split. exact Eerr.
  - left. cbn [fst snd drv platform_profile_device platform_profile_support
               set_platform_profile_device set_platform_profile_support].
    repeat split. exact Eerr.
Qed.

(** X14: the profile setup returns 0 without a registration attempt when
    the system-control-mode quirk is off.  With the quirk on it ends in one
    of two ways, whatever the registration answers: it returns 0 with the
    support flag set and a good device pointer stored, or it returns the
    stored error pointer, a value from -4095 to -1, with the support flag
    as it was.  The platform driver's probe returns what the setup
    returns. *)
Theorem profile_setup_outcome (K : env) (w : world) :
  (system_control_mode (quirks (drv w)) = 0 ->
   acer_platform_profile_setup K w = (0, w)) /\
  (system_control_mode (quirks (drv w)) <> 0 ->
   let r := result_of (acer_platform_profile_setup K) w in
   let d := drv (after (acer_platform_profile_setup K) w) in
   (r = 0 /\ platform_profile_support d = true /\
    IS_ERR (platform_profile_device d) = false) \/
   (- MAX_ERRNO <= r < 0 /\
    platform_profile_support d = platform_profile_support (drv w) /\
    platform_profile_device d = r)) /\
  acer_ext_platform_probe K w = acer_platform_profile_setup K w.
Proof.
  split; [|split].
  - intros Hq. unfold acer_platform_profile_setup, bind, load, ret.
    rewrite Hq. reflexivity.
  - intros Hq r d. subst r d.
    assert (Hsetup : acer_platform_profile_setup K w
                     = register_loop K (Z.to_nat max_retries) 1 100 w).
    { unfold acer_platform_profile_setup, bind, load.
      destruct (Z.eqb_spec (system_control_mode (quirks (drv w))) 0);
        [contradiction | reflexivity]. }
    unfold result_of, after. rewrite Hsetup.
    destruct (register_loop_outcome K (Z.to_nat max_retries) 1 100 w)
      as [Hgood|(Herr & Hsupport & Hdev)];
      [unfold max_retries; lia | reflexivity | left; exact Hgood |].
    right. split; [|split; assumption].
    unfold IS_ERR in Herr. apply andb_true_iff in Herr.
    destruct Herr as [Hlo Hhi].
    apply Z.leb_le in Hlo. apply Z.ltb_lt in Hhi. lia.
  - unfold acer_ext_platform_probe, bind, ret.
    destruct (acer_platform_profile_setup K w) as [err w'].
    destruct (Z.eqb_spec err 0) as [->|]; reflexivity.
Qed.

(** A registration that never succeeds: the setup gives up with [-EIO]
    and the support flag stays clear. *)
Lemma profile_setup_outcome_witness :
  let K := stub_env (wmi_const AE_OK None) (fun _ _ => (0, x01))
             (fun _ _ _ => 0) (register_after 10) in
  let w := boot (-1) (-1) quirk_acer_system_control_mode in
  acer_platform_profile_setup K (boot (-1) (-1) quirk_unknown)
    = (0, boot (-1) (-1) quirk_unknown) /\
  result_of (acer_platform_profile_setup K) w = - EIO /\
  platform_profile_support (drv (after (acer_platform_profile_setup K) w))
    = false.
Proof.
  intros K w.
  split.
  - destruct (profile_setup_outcome K (boot (-1) (-1) quirk_unknown))
      as (Hoff & _).
    apply Hoff. reflexivity.
  - destruct (profile_setup_outcome K w) as (_ & Hon & _).
    destruct Hon as [(Hzero & _)|(_ & Hsupport & _)]; [cbn; discriminate | |].
    + vm_compute in Hzero. discriminate.
    + split; [reflexivity | exact Hsupport].
Defined.

(** ** Module initialisation *)

Lemma acer_wmi_ext_init_stages (K : env) (B : boot_env) :
  acer_wmi_ext_init K B
  = (store (set_quirks (find_quirks B)) ;;
     if wmi_has_guid K WMI_GUID1 then
       p <- load enable_health_mode ;;
       status <- (if p >=? 0
                  then set_battery_health_control K HEALTH_MODE (negb (p =? 0))
                  else ret AE_OK) ;;
       if (p >=? 0) && ACPI_FAILURE status then ret (- EIO, [])
       else
         status <- init_state K ;;
         if ACPI_FAILURE status then ret (- EIO, [])
         else init_devices_stage K B
     else init_devices_stage K B).
Proof. reflexivity. Qed.

(** What the second stage returns is decided by the registrations alone. *)
Lemma init_devices_stage_result (K : env) (B : boot_env) (w : world) :
  result_of (init_devices_stage K B) w
  = if negb (platform_driver_register B =? 0)
    then (platform_driver_register B,
          [CallPlatformDriverRegister; CallWmiDriverUnregister])
    else if platform_device_alloc B =? 0
    then (- ENOMEM,
          [CallPlatformDriverRegister; CallPlatformDeviceAlloc;
           CallPlatformDriverUnregister; CallWmiDriverUnregister])
    else if negb (platform_device_add B =? 0)
    then (platform_device_add B,
          [CallPlatformDriverRegister; CallPlatformDeviceAlloc;
           CallPlatformDeviceAdd (platform_device_alloc B);
           CallPlatformDevicePut (platform_device_alloc B);
           CallPlatformDriverUnregister; CallWmiDriverUnregister])
    else (wmi_driver_register B,
          [CallPlatformDriverRegister; CallPlatformDeviceAlloc;
           CallPlatformDeviceAdd (platform_device_alloc B);
           CallWmiDriverRegister]).
Proof.
  unfold init_devices_stage, result_of.
  rewrite !bind_run. unfold load at 1. cbn [result_of after fst snd].
  repeat match goal with
         | |- context [if ?c then _ else _] =>
             lazymatch c with
             | context [platform_driver_register] => destruct c
             | context [platform_device_alloc] => destruct c
             | context [platform_device_add] => destruct c
             end
         end; reflexivity.
Qed.

(** The world the second stage leaves: the system-control-mode
    initialisation when its quirk is on, then the usb-charge probe when
    its quirk is on. *)
Lemma init_devices_stage_after (K : env) (B : boot_env) (w : world) :
  after (init_devices_stage K B) w
  = let w1 := if system_control_mode (quirks (drv w)) =? 0 then w
              else after (acer_system_control_mode_init K) w in
    if usb_charge_mode (quirks (drv w)) =? 0 then w1
    else after (init_usb_charge_mode K) w1.
Proof.
  unfold init_devices_stage. rewrite !after_bind.
  unfold load at 1 2 3. cbn [result_of after fst snd].
  assert (Htail : forall (x : world),
             after (let err := platform_driver_register B in
                    if negb (err =? 0)
                    then ret (err, [CallPlatformDriverRegister;
                                    CallWmiDriverUnregister])
                    else
                      let dev := platform_device_alloc B in
                      if dev =? 0
                      then ret (- ENOMEM,
                                [CallPlatformDriverRegister;
                                 CallPlatformDeviceAlloc;
                                 CallPlatformDriverUnregister;
                                 CallWmiDriverUnregister])
                      else
                        let err0 := platform_device_add B in
                        if negb (err0 =? 0)
                        then ret (err0,
                                  [CallPlatformDriverRegister;
                                   CallPlatformDeviceAlloc;
                                   CallPlatformDeviceAdd dev;
                                   CallPlatformDevicePut dev;
                                   CallPlatformDriverUnregister;
                                   CallWmiDriverUnregister])
                        else ret (wmi_driver_register B,
                                  [CallPlatformDriverRegister;
                                   CallPlatformDeviceAlloc;
                                   CallPlatformDeviceAdd dev;
                                   CallWmiDriverRegister])) x = x).
  { intros x. cbv zeta. unfold after, ret.
    destruct (negb (platform_driver_register B =? 0)); [reflexivity|].
    destruct (platform_device_alloc B =? 0); [reflexivity|].
    destruct (negb (platform_device_add B =? 0)); reflexivity. }
  rewrite Htail. cbv zeta.
  destruct (system_control_mode (quirks (drv w)) =? 0);
    destruct (usb_charge_mode (quirks (drv w)) =? 0); cbn [negb];
    rewrite ?after_bind; reflexivity.
Qed.

Lemma set_battery_status_same (d : driver) :
  set_battery_status (battery_status d) d = d.
Proof. destruct d. reflexivity. Qed.

(** The status query changes at most the battery cache. *)
Lemma get_status_drv (K : env) (w : world) :
  exists b : battery_info,
    drv (after (get_battery_health_control_status K) w)
    = set_battery_status b (drv w).
Proof.
  unfold after. rewrite get_status_cases. cbv zeta.
  destruct (wmi_evaluate_method K (trace w) WMI_GUID1 0 20 query_input)
    as [st output].
  cbn [fst snd].
  destruct (ACPI_FAILURE st);
    [exists (battery_status (drv w)); now rewrite set_battery_status_same|].
  destruct output as [[value|buffer|type]|];
    try (exists (battery_status (drv w)); now rewrite set_battery_status_same).
  destruct (buffer_length buffer =? 8);
    [eexists; reflexivity
    |exists (battery_status (drv w)); now rewrite set_battery_status_same].
Qed.

(** The module initialisation up to its second stage, case by case. *)
Lemma acer_wmi_ext_init_cases (K : env) (B : boot_env) (w : world) :
  let w0 := {| drv := set_quirks (find_quirks B) (drv w); trace := trace w |} in
  let p := enable_health_mode (drv w) in
  let query := (status <- init_state K ;;
                if ACPI_FAILURE status then ret (- EIO, [])
                else init_devices_stage K B) in
  let w1 := {| drv := drv w0;
               trace := trace w0
                        ++ [EvWmi WMI_GUID1 0 21
                              (set_input HEALTH_MODE (negb (p =? 0)))] |} in
  acer_wmi_ext_init K B w
  = if wmi_has_guid K WMI_GUID1
    then if p >=? 0
         then if ACPI_FAILURE
                   (result_of
                      (set_battery_health_control K HEALTH_MODE
                         (negb (p =? 0))) w0)
              then ((- EIO, []), w1)
              else query w1
         else query w0
    else init_devices_stage K B w0.
Proof.
  intros w0 p query w1.
  rewrite acer_wmi_ext_init_stages.
  unfold bind at 1. unfold store at 1. fold w0.
  destruct (wmi_has_guid K WMI_GUID1); [|reflexivity].
  unfold bind at 1. unfold load at 1.
  change (enable_health_mode (drv w0)) with p.
  destruct (p >=? 0).
  - rewrite bind_run, set_control_after. fold w1. cbn [andb].
    destruct (ACPI_FAILURE _); reflexivity.
  - rewrite bind_run. reflexivity.
Qed.

(** The first stage of the module initialisation: the quirk entry is
    stored, the battery firmware is called when its GUID is present, and
    the function either gives up with [-EIO] and no registration call, or
    goes on with the second stage.  Only Namespace-A methods are evaluated
    and at most the battery cache changes besides the quirk entry. *)
Lemma init_first_stage (K : env) (B : boot_env) (w : world) :
  let w0 := {| drv := set_quirks (find_quirks B) (drv w); trace := trace w |} in
  exists (w2 : world) (evs : list event) (b : battery_info),
    trace w2 = trace w ++ evs /\
    Forall (fun e => is_namespace_a e = true) evs /\
    drv w2 = set_battery_status b (drv w0) /\
    (wmi_has_guid K WMI_GUID1 = false -> w2 = w0) /\
    ((acer_wmi_ext_init K B w = ((- EIO, []), w2) /\
      wmi_has_guid K WMI_GUID1 = true /\
      b = battery_status (drv w))
     \/ acer_wmi_ext_init K B w = init_devices_stage K B w2).
Proof.
  intros w0.
  assert (Hsame : set_battery_status (battery_status (drv w)) (drv w0) = drv w0)
    by (subst w0; cbn [drv]; destruct (drv w); reflexivity).
  set (p := enable_health_mode (drv w)).
  set (query := (status <- init_state K ;;
                 if ACPI_FAILURE status then ret (- EIO, [])
                 else init_devices_stage K B)).
  set (w1 := {| drv := drv w0;
                trace := trace w0
                         ++ [EvWmi WMI_GUID1 0 21
                               (set_input HEALTH_MODE (negb (p =? 0)))] |}).
  pose proof (acer_wmi_ext_init_cases K B w) as Hinit. cbv zeta in Hinit.
  fold w0 p in Hinit. fold query w1 in Hinit.
  rewrite Hinit. clear Hinit.
  destruct (wmi_has_guid K WMI_GUID1) eqn:Hguid.
  2: { exists w0, [], (battery_status (drv w)).
       rewrite app_nil_r, Hsame.
       split; [reflexivity|]. split; [constructor|].
       split; [reflexivity|]. split; [reflexivity|].
       right. reflexivity. }
  assert (Hquery : forall x : world,
             trace x = trace w ++ skipn (List.length (trace w)) (trace x) ->
             Forall (fun e => is_namespace_a e = true)
                    (skipn (List.length (trace w)) (trace x)) ->
             drv x = drv w0 ->
             exists (w2 : world) (evs : list event) (b : battery_info),
               trace w2 = trace w ++ evs /\
               Forall (fun e => is_namespace_a e = true) evs /\
               drv w2 = set_battery_status b (drv w0) /\
               (false = false -> True) /\
               ((query x = ((- EIO, []), w2) /\ b = battery_status (drv w))
                \/ query x = init_devices_stage K B w2)).
  { intros x Htr Hall Hdrv.
    subst query. cbv beta. rewrite bind_run. unfold init_state.
    pose proof (get_status_trace K x) as Htrace.
    destruct (get_status_drv K x) as [b Hb].
    destruct (ACPI_FAILURE (result_of (get_battery_health_control_status K) x))
      eqn:Efail.
    - exists (after (get_battery_health_control_status K) x),
             (skipn (List.length (trace w)) (trace x)
              ++ [EvWmi WMI_GUID1 0 20 query_input]),
             (battery_status (drv w)).
      rewrite Htrace, app_assoc, <- Htr.
      split; [reflexivity|]. split.
      { apply Forall_app. split; [exact Hall|]. repeat constructor. }
      rewrite (get_status_failure_keeps_driver K x Efail), Hdrv, Hsame.
      split; [reflexivity|]. split; [trivial|].
      left. split; reflexivity.
    - exists (after (get_battery_health_control_status K) x),
             (skipn (List.length (trace w)) (trace x)
              ++ [EvWmi WMI_GUID1 0 20 query_input]),
             b.
      rewrite Htrace, app_assoc, <- Htr.
      split; [reflexivity|]. split.
      { apply Forall_app. split; [exact Hall|]. repeat constructor. }
      rewrite Hb, Hdrv.
      split; [reflexivity|]. split; [trivial|].
      right. reflexivity. }
  destruct (p >=? 0) eqn:Hp.
  - destruct (ACPI_FAILURE
                (result_of (set_battery_health_control K HEALTH_MODE
                              (negb (p =? 0))) w0)) eqn:Eset.
    + exists w1, [EvWmi WMI_GUID1 0 21 (set_input HEALTH_MODE (negb (p =? 0)))],
             (battery_status (drv w)).
      subst w1. cbn [trace drv]. rewrite Hsame.
      split; [reflexivity|]. split; [repeat constructor|].
      split; [reflexivity|]. split; [discriminate|].
      left. repeat split.
    + destruct (Hquery w1) as (w2 & evs & b & H1 & H2 & H3 & _ & H5).
      * subst w1. cbn [trace].
        rewrite skipn_app, skipn_all, Nat.sub_diag. reflexivity.
      * subst w1. cbn [trace].
        rewrite skipn_app, skipn_all, Nat.sub_diag. repeat constructor.
      * reflexivity.
      * exists w2, evs, b.
        split; [exact H1|]. split; [exact H2|]. split; [exact H3|].
        split; [discriminate|].
        destruct H5 as [[H5 Hb]|H5]; [left | right]; auto.
  - destruct (Hquery w0) as (w2 & evs & b & H1 & H2 & H3 & _ & H5).
    + rewrite skipn_all. now rewrite app_nil_r.
    + rewrite skipn_all. constructor.
    + reflexivity.
    + exists w2, evs, b.
      split; [exact H1|]. split; [exact H2|]. split; [exact H3|].
      split; [discriminate|].
      destruct H5 as [[H5 Hb]|H5]; [left | right]; auto.
Qed.

(** What the two start-up probes of the second stage may touch. *)
Lemma init_ec_effect (K : env) (w : world) :
  let w' := after (acer_system_control_mode_init K) w in
  exists evs : list event,
    trace w' = trace w ++ evs /\
    Forall (fun e => is_ec_access e = true) evs /\
    quirks (drv w') = quirks (drv w) /\
    battery_status (drv w') = battery_status (drv w) /\
    usb_charge_mode_enable (drv w') = usb_charge_mode_enable (drv w).
Proof.
  cbv zeta. unfold acer_system_control_mode_init, after. unfold_monad.
  cbn [drv trace]. split_paths; cbn [snd trace drv]; rewrite <- ?app_assoc;
    eexists; (split; [reflexivity|]); (split; [repeat constructor|]);
    repeat split.
Qed.

Lemma init_usb_effect (K : env) (w : world) :
  let w' := after (init_usb_charge_mode K) w in
  exists evs : list event,
    trace w' = trace w ++ evs /\
    Forall (fun e => is_namespace_b e = true) evs /\
    quirks (drv w') = quirks (drv w) /\
    battery_status (drv w') = battery_status (drv w) /\
    control_mode (drv w') = control_mode (drv w) /\
    system_control_mode_inited (drv w') = system_control_mode_inited (drv w).
Proof.
  cbv zeta. unfold init_usb_charge_mode, acer_wmi_apgeaction_exec_u64, after.
  unfold_monad. cbn [drv trace].
  destruct (usb_charge_mode (quirks (drv w)) =? 0);
    [exists []; rewrite app_nil_r; repeat split; constructor|].
  destruct (wmi_has_guid K WMI_GUID2); cbn [negb];
    [|exists []; rewrite app_nil_r; repeat split; constructor].
  split_paths; cbn [snd trace drv];
    eexists; (split; [reflexivity|]); (split; [repeat constructor|]);
    repeat split.
Qed.

Lemma count_events_none (p q : event -> bool) (evs : list event) :
  (forall e, q e = true -> p e = false) ->
  Forall (fun e => q e = true) evs ->
  count_events p evs = 0%nat.
Proof.
  intros Hpq Hall. unfold count_events.
  induction Hall as [|e rest He _ IH]; [reflexivity|].
  cbn [filter]. now rewrite (Hpq e He).
Qed.

Lemma namespace_a_not_ec (e : event) :
  is_namespace_a e = true -> is_ec_access e = false.
Proof. destruct e; cbn; congruence. Qed.

Lemma namespace_a_not_ec_read (e : event) :
  is_namespace_a e = true -> is_ec_read e = false.
Proof. destruct e; cbn; congruence. Qed.

Lemma namespace_b_not_ec_read (e : event) :
  is_namespace_b e = true -> is_ec_read e = false.
Proof. destruct e; cbn; congruence. Qed.

Lemma namespace_a_not_b (e : event) :
  is_namespace_a e = true -> is_namespace_b e = false.
Proof.
  destruct e as [guid ? ? ?| | | |]; cbn; try congruence.
  intros H. apply String.eqb_eq in H. subst guid. reflexivity.
Qed.

Lemma namespace_b_not_a (e : event) :
  is_namespace_b e = true -> is_namespace_a e = false.
Proof.
  destruct e as [guid ? ? ?| | | |]; cbn; try congruence.
  intros H. apply String.eqb_eq in H. subst guid. reflexivity.
Qed.

Lemma ec_access_not_namespace_a (e : event) :
  is_ec_access e = true -> is_namespace_a e = false.
Proof. destruct e; cbn; congruence. Qed.

(** X17: the module initialisation returns in one of five ways.  It gives
    up with [-EIO] before any registration call (only possible when the
    battery GUID is present); or its registration calls and its value are
    decided by the first registration that fails: the platform driver
    (value returned as is), the device allocation ([-ENOMEM]), the device
    addition (value returned as is, the device put back), or none, in
    which case it returns whatever [wmi_driver_register] returns.  The
    cleanup of each failure ends with [wmi_driver_unregister], on paths
    where [wmi_driver_register] was never called; and after a call of
    [wmi_driver_register] nothing is undone, whatever it returned. *)
Theorem module_init_registration_paths
    (K : env) (B : boot_env) (w : world) :
  let r := fst (result_of (acer_wmi_ext_init K B) w) in
  let calls := snd (result_of (acer_wmi_ext_init K B) w) in
  ((r = - EIO /\ calls = [] /\ wmi_has_guid K WMI_GUID1 = true) \/
   (platform_driver_register B <> 0 /\ r = platform_driver_register B /\
    calls = [CallPlatformDriverRegister; CallWmiDriverUnregister]) \/
   (platform_driver_register B = 0 /\ platform_device_alloc B = 0 /\
    r = - ENOMEM /\
    calls = [CallPlatformDriverRegister; CallPlatformDeviceAlloc;
             CallPlatformDriverUnregister; CallWmiDriverUnregister]) \/
   (platform_driver_register B = 0 /\ platform_device_alloc B <> 0 /\
    platform_device_add B <> 0 /\ r = platform_device_add B /\
    calls = [CallPlatformDriverRegister; CallPlatformDeviceAlloc;
             CallPlatformDeviceAdd (platform_device_alloc B);
             CallPlatformDevicePut (platform_device_alloc B);
             CallPlatformDriverUnregister; CallWmiDriverUnregister]) \/
   (platform_driver_register B = 0 /\ platform_device_alloc B <> 0 /\
    platform_device_add B = 0 /\ r = wmi_driver_register B /\
    calls = [CallPlatformDriverRegister; CallPlatformDeviceAlloc;
             CallPlatformDeviceAdd (platform_device_alloc B);
             CallWmiDriverRegister])) /\
  (In CallWmiDriverUnregister calls -> ~ In CallWmiDriverRegister calls) /\
  (In CallWmiDriverRegister calls ->
   ~ In CallPlatformDriverUnregister calls /\
   ~ In (CallPlatformDevicePut (platform_device_alloc B)) calls).
Proof.
  intros r calls.
  assert (Hcases :
    (r = - EIO /\ calls = [] /\ wmi_has_guid K WMI_GUID1 = true) \/
    (r, calls) = result_of (init_devices_stage K B) w).
  { subst r calls.
    destruct (init_first_stage K B w)
      as (w2 & evs & b & _ & _ & _ & _ & [(Hinit & Hguid & _)|Hinit]).
    - left. unfold result_of. rewrite Hinit. repeat split. exact Hguid.
    - right. unfold result_of at 1 2. rewrite Hinit.
      fold (result_of (init_devices_stage K B) w2).
      rewrite (init_devices_stage_result K B w2),
              (init_devices_stage_result K B w).
      now destruct (if negb (platform_driver_register B =? 0) then _ else _). }
  rewrite init_devices_stage_result in Hcases.
  assert (Hpaths : _) by exact Hcases. clear Hcases.
  destruct Hpaths as [(Hr & Hc & Hg)|Hstage].
  - split; [left; repeat split; assumption|].
    rewrite Hc. split; [intros []|intros []].
  - destruct (Z.eqb_spec (platform_driver_register B) 0) as [E1|E1];
      cbn [negb] in Hstage.
    2: { injection Hstage as Hr Hc. rewrite Hc.
         split; [right; left; repeat split; assumption|].
         split.
         - intros _ [H|[H|[]]]; discriminate.
         - intros [H|[H|[]]]; discriminate. }
    destruct (Z.eqb_spec (platform_device_alloc B) 0) as [E2|E2].
    { injection Hstage as Hr Hc. rewrite Hc.
      split; [right; right; left; repeat split; assumption|].
      split.
      - intros _ [H|[H|[H|[H|[]]]]]; discriminate.
      - intros [H|[H|[H|[H|[]]]]]; discriminate. }
    destruct (Z.eqb_spec (platform_device_add B) 0) as [E3|E3];
      cbn [negb] in Hstage.
    2: { injection Hstage as Hr Hc. rewrite Hc.
         split; [right; right; right; left; repeat split; assumption|].
         split.
         - intros _ [H|[H|[H|[H|[H|[H|[]]]]]]]; discriminate.
         - intros [H|[H|[H|[H|[H|[H|[]]]]]]]; discriminate. }
    injection Hstage as Hr Hc. rewrite Hc.
    split; [right; right; right; right; repeat split; assumption|].
    split.
    + intros [H|[H|[H|[H|[]]]]]; discriminate.
    + intros _. split; intros [H|[H|[H|[H|[]]]]]; discriminate.
Qed.

(** The device allocation fails: [-ENOMEM], and the WMI driver that was
    never registered is unregistered. *)
Lemma module_init_registration_paths_witness :
  let K := stub_env wmi_battery_ok (fun _ _ => (0, x01)) (fun _ _ _ => 0)
             (fun _ => 4096) in
  result_of (acer_wmi_ext_init K (stub_boot [] 0 0 0 0)) (loaded (-1) (-1))
  = (- ENOMEM,
     [CallPlatformDriverRegister; CallPlatformDeviceAlloc;
      CallPlatformDriverUnregister; CallWmiDriverUnregister]).
Proof.
  intros K.
  destruct (module_init_registration_paths K (stub_boot [] 0 0 0 0)
              (loaded (-1) (-1))) as [Hpaths _].
  destruct Hpaths as [(_ & Hc & _)|[(H & _)|[(_ & _ & Hr & Hc)|[H|H]]]].
  - vm_compute in Hc. discriminate.
  - cbn in H. contradiction.
  - destruct (result_of _ _) as [r calls]. cbn [fst snd] in *.
    now rewrite Hr, Hc.
  - destruct H as (_ & H & _). cbn in H. contradiction.
  - destruct H as (_ & H & _). cbn in H. contradiction.
Defined.

(** X18: when the module initialisation makes no registration call, it has
    returned [-EIO] because a battery call failed, and it has done nothing
    besides storing the quirk entry and evaluating Namespace-A methods:
    the embedded controller and Namespace B are untouched, and the battery
    cache, the cached control mode, the initialised flag and the cached
    usb-charge mode are as before.  This is the outcome whenever the
    battery GUID is present and the status query reports a failure. *)
Theorem module_init_aborts_on_battery_failure
    (K : env) (B : boot_env) (w : world) :
  let w0 := {| drv := set_quirks (find_quirks B) (drv w); trace := trace w |} in
  let w' := after (acer_wmi_ext_init K B) w in
  (snd (result_of (acer_wmi_ext_init K B) w) = [] ->
   fst (result_of (acer_wmi_ext_init K B) w) = - EIO /\
   wmi_has_guid K WMI_GUID1 = true /\
   drv w' = drv w0 /\
   count_events is_ec_access (emitted (acer_wmi_ext_init K B) w) = 0%nat /\
   count_events is_namespace_b (emitted (acer_wmi_ext_init K B) w) = 0%nat) /\
  (wmi_has_guid K WMI_GUID1 = true ->
   enable_health_mode (drv w) < 0 ->
   ACPI_FAILURE (result_of (get_battery_health_control_status K) w0) = true ->
   result_of (acer_wmi_ext_init K B) w = (- EIO, [])).
Proof.
  intros w0 w'. split.
  - intros Hcalls. subst w'.
    destruct (init_first_stage K B w)
      as (w2 & evs & b & Htr & Hall & Hdrv & _ & [(Hinit & Hguid & Hb)|Hinit]).
    + unfold result_of, after. rewrite Hinit. cbn [fst snd].
      split; [reflexivity|]. split; [exact Hguid|]. split.
      * rewrite Hdrv, Hb. fold w0. subst w0. cbn [drv].
        destruct (drv w); reflexivity.
      * assert (Hem : emitted (acer_wmi_ext_init K B) w = evs)
          by (apply emitted_app; unfold after; now rewrite Hinit).
        rewrite Hem. split.
        -- exact (count_events_none _ _ evs namespace_a_not_ec Hall).
        -- exact (count_events_none _ _ evs namespace_a_not_b Hall).
    + exfalso. unfold result_of in Hcalls. rewrite Hinit in Hcalls.
      fold (result_of (init_devices_stage K B) w2) in Hcalls.
      rewrite init_devices_stage_result in Hcalls.
      destruct (negb (platform_driver_register B =? 0));
        [discriminate|].
      destruct (platform_device_alloc B =? 0); [discriminate|].
      destruct (negb (platform_device_add B =? 0)); discriminate.
  - intros Hguid Hp Hfail.
    pose proof (acer_wmi_ext_init_cases K B w) as Hinit. cbv zeta in Hinit.
    fold w0 in Hinit. rewrite Hguid in Hinit.
    destruct (Z.geb_spec (enable_health_mode (drv w)) 0); [lia|].
    unfold result_of. rewrite Hinit, bind_run. unfold init_state.
    rewrite Hfail. reflexivity.
Qed.

(** The firmware fails every evaluation: the module does not load, and
    nothing but the battery query was attempted. *)
Lemma module_init_aborts_on_battery_failure_witness :
  let B := stub_boot acer_quirks 0 4096 0 0 in
  result_of (acer_wmi_ext_init broken_firmware_env B) (loaded (-1) (-1))
    = (- EIO, []) /\
  count_events is_ec_access
    (emitted (acer_wmi_ext_init broken_firmware_env B) (loaded (-1) (-1)))
    = 0%nat.
Proof.
  intros B.
  destruct (module_init_aborts_on_battery_failure broken_firmware_env B
              (loaded (-1) (-1))) as [Hwhat Hwhen].
  split.
  - apply Hwhen; [reflexivity | cbn; lia | reflexivity].
  - destruct Hwhat as (_ & _ & _ & Hec & _); [reflexivity | exact Hec].
Defined.

(** X19: when the module initialisation reaches its registration calls on
    a machine whose quirk entry has system control mode on, it has read
    the mode register exactly once and set the initialised flag; no
    request served afterwards reads the register again, so the lazy
    initialisation in the profile probe never runs. *)
Theorem module_init_initialises_control_mode
    (K : env) (B : boot_env) (w : world) :
  snd (result_of (acer_wmi_ext_init K B) w) <> [] ->
  system_control_mode (find_quirks B) <> 0 ->
  let w' := after (acer_wmi_ext_init K B) w in
  system_control_mode_inited (drv w') = 1 /\
  count_events is_ec_read (emitted (acer_wmi_ext_init K B) w) = 1%nat /\
  forall rs : list request,
    count_events is_ec_read (emitted (serve_all K rs) w') = 0%nat.
Proof.
  intros Hcalls Hq w'.
  destruct (init_first_stage K B w)
    as (w2 & evs & b & Htr & Hall & Hdrv & _ & [(Hinit & _)|Hinit]).
  { exfalso. apply Hcalls. unfold result_of. now rewrite Hinit. }
  assert (Hq2 : quirks (drv w2) = find_quirks B) by (now rewrite Hdrv).
  assert (Hafter : w' = after (init_devices_stage K B) w2)
    by (subst w'; unfold after; now rewrite Hinit).
  rewrite init_devices_stage_after in Hafter. cbv zeta in Hafter.
  rewrite Hq2 in Hafter.
  destruct (Z.eqb_spec (system_control_mode (find_quirks B)) 0);
    [contradiction|].
  set (w3 := after (acer_system_control_mode_init K) w2) in *.
  pose proof (init_sets_flag K w2) as Hflag. fold w3 in Hflag.
  destruct (init_reads_once K w2) as (e3 & Htr3 & Hread3). fold w3 in Htr3.
  destruct (init_usb_effect K w3) as (e4 & Htr4 & Hall4 & _ & _ & _ & Hflag4).
  assert (Hw' : system_control_mode_inited (drv w') = 1 /\
                exists e5, trace w' = trace w3 ++ e5 /\
                           Forall (fun e => is_namespace_b e = true) e5).
  { destruct (usb_charge_mode (find_quirks B) =? 0); rewrite Hafter.
    - split; [exact Hflag|]. exists []. rewrite app_nil_r. split; constructor.
    - split; [now rewrite Hflag4|]. exists e4. split; assumption. }
  destruct Hw' as (Hinited & e5 & Htr5 & Hall5).
  split; [exact Hinited|]. split.
  - assert (Hem : emitted (acer_wmi_ext_init K B) w = evs ++ e3 ++ e5).
    { apply emitted_app. fold w'. rewrite Htr5, Htr3, Htr.
      now rewrite <- !app_assoc. }
    rewrite Hem, !count_events_app, Hread3.
    rewrite (count_events_none _ _ evs namespace_a_not_ec_read Hall).
    rewrite (count_events_none _ _ e5 namespace_b_not_ec_read Hall5).
    reflexivity.
  - intros rs.
    destruct (serve_all_read_budget K rs w') as (e6 & Htr6 & Hquiet & _).
    rewrite (emitted_app _ _ _ Htr6). apply Hquiet. rewrite Hinited. lia.
Qed.

Lemma module_init_initialises_control_mode_witness :
  let K := stub_env wmi_battery_ok (fun _ _ => (0, x02)) (fun _ _ _ => 0)
             (fun _ => 4096) in
  let B := stub_boot acer_quirks 0 4096 0 0 in
  let w' := after (acer_wmi_ext_init K B) (loaded (-1) (-1)) in
  system_control_mode_inited (drv w') = 1 /\
  count_events is_ec_read (emitted (acer_wmi_ext_init K B) (loaded (-1) (-1)))
    = 1%nat /\
  forall rs : list request,
    count_events is_ec_read (emitted (serve_all K rs) w') = 0%nat.
Proof.
  intros K B.
  apply (module_init_initialises_control_mode K B (loaded (-1) (-1))).
  - vm_compute. discriminate.
  - cbn. discriminate.
Defined.

(** X20: when the battery GUID is absent, the module initialisation
    evaluates no Namespace-A method and leaves the battery cache at its
    initial value, which is 0 for both modes, not -1.  The health store's
    guard therefore lets a later store through: a store whose text is a
    boolean then evaluates the Namespace-A set and query methods although
    the GUID was reported absent. *)
Theorem module_init_without_battery_guid
    (K : env) (B : boot_env) (health_param control_param : Z) :
  wmi_has_guid K WMI_GUID1 = false ->
  let w := loaded health_param control_param in
  let w' := after (acer_wmi_ext_init K B) w in
  count_events is_namespace_a (emitted (acer_wmi_ext_init K B) w) = 0%nat /\
  battery_status (drv w') = {| health_mode := 0; calibration_mode := 0 |} /\
  forall (buf : string) (count : Z) (b : bool),
    kstrtobool K buf = (0, b) ->
    count_events is_namespace_a (emitted (health_mode_store K buf count) w')
    = 2%nat.
Proof.
  intros Hguid w w'.
  destruct (init_first_stage K B w)
    as (w2 & evs & b0 & Htr & Hall & Hdrv & Hsame & [(_ & Hg & _)|Hinit]);
    [congruence|].
  specialize (Hsame Hguid). subst w2.
  set (w0 := {| drv := set_quirks (find_quirks B) (drv w); trace := trace w |})
    in *.
  assert (Hafter : w' = after (init_devices_stage K B) w0)
    by (subst w'; unfold after; now rewrite Hinit).
  rewrite init_devices_stage_after in Hafter. cbv zeta in Hafter.
  set (w3 := if system_control_mode (quirks (drv w0)) =? 0 then w0
             else after (acer_system_control_mode_init K) w0) in *.
  assert (H3 : exists e3, trace w3 = trace w0 ++ e3 /\
                          Forall (fun e => is_ec_access e = true) e3 /\
                          battery_status (drv w3) = battery_status (drv w0)).
  { subst w3. destruct (system_control_mode (quirks (drv w0)) =? 0).
    - exists []. rewrite app_nil_r. repeat split. constructor.
    - destruct (init_ec_effect K w0) as (e3 & H1 & H2 & _ & H4 & _).
      exists e3. repeat split; assumption. }
  destruct H3 as (e3 & Htr3 & Hall3 & Hbat3).
  assert (H4 : exists e4, trace w' = trace w3 ++ e4 /\
                          Forall (fun e => is_namespace_b e = true) e4 /\
                          battery_status (drv w') = battery_status (drv w3)).
  { rewrite Hafter. destruct (usb_charge_mode (quirks (drv w0)) =? 0).
    - exists []. rewrite app_nil_r. repeat split. constructor.
    - destruct (init_usb_effect K w3) as (e4 & H1 & H2 & _ & H4 & _).
      exists e4. repeat split; assumption. }
  destruct H4 as (e4 & Htr4 & Hall4 & Hbat4).
  assert (Hbat : battery_status (drv w')
                 = {| health_mode := 0; calibration_mode := 0 |})
    by (rewrite Hbat4, Hbat3; reflexivity).
  split; [|split; [exact Hbat|]].
  - assert (Hem : emitted (acer_wmi_ext_init K B) w = e3 ++ e4).
    { apply emitted_app. fold w'. rewrite Htr4, Htr3.
      now rewrite <- app_assoc. }
    rewrite Hem, count_events_app.
    rewrite (count_events_none _ _ e3 ec_access_not_namespace_a Hall3).
    rewrite (count_events_none _ _ e4 namespace_b_not_a Hall4).
    reflexivity.
  - intros buf count b Hparse.
    assert (Hcached : 0 <= health_mode (battery_status (drv w')))
      by (rewrite Hbat; cbn; lia).
    pose proof (health_mode_store_runs K w' buf count b Hcached Hparse) as Hrun.
    assert (Hem : emitted (health_mode_store K buf count) w'
                  = [EvWmi WMI_GUID1 0 21 (set_input HEALTH_MODE b);
                     EvWmi WMI_GUID1 0 20 query_input]).
    { apply emitted_app. unfold after at 1. rewrite Hrun. cbn [snd].
      rewrite get_status_trace. cbn [trace]. now rewrite <- app_assoc. }
    rewrite Hem. reflexivity.
Qed.

Lemma module_init_without_battery_guid_witness :
  let B := stub_boot [] 0 4096 0 0 in
  let w' := after (acer_wmi_ext_init no_battery_env B) (loaded (-1) (-1)) in
  count_events is_namespace_a
    (emitted (acer_wmi_ext_init no_battery_env B) (loaded (-1) (-1))) = 0%nat /\
  battery_status (drv w') = {| health_mode := 0; calibration_mode := 0 |} /\
  count_events is_namespace_a
    (emitted (health_mode_store no_battery_env "1" 2) w') = 2%nat.
Proof.
  intros B.
  destruct (module_init_without_battery_guid no_battery_env B (-1) (-1)
              eq_refl) as (Hnone & Hbat & Hstore).
  split; [exact Hnone|]. split; [exact Hbat|].
  apply (Hstore "1"%string 2 true). reflexivity.
Defined.

(** X21: the quirk entry after the module initialisation.  When the DMI
    lookup runs the callback on no entry, the entry is [quirk_unknown],
    both quirks off: the initialisation then touches neither the embedded
    controller nor Namespace B and leaves the cached control mode, the
    initialised flag and the cached usb-charge mode as they were.  When
    the lookup runs the callback on the table's entry, both quirks are
    on. *)
Theorem module_init_resolves_quirks
    (K : env) (B : boot_env) (w : world) :
  let w' := after (acer_wmi_ext_init K B) w in
  quirks (drv w') = find_quirks B /\
  (dmi_check_system B acer_quirks = [] ->
   quirks (drv w') = quirk_unknown /\
   count_events is_ec_access (emitted (acer_wmi_ext_init K B) w) = 0%nat /\
   count_events is_namespace_b (emitted (acer_wmi_ext_init K B) w) = 0%nat /\
   control_mode (drv w') = control_mode (drv w) /\
   system_control_mode_inited (drv w') = system_control_mode_inited (drv w) /\
   usb_charge_mode_enable (drv w') = usb_charge_mode_enable (drv w)) /\
  (dmi_check_system B acer_quirks = acer_quirks ->
   system_control_mode (quirks (drv w')) = 1 /\
   usb_charge_mode (quirks (drv w')) = 1).
Proof.
  intros w'.
  destruct (init_first_stage K B w)
    as (w2 & evs & b & Htr & Hall & Hdrv & _ & Hinit).
  assert (Hq2 : quirks (drv w2) = find_quirks B) by (now rewrite Hdrv).
  assert (Hquirks : quirks (drv w') = find_quirks B).
  { subst w'. destruct Hinit as [(Hinit & _)|Hinit].
    - unfold after. rewrite Hinit. exact Hq2.
    - unfold after. rewrite Hinit.
      fold (after (init_devices_stage K B) w2).
      rewrite init_devices_stage_after. cbv zeta.
      destruct (init_ec_effect K w2) as (e3 & _ & _ & Hq3 & _).
      set (w3 := if system_control_mode (quirks (drv w2)) =? 0 then w2
                 else after (acer_system_control_mode_init K) w2).
      assert (Hq3' : quirks (drv w3) = quirks (drv w2))
        by (subst w3; destruct (_ =? 0); [reflexivity | exact Hq3]).
      destruct (init_usb_effect K w3) as (e4 & _ & _ & Hq4 & _).
      destruct (usb_charge_mode (quirks (drv w2)) =? 0);
        [|rewrite Hq4]; now rewrite Hq3'. }
  split; [exact Hquirks|]. split.
  - intros Hdmi.
    assert (Hunknown : find_quirks B = quirk_unknown)
      by (unfold find_quirks; now rewrite Hdmi).
    rewrite Hquirks, Hunknown. split; [reflexivity|].
    assert (Hend : w' = w2).
    { subst w'. destruct Hinit as [(Hinit & _)|Hinit].
      - unfold after. now rewrite Hinit.
      - unfold after. rewrite Hinit.
        fold (after (init_devices_stage K B) w2).
        rewrite init_devices_stage_after. cbv zeta.
        rewrite Hq2, Hunknown. reflexivity. }
    assert (Hem : emitted (acer_wmi_ext_init K B) w = evs)
      by (apply emitted_app; fold w'; now rewrite Hend).
    rewrite Hem, Hend, Hdrv.
    split; [exact (count_events_none _ _ evs namespace_a_not_ec Hall)|].
    split; [exact (count_events_none _ _ evs namespace_a_not_b Hall)|].
    repeat split.
  - intros Hdmi. rewrite Hquirks. unfold find_quirks. rewrite Hdmi.
    split; reflexivity.
Qed.

Lemma module_init_resolves_quirks_witness :
  let K := stub_env wmi_battery_ok (fun _ _ => (0, x02)) (fun _ _ _ => 0)
             (fun _ => 4096) in
  let unlisted := after (acer_wmi_ext_init K (stub_boot [] 0 4096 0 0))
                    (loaded (-1) (-1)) in
  let listed := after (acer_wmi_ext_init K (stub_boot acer_quirks 0 4096 0 0))
                  (loaded (-1) (-1)) in
  (quirks (drv unlisted) = quirk_unknown /\ control_mode (drv unlisted) = -1) /\
  system_control_mode (quirks (drv listed)) = 1 /\
  usb_charge_mode (quirks (drv listed)) = 1.
Proof.
  intros K. split.
  - destruct (module_init_resolves_quirks K (stub_boot [] 0 4096 0 0)
                (loaded (-1) (-1))) as (_ & Hno & _).
    destruct (Hno eq_refl) as (Hq & _ & _ & Hm & _).
    split; [exact Hq | exact Hm].
  - destruct (module_init_resolves_quirks K (stub_boot acer_quirks 0 4096 0 0)
                (loaded (-1) (-1))) as (_ & _ & Hyes).
    apply Hyes. reflexivity.
Defined.

(** Everything after the optional set call only appends to the trace. *)
Lemma init_query_stage_trace (K : env) (B : boot_env) (x : world) :
  exists evs : list event,
    trace (after (status <- init_state K ;;
                  if ACPI_FAILURE status then ret (- EIO, [])
                  else init_devices_stage K B) x)
    = trace x ++ EvWmi WMI_GUID1 0 20 query_input :: evs.
Proof.
  rewrite after_bind. unfold init_state.
  pose proof (get_status_trace K x) as Htr.
  set (x1 := after (get_battery_health_control_status K) x) in *.
  destruct (ACPI_FAILURE _).
  - exists []. exact Htr.
  - rewrite init_devices_stage_after. cbv zeta.
    set (x2 := if system_control_mode (quirks (drv x1)) =? 0 then x1
               else after (acer_system_control_mode_init K) x1).
    assert (H2 : exists e2, trace x2 = trace x1 ++ e2).
    { subst x2. destruct (_ =? 0).
      - exists []. now rewrite app_nil_r.
      - destruct (init_ec_effect K x1) as (e2 & He2 & _). now exists e2. }
    destruct H2 as (e2 & He2).
    destruct (usb_charge_mode (quirks (drv x1)) =? 0).
    + exists e2. rewrite He2, Htr, <- app_assoc. reflexivity.
    + destruct (init_usb_effect K x2) as (e3 & He3 & _).
      exists (e2 ++ e3). rewrite He3, He2, Htr, <- !app_assoc. reflexivity.
Qed.

(** X22: with the battery GUID present, a non-negative [enable_health_mode]
    parameter makes the Namespace-A set call the first call of the module
    initialisation, with the health bit and a status byte of 0 for the
    parameter 0 and of 1 for every positive parameter, and the status query
    the second; when that set call fails the initialisation returns [-EIO]
    without querying.  With a negative parameter the first call is the
    status query. *)
Theorem module_init_applies_health_parameter
    (K : env) (B : boot_env) (w : world) :
  wmi_has_guid K WMI_GUID1 = true ->
  let p := enable_health_mode (drv w) in
  let w0 := {| drv := set_quirks (find_quirks B) (drv w); trace := trace w |} in
  let set_call :=
    EvWmi WMI_GUID1 0 21
      [x01; x01; if p =? 0 then x00 else x01; x00; x00; x00; x00; x00] in
  let query_call := EvWmi WMI_GUID1 0 20 [x01; x01; x00; x00] in
  (0 <= p ->
   let failed :=
     ACPI_FAILURE
       (result_of (set_battery_health_control K HEALTH_MODE (negb (p =? 0)))
          w0) in
   (failed = true ->
    emitted (acer_wmi_ext_init K B) w = [set_call] /\
    result_of (acer_wmi_ext_init K B) w = (- EIO, [])) /\
   (failed = false ->
    exists rest : list event,
      emitted (acer_wmi_ext_init K B) w = set_call :: query_call :: rest)) /\
  (p < 0 ->
   exists rest : list event,
     emitted (acer_wmi_ext_init K B) w = query_call :: rest).
Proof.
  intros Hguid p w0 set_call query_call.
  pose proof (acer_wmi_ext_init_cases K B w) as Hinit. cbv zeta in Hinit.
  fold p w0 in Hinit. rewrite Hguid in Hinit.
  assert (Hset : set_input HEALTH_MODE (negb (p =? 0))
                 = [x01; x01; if p =? 0 then x00 else x01;
                    x00; x00; x00; x00; x00])
    by (destruct (p =? 0); reflexivity).
  rewrite Hset in Hinit. fold set_call in Hinit.
  split.
  - intros Hp failed. subst failed.
    destruct (Z.geb_spec p 0); [|lia].
    split.
    + intros Hfail. rewrite Hfail in Hinit.
      split; [|unfold result_of; now rewrite Hinit].
      apply emitted_app. unfold after. now rewrite Hinit.
    + intros Hok. rewrite Hok in Hinit.
      match type of Hinit with
      | _ = _ ?x =>
          destruct (init_query_stage_trace K B x) as (rest & Hrest)
      end.
      exists rest. apply emitted_app. unfold after at 1. rewrite Hinit.
      unfold after in Hrest. rewrite Hrest. cbn [trace].
      now rewrite <- app_assoc.
  - intros Hp. destruct (Z.geb_spec p 0); [lia|].
    destruct (init_query_stage_trace K B w0) as (rest & Hrest).
    exists rest. apply emitted_app. unfold after at 1. rewrite Hinit.
    unfold after in Hrest. rewrite Hrest. reflexivity.
Qed.

(** The parameter 5 switches health mode on: status byte 1. *)
Lemma module_init_applies_health_parameter_witness :
  let K := stub_env wmi_battery_ok (fun _ _ => (0, x02)) (fun _ _ _ => 0)
             (fun _ => 4096) in
  exists rest : list event,
    emitted (acer_wmi_ext_init K (stub_boot [] 0 4096 0 0)) (loaded 5 (-1))
    = EvWmi WMI_GUID1 0 21 [x01; x01; x01; x00; x00; x00; x00; x00]
      :: EvWmi WMI_GUID1 0 20 [x01; x01; x00; x00] :: rest.
Proof.
  intros K.
  destruct (module_init_applies_health_parameter K (stub_boot [] 0 4096 0 0)
              (loaded 5 (-1)) eq_refl) as [Hset _].
  destruct Hset as [_ Hok]; [cbn; lia|].
  apply Hok. reflexivity.
Defined.

(** ** Stores followed by reads *)

(** X23: what a battery attribute shows after a store is what the
    firmware reports in the refresh, not what was stored.  After a health
    or calibration store whose refresh is answered by an eight-byte
    buffer, both attributes print the tri-state decoded from that buffer,
    whatever boolean the store carried. *)
Theorem battery_store_then_show
    (K : env) (w : world) (buf : string) (count status : Z) (b : bool)
    (function : Z) (b0 b1 b2 b3 b4 b5 b6 b7 : byte) :
  kstrtobool K buf = (0, b) ->
  wmi_evaluate_method K
    (trace w ++ [EvWmi WMI_GUID1 0 21 (set_input function b)])
    WMI_GUID1 0 20 query_input
    = (status, Some (ACPI_TYPE_BUFFER [b0; b1; b2; b3; b4; b5; b6; b7])) ->
  ACPI_FAILURE status = false ->
  let health := if Z.testbit (byte_val b0) 0
                then (if 0 <? byte_val b3 then 1 else 0) else -1 in
  let calibration := if Z.testbit (byte_val b0) 1
                     then (if 0 <? byte_val b4 then 1 else 0) else -1 in
  let shows (w' : world) :=
    result_of health_mode_show w' = sprintf_d health /\
    result_of calibration_mode_show w' = sprintf_d calibration in
  (function = HEALTH_MODE ->
   0 <= health_mode (battery_status (drv w)) ->
   shows (after (health_mode_store K buf count) w)) /\
  (function = CALIBRATION_MODE ->
   0 <= calibration_mode (battery_status (drv w)) ->
   shows (after (calibration_mode_store K buf count) w)).
Proof.
  intros Hparse Hanswer Hok health calibration shows.
  assert (Hrefresh :
    battery_status
      (drv (after (get_battery_health_control_status K)
              {| drv := drv w;
                 trace := trace w
                          ++ [EvWmi WMI_GUID1 0 21 (set_input function b)] |}))
    = {| health_mode := health; calibration_mode := calibration |}).
  { unfold after. rewrite get_status_cases. cbv zeta. cbn [trace].
    rewrite Hanswer. cbn [fst snd]. rewrite Hok.
    cbn [buffer_length List.length Z.of_nat Pos.of_succ_nat Pos.succ Z.eqb
         Pos.eqb decode_get_output uFunctionList uFunctionStatus nth
         drv set_battery_status battery_status].
    subst health calibration. rewrite !Z.gtb_ltb. reflexivity. }
  assert (Hshows : forall w' : world,
             battery_status (drv w')
             = {| health_mode := health; calibration_mode := calibration |} ->
             shows w').
  { intros w' Hb. subst shows. cbv beta.
    unfold health_mode_show, calibration_mode_show, result_of, bind, load, ret.
    cbn [fst]. rewrite Hb. split; reflexivity. }
  split.
  - intros -> Hcached. apply Hshows.
    pose proof (health_mode_store_runs K w buf count b Hcached Hparse) as Hrun.
    unfold after at 1. rewrite Hrun. exact Hrefresh.
  - intros -> Hcached. apply Hshows.
    pose proof (calibration_mode_store_runs K w buf count b Hcached Hparse)
      as Hrun.
    unfold after at 1. rewrite Hrun. exact Hrefresh.
Qed.

(** The firmware keeps reporting both modes off: writing "1" to the health
    attribute leaves it reading 0. *)
Lemma battery_store_then_show_witness :
  let K := stub_env wmi_battery_ok (fun _ _ => (0, x01)) (fun _ _ _ => 0)
             (fun _ => 4096) in
  let w := boot (-1) (-1) quirk_unknown in
  result_of health_mode_show (after (health_mode_store K "1" 2) w)
    = sprintf_d 0 /\
  result_of calibration_mode_show (after (health_mode_store K "1" 2) w)
    = sprintf_d 0.
Proof.
  intros K w.
  destruct (battery_store_then_show K w "1" 2 AE_OK true HEALTH_MODE
              x03 x00 x00 x00 x00 x00 x00 x00 eq_refl eq_refl eq_refl)
    as [Hhealth _].
  apply Hhealth; [reflexivity | cbn; lia].
Defined.

(** X24: when a usb-charge-mode store returns a positive [count], the byte
    that [sscanf] stored in the one-byte [val] is 0 or 1 (whatever text
    produced it: [%hhd] keeps the low eight bits, so the text 256 stores 0
    as the text 0 does), the store made exactly one Namespace-B set call,
    with the operand 663300 for a stored 0 and 1969924 for a stored 1, and
    the attribute then reads as the stored byte. *)
Theorem usb_charge_mode_store_then_show
    (K : env) (w : world) (buf : string) (count : Z) :
  0 < count ->
  result_of (usb_charge_mode_store K buf count) w = count ->
  let w' := after (usb_charge_mode_store K buf count) w in
  exists val operand : Z,
    In (val, operand) [(0, 663300); (1, 1969924)] /\
    byte_val (snd (sscanf_hhd K buf)) = val /\
    emitted (usb_charge_mode_store K buf count) w
      = [EvWmi WMI_GUID2 0 ACER_WMID_SET_FUNCTION (bytes_of_u64 operand)] /\
    usb_charge_mode_enable (drv w') = val /\
    result_of usb_charge_mode_show w' = sprintf_d val.
Proof.
  intros Hcount Hres w'.
  assert (Hq : usb_charge_mode (quirks (drv w)) <> 0).
  { intros Hq. revert Hres.
    unfold usb_charge_mode_store, result_of, bind, load, ret.
    rewrite Hq. cbn. unfold EOPNOTSUPP. lia. }
  destruct (sscanf_hhd K buf) as [n stored] eqn:Hparse.
  assert (Hn : n = 1).
  { destruct (Z.eq_dec n 1) as [|Hn]; [assumption|]. exfalso. revert Hres.
    unfold usb_charge_mode_store, result_of. unfold bind at 1. unfold load, ret.
    destruct (Z.eqb_spec (usb_charge_mode (quirks (drv w))) 0);
      [contradiction|].
    rewrite Hparse. destruct (Z.eqb_spec n 1); [contradiction|].
    cbn. unfold EINVAL. lia. }
  subst n.
  assert (Hval : byte_val stored = 0 \/ byte_val stored = 1).
  { destruct (Z.eq_dec (byte_val stored) 0) as [|H0]; [left; assumption|].
    destruct (Z.eq_dec (byte_val stored) 1) as [|H1]; [right; assumption|].
    exfalso. revert Hres.
    unfold usb_charge_mode_store, result_of. unfold bind at 1. unfold load, ret.
    destruct (Z.eqb_spec (usb_charge_mode (quirks (drv w))) 0);
      [contradiction|].
    rewrite Hparse. cbn [Z.eqb Pos.eqb negb].
    destruct (Z.eqb_spec (byte_val stored) 0); [contradiction|].
    destruct (Z.eqb_spec (byte_val stored) 1); [contradiction|].
    cbn. unfold EINVAL. lia. }
  assert (Hpair : exists operand,
             In (byte_val stored, operand) [(0, 663300); (1, 1969924)]).
  { destruct Hval as [-> | ->];
      [exists 663300; left | exists 1969924; right; left]; reflexivity. }
  destruct Hpair as [operand Hin].
  pose proof (usb_charge_mode_store_runs K w buf count stored operand
                Hq Hparse Hin) as Hrun.
  cbv zeta in Hrun.
  exists (byte_val stored), operand. cbn [snd].
  split; [exact Hin|]. split; [reflexivity|].
  subst w'. unfold after. rewrite Hrun. cbn [snd drv].
  split; [apply emitted_app; unfold after; now rewrite Hrun|].
  split; [reflexivity|].
  unfold usb_charge_mode_show, result_of, bind, load, ret. reflexivity.
Qed.

(** With the texts converted as the kernel converts them, the text 256
    stores the byte 0: the store switches charging off with the operand
    663300 and the attribute then reads 0. *)
Lemma usb_charge_mode_store_then_show_witness :
  let w := boot (-1) (-1) quirk_acer_sfg174_73 in
  let w' := after (usb_charge_mode_store kernel_env "256" 4) w in
  emitted (usb_charge_mode_store kernel_env "256" 4) w
    = [EvWmi WMI_GUID2 0 ACER_WMID_SET_FUNCTION (bytes_of_u64 663300)] /\
  usb_charge_mode_enable (drv w') = 0 /\
  result_of usb_charge_mode_show w' = sprintf_d 0.
Proof.
  intros w w'.
  destruct (usb_charge_mode_store_then_show kernel_env w "256" 4)
    as (val & operand & Hin & Hval & Hemit & Hmode & Hshow);
    [lia | reflexivity |].
  change (byte_val (snd (sscanf_hhd kernel_env "256"))) with 0 in Hval.
  subst val.
  assert (Hop : operand = 663300).
  { destruct Hin as [E|[E|[]]]; [now injection E | discriminate E]. }
  subst operand.
  split; [exact Hemit|]. split; [exact Hmode|]. exact Hshow.
Defined.
